(** * Odoo XML-RPC inventory API: a shallow embedding of
      [list_inventory_lambda.py]

    The Lambda handler is embedded as a program over the ERP's RPC interface:
    every [common.authenticate] and [models.execute_kw] of the source is one
    [Rpc] node, Python exceptions are [Raise] nodes, and [try]/[except] is
    [try_except].  A run against a server yields the final server state, the
    list of RPC calls issued, and the HTTP response.  [print] statements are
    not modelled. *)

From stdpp Require Import base list gmap strings pretty.
From Stdlib Require Import ZArith String Ascii.

Local Open Scope string_scope.
Local Open Scope Z_scope.
Local Open Scope list_scope.

(** ** Python strings

    A Python [str] is held as its UTF-8 encoding, so that a string literal of
    this file is the string it shows.  [split] on ['/'] and the substring
    test work on the encoding as they do on the characters; [lower] changes
    the letters A-Z only, which is all that a comparison with
    ['x-client-id'], ['x-client-secret'] or ['true'] can see; [strip] knows
    the white space of Unicode. *)

Module PyStr.

Definition code (c : ascii) : Z := Z.of_N (N_of_ascii c).

(** [str.lower] on one character; only A-Z have a lower-case form here. *)
Definition lower_char (c : ascii) : ascii :=
  if (65 <=? code c) && (code c <=? 90)
  then ascii_of_N (Z.to_N (code c + 32)) else c.

Fixpoint lower (s : string) : string :=
  match s with
  | EmptyString => EmptyString
  | String c r => String (lower_char c) (lower r)
  end.

(** The number of bytes of the character that starts with the byte [c]. *)
Definition width (c : ascii) : nat :=
  if code c <? 192 then 1 else if code c <? 224 then 2 else if code c <? 240 then 3 else 4.

(** The characters of a string, each as its bytes. *)
Fixpoint chars (s : string) : list string :=
  match s with
  | EmptyString => []
  | String c1 r1 =>
      match width c1, r1 with
      | 2%nat, String c2 r2 => String c1 (String c2 EmptyString) :: chars r2
      | 3%nat, String c2 (String c3 r3) =>
          String c1 (String c2 (String c3 EmptyString)) :: chars r3
      | 4%nat, String c2 (String c3 (String c4 r4)) =>
          String c1 (String c2 (String c3 (String c4 EmptyString))) :: chars r4
      | _, _ => String c1 EmptyString :: chars r1
      end
  end.

Fixpoint bytes (s : string) : list Z :=
  match s with
  | EmptyString => []
  | String c r => code c :: bytes r
  end.

(** The characters removed by [str.strip()], those on which [str.isspace]
    holds: U+0009..U+000D, U+001C..U+0020, U+0085, U+00A0, U+1680,
    U+2000..U+200A, U+2028, U+2029, U+202F, U+205F and U+3000. *)
Definition is_space (ch : string) : bool :=
  match bytes ch with
  | [b] => ((9 <=? b) && (b <=? 13)) || ((28 <=? b) && (b <=? 32))
  | [194; b] => (b =? 133) || (b =? 160)
  | [225; 154; 128] => true
  | [226; 128; b] => ((128 <=? b) && (b <=? 138)) || (b =? 168) || (b =? 169) || (b =? 175)
  | [226; 129; 159] => true
  | [227; 128; 128] => true
  | _ => false
  end.

Fixpoint drop_spaces (l : list string) : list string :=
  match l with
  | [] => []
  | ch :: r => if is_space ch then drop_spaces r else l
  end.

Definition lstrip (s : string) : string := String.concat "" (drop_spaces (chars s)).

Definition rstrip (s : string) : string :=
  String.concat "" (rev (drop_spaces (rev (chars s)))).

Definition strip (s : string) : string := rstrip (lstrip s).

(** [s.split(sep)] for a one-character separator: the pieces between
    separators, empty pieces included. *)
Fixpoint split (sep : ascii) (s : string) : list string :=
  match s with
  | EmptyString => [EmptyString]
  | String c r =>
      if Ascii.eqb c sep then EmptyString :: split sep r
      else match split sep r with
           | p :: ps => String c p :: ps
           | [] => [String c EmptyString]
           end
  end.

Fixpoint starts_with (p s : string) : bool :=
  match p, s with
  | EmptyString, _ => true
  | String a p', String b s' => Ascii.eqb a b && starts_with p' s'
  | String _ _, EmptyString => false
  end.

(** [needle in hay] on two strings: substring test. *)
Fixpoint contains (needle hay : string) : bool :=
  starts_with needle hay ||
  match hay with
  | EmptyString => false
  | String _ r => contains needle r
  end.

Definition digit_of (c : ascii) : option Z :=
  if (48 <=? code c) && (code c <=? 57) then Some (code c - 48) else None.

(** The digit part of an [int()] literal: decimal digits, single underscores
    allowed between two digits. *)
Fixpoint digits_value (s : string) (acc : Z) (after_digit : bool) : option Z :=
  match s with
  | EmptyString => if after_digit then Some acc else None
  | String c r =>
      if Ascii.eqb c "_"
      then (if after_digit then digits_value r acc false else None)
      else match digit_of c with
           | Some d => digits_value r (10 * acc + d) true
           | None => None
           end
  end.

(** [int(s)] on a string of ASCII digits, base 10; [None] is
    [ValueError]. *)
Definition ascii_int (s : string) : option Z :=
  match strip s with
  | String "+" r => digits_value r 0 false
  | String "-" r => Z.opp <$> digits_value r 0 false
  | t => digits_value t 0 false
  end.

(** The double-quote character, as a string. *)
Definition dq : string := String (ascii_of_N 34) EmptyString.

End PyStr.

(** ** Python exceptions *)

Inductive exn_class :=
| JSONDecodeError | ValueError | TypeError | AttributeError | KeyError
| IndexError | OverflowError | Fault | OtherException.

(** [exn_str] is [str(e)]; [faultString] is read on [xmlrpc.client.Fault]
    only. *)
Record exn := Exn { exn_cls : exn_class; exn_str : string; faultString : string }.

Definition py_error (cls : exn_class) (msg : string) : exn := Exn cls msg "".

(** [except json.JSONDecodeError] *)
Definition is_JSONDecodeError (e : exn) : bool :=
  match exn_cls e with JSONDecodeError => true | _ => false end.

(** [except (ValueError, TypeError)]; [JSONDecodeError] subclasses
    [ValueError]. *)
Definition is_ValueError_or_TypeError (e : exn) : bool :=
  match exn_cls e with
  | ValueError | TypeError | JSONDecodeError => true
  | _ => false
  end.

(** [except xmlrpc.client.Fault] *)
Definition is_Fault (e : exn) : bool :=
  match exn_cls e with Fault => true | _ => false end.

(** [except Exception] *)
Definition is_Exception (e : exn) : bool := true.

(** A pure computation that may raise. *)
Definition res (A : Type) : Type := exn + A.

#[global] Instance res_ret : MRet res := λ A a, inr a.
#[global] Instance res_bind : MBind res :=
  λ A B f m, match m with inl e => inl e | inr a => f a end.

Definition of_option {A} (cls : exn_class) (msg : string) (o : option A) : res A :=
  match o with Some a => inr a | None => inl (py_error cls msg) end.

(** ** Python values

    Floating point and the Unicode database of the interpreter are not
    modelled: the floats of the Python runtime are an abstract type with the
    operations the handler applies to them, and which strings [int()] and
    [float()] read as a number (any Unicode decimal digit counts) is left to
    the runtime. *)

Class PyRuntime := {
  float : Type;
  (** [int(s)] on a string; [None] is [ValueError] *)
  int_of_str : string → option Z;
  (** [float(n)] on an int; [None] is [OverflowError] *)
  float_of_int : Z → option float;
  (** [float(s)] on a string; [None] is [ValueError] *)
  float_of_str : string → option float;
  (** [x < 0] *)
  float_neg : float → bool;
  (** [bool(x)] *)
  float_truthy : float → bool;
  (** [int(x)]: [ValueError] on nan, [OverflowError] on infinities *)
  float_trunc : float → res Z;
  (** [repr(x)] on a float and on a string *)
  float_repr : float → string;
  str_repr : string → string;
}.

(** What [json.loads] returns. *)
#[warnings="-register-all"] Inductive json `{PyRuntime} :=
| JNull
| JBool (b : bool)
| JInt (n : Z)
| JFloat (x : float)
| JString (s : string)
| JArray (items : list json)
| JObject (members : list (string * json)).

Section Python.
Context `{PyRuntime}.

(** Truth value of a Python object, as tested by [if v:] and [not v]. *)
Definition truthy (v : json) : bool :=
  match v with
  | JNull => false
  | JBool b => b
  | JInt n => negb (n =? 0)
  | JFloat x => float_truthy x
  | JString s => negb (String.eqb s "")
  | JArray items => match items with [] => false | _ => true end
  | JObject members => match members with [] => false | _ => true end
  end.

Fixpoint assoc {A} (k : string) (l : list (string * A)) : option A :=
  match l with
  | [] => None
  | (k', v) :: r => if String.eqb k k' then Some v else assoc k r
  end.

Definition is_key {A} (k : string) (l : list (string * A)) : bool :=
  match assoc k l with Some _ => true | None => false end.

Definition is_JString (k : string) (v : json) : bool :=
  match v with JString s => String.eqb s k | _ => false end.

(** [k in data]: key test on a dict, element test on a list, substring
    test on a string, [TypeError] otherwise. *)
Definition py_in (k : string) (data : json) : res bool :=
  match data with
  | JObject members => inr (is_key k members)
  | JArray items => inr (existsb (is_JString k) items)
  | JString s => inr (PyStr.contains k s)
  | _ => inl (py_error TypeError "argument is not iterable")
  end.

(** [data.get(k, default)]: only dicts have [get]. *)
Definition py_get (data : json) (k : string) (dflt : json) : res json :=
  match data with
  | JObject members => inr (default dflt (assoc k members))
  | _ => inl (py_error AttributeError "object has no attribute 'get'")
  end.

(** [data[k]] with a string key. *)
Definition py_getitem (data : json) (k : string) : res json :=
  match data with
  | JObject members => of_option KeyError k (assoc k members)
  | JArray _ | JString _ =>
      inl (py_error TypeError "indices must be integers")
  | _ => inl (py_error TypeError "object is not subscriptable")
  end.

(** [v.strip()]: only strings have [strip]. *)
Definition py_strip (v : json) : res string :=
  match v with
  | JString s => inr (PyStr.strip s)
  | _ => inl (py_error AttributeError "object has no attribute 'strip'")
  end.

(** [int(v)] *)
Definition py_int (v : json) : res Z :=
  match v with
  | JInt n => inr n
  | JBool b => inr (if b then 1 else 0)
  | JFloat x => float_trunc x
  | JString s => of_option ValueError "invalid literal for int()" (int_of_str s)
  | _ => inl (py_error TypeError "int() argument must be a string or a number")
  end.

(** [float(v)] *)
Definition py_float (v : json) : res float :=
  match v with
  | JInt n => of_option OverflowError "int too large to convert to float" (float_of_int n)
  | JBool b => of_option OverflowError "int too large to convert to float"
                 (float_of_int (if b then 1 else 0))
  | JFloat x => inr x
  | JString s => of_option ValueError "could not convert string to float" (float_of_str s)
  | _ => inl (py_error TypeError "float() argument must be a string or a number")
  end.

Fixpoint join (sep : string) (l : list string) : string :=
  match l with
  | [] => ""
  | [s] => s
  | s :: r => s +:+ sep +:+ join sep r
  end.

(** [repr(v)] and [str(v)], as interpolated by f-strings. *)
Fixpoint py_repr (v : json) : string :=
  match v with
  | JNull => "None"
  | JBool b => if b then "True" else "False"
  | JInt n => pretty n
  | JFloat x => float_repr x
  | JString s => str_repr s
  | JArray items => "[" +:+ join ", " (map py_repr items) +:+ "]"
  | JObject members =>
      "{" +:+ join ", " (map (λ kv, str_repr kv.1 +:+ ": " +:+ py_repr kv.2) members) +:+ "}"
  end.

Definition py_str (v : json) : string :=
  match v with JString s => s | _ => py_repr v end.

End Python.

(** ** The ERP's RPC interface

    [common.authenticate] and the [models.execute_kw] calls the handler
    makes, with the type of what each returns. *)

Inductive model := product_product | product_tag.

Inductive verify_mode_t := CERT_NONE | CERT_REQUIRED.

(** The two attributes of [ssl.SSLContext] the handler sets. *)
Record ssl_context := { check_hostname : bool; verify_mode : verify_mode_t }.

(** [xmlrpc.client.ServerProxy(uri, context=...)] *)
Record server_proxy := { uri : string; context : ssl_context }.

(** The keyword arguments of a paged [search]. *)
Record search_kwargs := { kw_limit : Z; kw_offset : Z; kw_order : string }.

Section Interface.
Context `{PyRuntime}.

(** One element of a search domain: the ['|'] marker or a
    [(field, operator, value)] triple. *)
Inductive clause :=
| Or_marker
| Cond (field op : string) (value : json).

Definition domain := list clause.

(** A [product.tag] record as [read] returns it. *)
Record tag := { t_id : Z; t_name : string; t_color : json }.

(** A [product.product] record as [read] returns it; [p_currency_id] is
    [False] or the pair [id, name]; the last five fields are never read by
    the handler, the domain filters on three of them. *)
Record product := {
  p_id : Z;
  p_name : string;
  p_list_price : float;
  p_standard_price : float;
  p_currency_id : option (Z * string);
  p_product_tag_ids : list Z;
  p_default_code : string;
  p_type : string;
  p_categ_id : Z;
  p_sale_ok : bool;
  p_purchase_ok : bool
}.

(** The [tag_data], [product_data] and [update_data] dictionaries. *)
Record tag_data := { td_name : string; td_color : json }.

Record product_data := {
  pd_name : string;
  pd_list_price : float;
  pd_type : string;
  pd_sale_ok : bool;
  pd_purchase_ok : bool;
  pd_product_tag_ids : list (Z * Z * list json);
  pd_standard_price : option float
}.

Record update_data := { ud_list_price : float; ud_standard_price : option float }.

(** Model, method and arguments of one [execute_kw]. *)
Inductive method :=
| Search (m : model) (d : domain) (kw : option search_kwargs)
| SearchCount (m : model) (d : domain)
| ReadProduct (ids : list Z) (fields : list string)
| ReadTag (ids : list Z) (fields : list string)
| CreateTag (vals : tag_data)
| CreateProduct (vals : product_data)
| WriteProduct (ids : list Z) (vals : update_data).

Inductive call :=
| Authenticate (common : server_proxy) (db username password : option string)
| ExecuteKw (models : server_proxy) (db : option string) (uid : Z)
            (password : option string) (m : method).

(** What the ERP returns; [authenticate] returns a uid or [False]. *)
Definition reply (c : call) : Type :=
  match c with
  | Authenticate _ _ _ _ => option Z
  | ExecuteKw _ _ _ _ (Search _ _ _) => list Z
  | ExecuteKw _ _ _ _ (SearchCount _ _) => Z
  | ExecuteKw _ _ _ _ (ReadProduct _ _) => list product
  | ExecuteKw _ _ _ _ (ReadTag _ _) => list tag
  | ExecuteKw _ _ _ _ (CreateTag _) => Z
  | ExecuteKw _ _ _ _ (CreateProduct _) => Z
  | ExecuteKw _ _ _ _ (WriteProduct _ _) => bool
  end.

(** ** Programs over the interface *)

Inductive prog (A : Type) : Type :=
| Ret (a : A)
| Raise (e : exn)
| Rpc (c : call) (k : res (reply c) → prog A).
Arguments Ret {A} a.
Arguments Raise {A} e.
Arguments Rpc {A} c k.

Fixpoint bind {A B} (p : prog A) (f : A → prog B) : prog B :=
  match p with
  | Ret a => f a
  | Raise e => Raise e
  | Rpc c k => Rpc c (λ r, bind (k r) f)
  end.

(** A pure step that may raise. *)
Definition lift {A} (r : res A) : prog A :=
  match r with inl e => Raise e | inr a => Ret a end.

(** One call of a proxy method: a fault, a transport error, or an argument
    that [xmlrpc.client] cannot send, raises. *)
Definition rpc (c : call) : prog (reply c) := Rpc c lift.

(** [try: p  except ... as e: h e]; [h] re-raises what no clause catches. *)
Fixpoint try_except {A} (p : prog A) (h : exn → prog A) : prog A :=
  match p with
  | Ret a => Ret a
  | Raise e => h e
  | Rpc c k => Rpc c (λ r, try_except (k r) h)
  end.

(** An [except C:] clause: catch when [C] matches, re-raise otherwise. *)
Definition except {A} (catches : exn → bool) (h : exn → prog A) (e : exn) : prog A :=
  if catches e then h e else Raise e.

(** ** Servers and runs *)

(** A server is what stands behind the [ServerProxy] objects: it answers
    each call of a proxy method from its state, with the value returned or
    the exception raised.  An exception [xmlrpc.client] raises before it
    sends anything ([OverflowError] for an int outside 32 bits, [TypeError]
    for [None]) is an answer too, one that leaves the state as it is. *)
Definition server (S : Type) : Type := ∀ c : call, S → S * res (reply c).

(** Run a program: final state, calls of the proxies in order, outcome. *)
Fixpoint run {S A} (srv : server S) (p : prog A) (s : S) : S * list call * res A :=
  match p with
  | Ret a => (s, [], inr a)
  | Raise e => (s, [], inl e)
  | Rpc c k =>
      let '(s1, r) := srv c s in
      let '(s2, calls, out) := run srv (k r) s1 in
      (s2, c :: calls, out)
  end.

(** Every value the program can return satisfies [P]. *)
Inductive leaves {A} (P : A → Prop) : prog A → Prop :=
| leaves_ret a : P a → leaves P (Ret a)
| leaves_raise e : leaves P (Raise e)
| leaves_rpc c k : (∀ r, leaves P (k r)) → leaves P (Rpc c k).

(** Every call the program can make satisfies [Q]. *)
Inductive calls_all {A} (Q : call → Prop) : prog A → Prop :=
| calls_ret a : calls_all Q (Ret a)
| calls_raise e : calls_all Q (Raise e)
| calls_rpc c k : Q c → (∀ r, calls_all Q (k r)) → calls_all Q (Rpc c k).

End Interface.

Arguments Ret {_ A} a.
Arguments Raise {_ A} e.
Arguments Rpc {_ A} c k.

(** [let* x := p in k]: run [p], name its result [x], continue with [k]. *)
Notation "'let*' x ':=' p 'in' k" := (bind p (λ x, k))
  (at level 10, x name, p at level 200, k at level 200, only parsing).

(** ** Configuration, events and responses *)

(** The module-level constants read from [os.environ]. *)
Record config := {
  ODOO_URL : option string;
  ODOO_DB : option string;
  ODOO_USERNAME : option string;
  ODOO_PASSWORD : option string;
  CLIENT_ID : option string;
  CLIENT_SECRET : option string;
  VERIFY_SSL : bool
}.

Definition load_config (environ : gmap string string) : config := {|
  ODOO_URL := environ !! "ODOO_URL";
  ODOO_DB := environ !! "ODOO_DB";
  ODOO_USERNAME := environ !! "ODOO_USERNAME";
  ODOO_PASSWORD := environ !! "ODOO_PASSWORD";
  CLIENT_ID := environ !! "CLIENT_ID";
  CLIENT_SECRET := environ !! "CLIENT_SECRET";
  VERIFY_SSL :=
    String.eqb (PyStr.lower (default "false" (environ !! "VERIFY_SSL"))) "true"
|}.

(** Truth value of an optional string: [None] and [''] are false. *)
Definition str_truthy (o : option string) : bool :=
  match o with Some s => negb (String.eqb s "") | None => false end.

(** The configuration with neither client id nor client secret. *)
Definition open_mode (c : config) : config := {|
  ODOO_URL := ODOO_URL c;
  ODOO_DB := ODOO_DB c;
  ODOO_USERNAME := ODOO_USERNAME c;
  ODOO_PASSWORD := ODOO_PASSWORD c;
  CLIENT_ID := None;
  CLIENT_SECRET := None;
  VERIFY_SSL := VERIFY_SSL c
|}.

(** An optional string inside an f-string. *)
Definition fmt (o : option string) : string := default "None" o.

(** [ssl.create_default_context()] *)
Definition create_default_context : ssl_context :=
  {| check_hostname := true; verify_mode := CERT_REQUIRED |}.

Section Lambda.
Context `{PyRuntime}.

(** [event.get('body')] as the handler sees it: falsy ([None] or ['']), a
    text on which [json.loads] raises [JSONDecodeError], or a text with the
    value [json.loads] returns. *)
Inductive body_t :=
| NoBody
| Malformed
| Parsed (data : json).

(** The Lambda Function URL event; [None] is an absent key.

    The record holds the events of the payload format a Function URL
    delivers: [requestContext] and its [http] are dictionaries or absent,
    the method and [rawPath] are strings or absent, [headers] is a
    dictionary of strings, [queryStringParameters] a dictionary of strings
    or absent, [body] a string or absent.  An invocation with another
    payload, say [rawPath] or [requestContext] set to null, is not an
    [event]: on such a payload the lines of [lambda_handler] before its
    [try] raise [AttributeError], and nothing in this file speaks of it. *)
Record event := {
  ev_method : option string;
  ev_rawPath : option string;
  ev_headers : list (string * string);
  ev_queryStringParameters : option (list (string * string));
  ev_body : body_t
}.

(** The returned dictionary; [r_body] is the object given to
    [json.dumps]. *)
Record response := {
  statusCode : Z;
  r_headers : option (list (string * string));
  r_body : option json
}.

Definition error_body (msg : string) : json := JObject [("error", JString msg)].

Definition error_response (code : Z) (msg : string) : response :=
  {| statusCode := code; r_headers := None; r_body := Some (error_body msg) |}.

Definition json_headers : list (string * string) :=
  [("Access-Control-Allow-Origin", "*"); ("Content-Type", "application/json")].

Definition json_response (code : Z) (obj : json) : response :=
  {| statusCode := code; r_headers := Some json_headers; r_body := Some obj |}.

(** [json.loads(event['body'])] *)
Definition json_loads (b : body_t) : res json :=
  match b with
  | Parsed data => inr data
  | _ => inl (py_error JSONDecodeError "Expecting value")
  end.

Definition has_body (b : body_t) : bool :=
  match b with NoBody => false | _ => true end.

(** [query_params.get(k, default)] on the string-valued query dictionary. *)
Definition query_get (q : list (string * string)) (k : string) (dflt : json) : json :=
  match assoc k q with Some s => JString s | None => dflt end.

Variable cfg : config.

(** The header loop of [authenticate_request]: the last header whose
    lower-cased name matches wins. *)
Definition scan_headers (request_headers : list (string * string))
  : option string * option string :=
  foldl (λ '(received_client_id, received_client_secret) '(key, value),
           if String.eqb (PyStr.lower key) "x-client-id"
           then (Some value, received_client_secret)
           else if String.eqb (PyStr.lower key) "x-client-secret"
           then (received_client_id, Some value)
           else (received_client_id, received_client_secret))
        (None, None) request_headers.

(** The test [received_client_id == CLIENT_ID and
    received_client_secret == CLIENT_SECRET]. *)
Definition credentials_match (ev : event) : bool :=
  let '(received_client_id, received_client_secret) := scan_headers (ev_headers ev) in
  bool_decide (received_client_id = CLIENT_ID cfg) &&
  bool_decide (received_client_secret = CLIENT_SECRET cfg).

Definition make_ssl_context : ssl_context :=
  if VERIFY_SSL cfg then create_default_context
  else {| check_hostname := false; verify_mode := CERT_NONE |}.

Definition common_proxy : server_proxy :=
  {| uri := "https://" +:+ fmt (ODOO_URL cfg) +:+ "/xmlrpc/2/common";
     context := make_ssl_context |}.

Definition models_proxy : server_proxy :=
  {| uri := "https://" +:+ fmt (ODOO_URL cfg) +:+ "/xmlrpc/2/object";
     context := make_ssl_context |}.

(** [authenticate_request]: an error response, or [(uid, models)]. *)
Definition authenticate_request (ev : event) : prog (response + Z * server_proxy)%type :=
  if str_truthy (CLIENT_ID cfg) && str_truthy (CLIENT_SECRET cfg)
     && negb (credentials_match ev)
  then Ret (inl (error_response 401 "Unauthorized"))
  else
    try_except
      (let* uid := rpc (Authenticate common_proxy (ODOO_DB cfg) (ODOO_USERNAME cfg)
                                 (ODOO_PASSWORD cfg)) in
       match uid : option Z with
       | Some u =>
           if u =? 0
           then Raise (py_error OtherException
                         "Authentication failed. Please check credentials.")
           else Ret (inr (u, models_proxy))
       | None => Raise (py_error OtherException
                          "Authentication failed. Please check credentials.")
       end)
      (except is_Exception (λ e,
         Ret (inl (error_response 500
                     ("Could not authenticate with Odoo: " +:+ exn_str e))))).

(** [models.execute_kw(ODOO_DB, uid, ODOO_PASSWORD, ...)] *)
Definition execute_kw (models : server_proxy) (uid : Z) (m : method)
  : prog (reply (ExecuteKw models (ODOO_DB cfg) uid (ODOO_PASSWORD cfg) m)) :=
  rpc (ExecuteKw models (ODOO_DB cfg) uid (ODOO_PASSWORD cfg) m).

Definition tag_json (t : tag) : json :=
  JObject [("id", JInt (t_id t)); ("name", JString (t_name t)); ("color", t_color t)].

Definition tag_fields : list string := ["id"; "name"; "color"].

(** *** [handle_list_inventory] *)

Definition product_fields : list string :=
  ["id"; "name"; "list_price"; "standard_price"; "currency_id"; "product_tag_ids"].

Definition name_order (limit offset : Z) : option search_kwargs :=
  Some {| kw_limit := limit; kw_offset := offset; kw_order := "name" |}.

(** [domain] as built in step 2; [int(category_id)] may raise. *)
Definition inventory_domain (search_term category_id : json) : res domain :=
  let domain := [Cond "type" "=" (JString "product")] in
  let domain :=
    if truthy search_term
    then domain ++ [Or_marker; Cond "name" "ilike" search_term;
                    Cond "default_code" "ilike" search_term]
    else domain in
  if truthy category_id
  then c ← py_int category_id; mret (domain ++ [Cond "categ_id" "=" (JInt c)])
  else mret domain.

(** [list(set(all_tag_ids))] *)
Definition unique (all_tag_ids : list Z) : list Z :=
  elements (list_to_set all_tag_ids : gset Z).

(** [{tag['id']: tag for tag in tags}]: a later tag replaces an earlier one
    with the same id. *)
Definition tag_dict (tags : list tag) : gmap Z tag :=
  foldl (λ d t, <[t_id t := t]> d) ∅ tags.

Definition product_tags_of (tag_details : gmap Z tag) (p : product) : list json :=
  omap (λ tag_id, tag_json <$> tag_details !! tag_id) (p_product_tag_ids p).

Definition format_product (tag_details : gmap Z tag) (p : product) : json :=
  JObject [
    ("id", JInt (p_id p));
    ("name", JString (p_name p));
    ("price", JFloat (p_list_price p));
    ("cost_price", JFloat (p_standard_price p));
    ("currency", JObject [
       ("id", match p_currency_id p with Some c => JInt c.1 | None => JNull end);
       ("name", JString match p_currency_id p with Some c => c.2 | None => "" end)]);
    ("tags", JArray (product_tags_of tag_details p))].

Definition not_found_message (search_term : json) : string :=
  if truthy search_term
  then "No products found matching: " +:+ py_str search_term
  else "No products found".

(** The parameters both request forms are reduced to. *)
Record inventory_params := {
  ip_search_term : json; ip_limit : Z; ip_offset : Z; ip_category_id : json
}.

Definition inventory_params_of (ev : event) (http_method : string)
  : prog (response + inventory_params) :=
  if String.eqb http_method "POST"
  then
    try_except
      (if negb (has_body (ev_body ev))
       then Ret (inl (error_response 400 "Request body is required for POST search"))
       else
         let* search_data := lift (json_loads (ev_body ev)) in
         let* search_term := lift (py_get search_data "product_name" (JString "")) in
         let* limit := lift (l ← py_get search_data "limit" (JInt 100); py_int l) in
         let* offset := lift (o ← py_get search_data "offset" (JInt 0); py_int o) in
         let* category_id := lift (py_get search_data "category_id" (JString "")) in
         Ret (inr {| ip_search_term := search_term; ip_limit := limit;
                     ip_offset := offset; ip_category_id := category_id |}))
      (except is_JSONDecodeError (λ _,
         Ret (inl (error_response 400 "Invalid JSON in request body"))))
  else
    let query_params := default [] (ev_queryStringParameters ev) in
    let* limit := lift (py_int (query_get query_params "limit" (JInt 100))) in
    let* offset := lift (py_int (query_get query_params "offset" (JInt 0))) in
    let search_term := query_get query_params "search" (JString "") in
    let category_id := query_get query_params "category_id" (JString "") in
    Ret (inr {| ip_search_term := search_term; ip_limit := limit;
                ip_offset := offset; ip_category_id := category_id |}).

(** Step 2 of [handle_list_inventory], inside its [try]. *)
Definition retrieve_inventory (models : server_proxy) (uid : Z)
    (http_method : string) (p : inventory_params) : prog response :=
  let search_term := ip_search_term p in
  let limit := ip_limit p in
  let offset := ip_offset p in
  let category_id := ip_category_id p in
  let* domain := lift (inventory_domain search_term category_id) in
  let* product_ids := execute_kw models uid
                        (Search product_product domain (name_order limit offset)) in
  match product_ids : list Z return prog response with
  | [] =>
      Ret (json_response 200 (JObject [
        ("success", JBool true);
        ("found", JBool false);
        ("data", JArray []);
        ("total_count", JInt 0);
        ("limit", JInt limit);
        ("offset", JInt offset);
        ("message", JString (not_found_message search_term))]))
  | _ =>
      let* products := execute_kw models uid (ReadProduct product_ids product_fields) in
      let* total_count := execute_kw models uid (SearchCount product_product domain) in
      let products : list product := products in
      let all_tag_ids := mjoin (p_product_tag_ids <$> products) in
      let unique_tag_ids := unique all_tag_ids in
      let* tag_details :=
        match unique_tag_ids return prog (gmap Z tag) with
        | [] => Ret ∅
        | _ => let* tags := execute_kw models uid (ReadTag unique_tag_ids tag_fields) in
               Ret (tag_dict tags)
        end in
      let formatted_products := format_product tag_details <$> products in
      let n := Z.of_nat (List.length formatted_products) in
      Ret (json_response 200 (JObject [
        ("success", JBool true);
        ("found", JBool (0 <? n));
        ("data", JArray formatted_products);
        ("pagination", JObject [
           ("total_count", JInt total_count);
           ("limit", JInt limit);
           ("offset", JInt offset);
           ("has_more", JBool (offset + limit <? total_count))]);
        ("filters_applied", JObject [
           ("search_term", search_term);
           ("category_id", category_id);
           ("search_method", JString http_method)]);
        ("message", JString (if 0 <? n
                             then "Found " +:+ pretty n +:+ " product(s)"
                             else not_found_message search_term))]))
  end.

Definition handle_list_inventory (ev : event) : prog response :=
  let* auth := authenticate_request ev in
  match auth with
  | inl auth_error => Ret auth_error
  | inr (uid, models) =>
      let http_method := default "GET" (ev_method ev) in
      let* params := inventory_params_of ev http_method in
      match params with
      | inl early => Ret early
      | inr p =>
          try_except (retrieve_inventory models uid http_method p)
            (λ e, if is_Fault e
                  then Ret (error_response 500 ("Odoo API error: " +:+ faultString e))
                  else Ret (error_response 500 "An unexpected server error occurred."))
      end
  end.

(** *** [handle_list_tags] *)

Record tags_params := { tp_search_term : json; tp_limit : Z; tp_offset : Z }.

Definition tags_params_of (ev : event) (http_method : string)
  : prog (response + tags_params) :=
  if String.eqb http_method "POST"
  then
    try_except
      (if negb (has_body (ev_body ev))
       then Ret (inl (error_response 400 "Request body is required for POST search"))
       else
         let* search_data := lift (json_loads (ev_body ev)) in
         let* search_term := lift (s ← py_get search_data "search" (JString "");
                                   py_get search_data "tag_name" s) in
         let* limit := lift (l ← py_get search_data "limit" (JInt 100); py_int l) in
         let* offset := lift (o ← py_get search_data "offset" (JInt 0); py_int o) in
         Ret (inr {| tp_search_term := search_term; tp_limit := limit;
                     tp_offset := offset |}))
      (except is_JSONDecodeError (λ _,
         Ret (inl (error_response 400 "Invalid JSON in request body"))))
  else
    let query_params := default [] (ev_queryStringParameters ev) in
    let* limit := lift (py_int (query_get query_params "limit" (JInt 100))) in
    let* offset := lift (py_int (query_get query_params "offset" (JInt 0))) in
    let search_term := query_get query_params "search" (JString "") in
    Ret (inr {| tp_search_term := search_term; tp_limit := limit;
                tp_offset := offset |}).

Definition tags_domain (search_term : json) : domain :=
  if truthy search_term then [Cond "name" "ilike" search_term] else [].

Definition retrieve_tags (models : server_proxy) (uid : Z)
    (http_method : string) (p : tags_params) : prog response :=
  let search_term := tp_search_term p in
  let limit := tp_limit p in
  let offset := tp_offset p in
  let domain := tags_domain search_term in
  let* tag_ids := execute_kw models uid (Search product_tag domain (name_order limit offset)) in
  match tag_ids : list Z return prog response with
  | [] =>
      Ret (json_response 200 (JObject [
        ("success", JBool true);
        ("data", JArray []);
        ("total_count", JInt 0);
        ("limit", JInt limit);
        ("offset", JInt offset)]))
  | _ =>
      let* tags := execute_kw models uid (ReadTag tag_ids tag_fields) in
      let* total_count := execute_kw models uid (SearchCount product_tag domain) in
      let formatted_tags := tag_json <$> (tags : list tag) in
      Ret (json_response 200 (JObject [
        ("success", JBool true);
        ("data", JArray formatted_tags);
        ("pagination", JObject [
           ("total_count", JInt total_count);
           ("limit", JInt limit);
           ("offset", JInt offset);
           ("has_more", JBool (offset + limit <? total_count))]);
        ("filters_applied", JObject [
           ("search_term", search_term);
           ("search_method", JString http_method)])]))
  end.

Definition handle_list_tags (ev : event) : prog response :=
  let* auth := authenticate_request ev in
  match auth with
  | inl auth_error => Ret auth_error
  | inr (uid, models) =>
      let http_method := default "GET" (ev_method ev) in
      let* params := tags_params_of ev http_method in
      match params with
      | inl early => Ret early
      | inr p =>
          try_except (retrieve_tags models uid http_method p)
            (except is_Exception (λ e,
               Ret (error_response 500 ("Could not retrieve tags: " +:+ exn_str e))))
      end
  end.

(** *** [handle_create_tag] *)

Definition name_is (name : string) : domain := [Cond "name" "=" (JString name)].

Definition tag_params_of (ev : event) : prog (response + string * json) :=
  try_except
    (if negb (has_body (ev_body ev))
     then Ret (inl (error_response 400 "Request body is required"))
     else
       let* data := lift (json_loads (ev_body ev)) in
       let* has_name := lift (py_in "name" data) in
       if negb has_name
       then Ret (inl (error_response 400 "Tag name is required"))
       else
         let* tag_name := lift (n ← py_getitem data "name"; py_strip n) in
         if String.eqb tag_name ""
         then Ret (inl (error_response 400 "Tag name cannot be empty"))
         else
           let* color := lift (py_get data "color" (JInt 0)) in
           Ret (inr (tag_name, color)))
    (except is_JSONDecodeError (λ _,
       Ret (inl (error_response 400 "Invalid JSON in request body")))).

Definition store_tag (models : server_proxy) (uid : Z) (tag_name : string)
    (color : json) : prog response :=
  let* existing_tags := execute_kw models uid (Search product_tag (name_is tag_name) None) in
  match existing_tags : list Z return prog response with
  | _ :: _ =>
      Ret (error_response 409 ("Tag " +:+ PyStr.dq +:+ tag_name +:+ PyStr.dq
                               +:+ " already exists"))
  | [] =>
      let tag_data := {| td_name := tag_name; td_color := color |} in
      let* tag_id := execute_kw models uid (CreateTag tag_data) in
      Ret (json_response 201 (JObject [
        ("success", JBool true);
        ("message", JString "Tag created successfully");
        ("data", JObject [
           ("id", JInt tag_id);
           ("name", JString tag_name);
           ("color", color)])]))
  end.

Definition handle_create_tag (ev : event) : prog response :=
  let* auth := authenticate_request ev in
  match auth with
  | inl auth_error => Ret auth_error
  | inr (uid, models) =>
      let* params := tag_params_of ev in
      match params with
      | inl early => Ret early
      | inr (tag_name, color) =>
          try_except (store_tag models uid tag_name color)
            (except is_Exception (λ e,
               Ret (error_response 500 ("Could not create tag: " +:+ exn_str e))))
      end
  end.

(** *** [handle_create_product] *)

Record product_params := {
  pp_product_name : string;
  pp_sales_price : float;
  pp_cost_price : option float;
  pp_tag_ids : json
}.

(** [isinstance(v, list)] *)
Definition is_list (v : json) : bool :=
  match v with JArray _ => true | _ => false end.

(** The elements of a list value, and [len] of it. *)
Definition items_of (v : json) : list json :=
  match v with JArray items => items | _ => [] end.

Definition len (v : json) : Z := Z.of_nat (List.length (items_of v)).

(** A price read under [try: ... except (ValueError, TypeError)]: the number,
    or the 400 response for a negative or an unparsable one. *)
Definition parse_price {A} (value : res json) (wrap : float → A)
    (negative invalid : string) : prog (response + A) :=
  try_except
    (let* v := lift value in
     let* price := lift (py_float v) in
     if float_neg price
     then Ret (inl (error_response 400 negative))
     else Ret (inr (wrap price)))
    (except is_ValueError_or_TypeError (λ _,
       Ret (inl (error_response 400 invalid)))).

(** [l[0]] *)
Definition item0 {A} (l : list A) : res A :=
  of_option IndexError "list index out of range" (head l).

(** Name, sale price and optional cost price, as validated before the tag
    ids are looked at. *)
Definition product_basics_of (data : json)
  : prog (response + string * float * option float) :=
  let* has_name := lift (py_in "name" data) in
  if negb has_name
  then Ret (inl (error_response 400 "name is required"))
  else
  let* has_cost := lift (py_in "cost" data) in
  let* no_price :=
    if has_cost then Ret false
    else (let* has_price := lift (py_in "price" data) in Ret (negb has_price)) in
  if no_price
  then Ret (inl (error_response 400
                   ("price is required (or use legacy " +:+ PyStr.dq +:+ "cost"
                    +:+ PyStr.dq +:+ " field)")))
  else
  let* product_name := lift (n ← py_getitem data "name"; py_strip n) in
  if String.eqb product_name ""
  then Ret (inl (error_response 400 "Product name cannot be empty"))
  else
  let* sales :=
    parse_price (c ← py_get data "cost" (JInt 0); py_get data "price" c) id
      "Price must be a positive number" "Price must be a valid number" in
  match sales with
  | inl early => Ret (inl early)
  | inr sales_price =>
      let* has_cost_price := lift (py_in "cost_price" data) in
      let* cost :=
        if has_cost_price
        then parse_price (py_getitem data "cost_price") Some
               "Cost price must be a positive number"
               "Cost price must be a valid number"
        else Ret (inr None) in
      match cost with
      | inl early => Ret (inl early)
      | inr cost_price => Ret (inr (product_name, sales_price, cost_price))
      end
  end.

(** The checks on [tag_ids]: an early 400 response, or nothing. *)
Definition validate_tag_ids (models : server_proxy) (uid : Z) (tag_ids : json)
  : prog (option response) :=
  if truthy tag_ids && negb (is_list tag_ids)
  then Ret (Some (error_response 400 "tag_ids must be an array of tag IDs"))
  else
    if truthy tag_ids
    then
      let* existing_tags :=
        execute_kw models uid (Search product_tag [Cond "id" "in" tag_ids] None) in
      if negb (Z.of_nat (List.length (existing_tags : list Z)) =? len tag_ids)
      then Ret (Some (error_response 400 "One or more tag IDs do not exist"))
      else Ret None
    else Ret None.

Definition product_params_of (models : server_proxy) (uid : Z) (ev : event)
  : prog (response + product_params) :=
  try_except
    (if negb (has_body (ev_body ev))
     then Ret (inl (error_response 400 "Request body is required"))
     else
       let* data := lift (json_loads (ev_body ev)) in
       let* basics := product_basics_of data in
       match basics with
       | inl early => Ret (inl early)
       | inr (product_name, sales_price, cost_price) =>
           let* tag_ids := lift (py_get data "tag_ids" (JArray [])) in
           let* rejected := validate_tag_ids models uid tag_ids in
           match rejected with
           | Some early => Ret (inl early)
           | None => Ret (inr {| pp_product_name := product_name;
                                 pp_sales_price := sales_price;
                                 pp_cost_price := cost_price;
                                 pp_tag_ids := tag_ids |})
           end
       end)
    (except is_JSONDecodeError (λ _,
       Ret (inl (error_response 400 "Invalid JSON in request body")))).

Definition created_fields : list string :=
  ["id"; "name"; "standard_price"; "list_price"; "product_tag_ids"].

(** Tag details of one product: no call when it has no tags. *)
Definition read_product_tags (models : server_proxy) (uid : Z) (p : product)
  : prog (list tag) :=
  match p_product_tag_ids p return prog (list tag) with
  | [] => Ret []
  | ids => execute_kw models uid (ReadTag ids tag_fields)
  end.

Definition store_product (models : server_proxy) (uid : Z) (p : product_params)
  : prog response :=
  let product_name := pp_product_name p in
  let tag_ids := pp_tag_ids p in
  let* existing_products :=
    execute_kw models uid (Search product_product (name_is product_name) None) in
  match existing_products : list Z return prog response with
  | _ :: _ =>
      Ret (error_response 409 ("Product " +:+ PyStr.dq +:+ product_name +:+ PyStr.dq
                               +:+ " already exists"))
  | [] =>
      let product_data := {|
        pd_name := product_name;
        pd_list_price := pp_sales_price p;
        pd_type := "product";
        pd_sale_ok := true;
        pd_purchase_ok := false;
        pd_product_tag_ids := if truthy tag_ids then [(6, 0, items_of tag_ids)] else [];
        pd_standard_price := pp_cost_price p
      |} in
      let* product_id := execute_kw models uid (CreateProduct product_data) in
      let* created_product_list :=
        execute_kw models uid (ReadProduct [product_id] created_fields) in
      let* created_product := lift (item0 (created_product_list : list product)) in
      let* product_tags := read_product_tags models uid created_product in
      Ret (json_response 201 (JObject [
        ("success", JBool true);
        ("message", JString "Product created successfully");
        ("data", JObject [
           ("id", JInt product_id);
           ("name", JString (p_name created_product));
           ("cost_price", JFloat (p_standard_price created_product));
           ("sale_price", JFloat (p_list_price created_product));
           ("tags", JArray (tag_json <$> product_tags));
           ("can_be_sold", JBool true);
           ("can_be_purchased", JBool false)])]))
  end.

Definition handle_create_product (ev : event) : prog response :=
  let* auth := authenticate_request ev in
  match auth with
  | inl auth_error => Ret auth_error
  | inr (uid, models) =>
      let* params := product_params_of models uid ev in
      match params with
      | inl early => Ret early
      | inr p =>
          try_except (store_product models uid p)
            (except is_Exception (λ e,
               Ret (error_response 500 ("Could not create product: " +:+ exn_str e))))
      end
  end.

(** *** [handle_update_product] *)

Record update_params := {
  up_product_name : string;
  up_new_price : float;
  up_update_cost_price : json
}.

Definition update_params_of (ev : event) : prog (response + update_params) :=
  try_except
    (if negb (has_body (ev_body ev))
     then Ret (inl (error_response 400 "Request body is required"))
     else
       let* data := lift (json_loads (ev_body ev)) in
       let* has_product_name := lift (py_in "product_name" data) in
       if negb has_product_name
       then Ret (inl (error_response 400 "product_name is required"))
       else
       let* has_price := lift (py_in "price" data) in
       if negb has_price
       then Ret (inl (error_response 400 "price is required"))
       else
       let* product_name := lift (n ← py_getitem data "product_name"; py_strip n) in
       if String.eqb product_name ""
       then Ret (inl (error_response 400 "Product name cannot be empty"))
       else
       let* price :=
         parse_price (py_getitem data "price") id
           "Price must be a positive number" "Price must be a valid number" in
       match price with
       | inl early => Ret (inl early)
       | inr new_price =>
           let* update_cost_price := lift (py_get data "update_cost_price" (JBool false)) in
           Ret (inr {| up_product_name := product_name;
                       up_new_price := new_price;
                       up_update_cost_price := update_cost_price |})
       end)
    (except is_JSONDecodeError (λ _,
       Ret (inl (error_response 400 "Invalid JSON in request body")))).

Definition match_json (p : product) : json :=
  JObject [("id", JInt (p_id p)); ("name", JString (p_name p))].

(** The exact-name search, then the [ilike] search when it found nothing. *)
Definition find_by_name (models : server_proxy) (uid : Z) (product_name : string)
  : prog (list Z) :=
  let* product_ids :=
    execute_kw models uid (Search product_product (name_is product_name) None) in
  match product_ids : list Z return prog (list Z) with
  | [] => execute_kw models uid
            (Search product_product [Cond "name" "ilike" (JString product_name)] None)
  | _ => Ret product_ids
  end.

Definition write_price (models : server_proxy) (uid : Z) (p : update_params)
  : prog response :=
  let product_name := up_product_name p in
  let new_price := up_new_price p in
  let update_cost_price := up_update_cost_price p in
  let* product_ids := find_by_name models uid product_name in
  match product_ids return prog response with
  | [] =>
      Ret {| statusCode := 404; r_headers := None;
             r_body := Some (JObject [
               ("error", JString ("Product not found: " +:+ product_name));
               ("suggestion",
                JString "Try using the search API to find the exact product name")]) |}
  | _ :: _ :: _ =>
      let* products := execute_kw models uid (ReadProduct product_ids ["id"; "name"]) in
      Ret {| statusCode := 400; r_headers := None;
             r_body := Some (JObject [
               ("error", JString ("Multiple products found matching " +:+ PyStr.dq
                                  +:+ product_name +:+ PyStr.dq));
               ("matches", JArray (match_json <$> (products : list product)));
               ("suggestion", JString "Please use the exact product name")]) |}
  | [product_id] =>
      let* current_product_list :=
        execute_kw models uid
          (ReadProduct [product_id] ["id"; "name"; "list_price"; "standard_price"]) in
      let* current_product := lift (item0 (current_product_list : list product)) in
      let update_data := {|
        ud_list_price := new_price;
        ud_standard_price := if truthy update_cost_price then Some new_price else None
      |} in
      let* _ := execute_kw models uid (WriteProduct [product_id] update_data) in
      let* updated_product_list :=
        execute_kw models uid
          (ReadProduct [product_id]
             ["id"; "name"; "list_price"; "standard_price"; "product_tag_ids"]) in
      let* updated_product := lift (item0 (updated_product_list : list product)) in
      let* product_tags := read_product_tags models uid updated_product in
      Ret (json_response 200 (JObject [
        ("success", JBool true);
        ("message", JString "Product price updated successfully");
        ("data", JObject [
           ("id", JInt (p_id updated_product));
           ("name", JString (p_name updated_product));
           ("previous_price", JFloat (p_list_price current_product));
           ("new_price", JFloat (p_list_price updated_product));
           ("cost_price", JFloat (p_standard_price updated_product));
           ("cost_price_updated", update_cost_price);
           ("tags", JArray (tag_json <$> product_tags))])]))
  end.

Definition handle_update_product (ev : event) : prog response :=
  let* auth := authenticate_request ev in
  match auth with
  | inl auth_error => Ret auth_error
  | inr (uid, models) =>
      let* params := update_params_of ev in
      match params with
      | inl early => Ret early
      | inr p =>
          try_except (write_price models uid p)
            (except is_Exception (λ e,
               Ret (error_response 500 ("Could not update product: " +:+ exn_str e))))
      end
  end.

(** *** [lambda_handler] *)

Definition method_is (http_method : option string) (m : string) : bool :=
  bool_decide (http_method = Some m).

(** [part for part in raw_path.split('/') if part] *)
Definition path_parts_of (raw_path : string) : list string :=
  filter (λ part, part ≠ "") (PyStr.split "/" raw_path).

Definition options_response : response := {|
  statusCode := 204;
  r_headers := Some [
    ("Access-Control-Allow-Origin", "*");
    ("Access-Control-Allow-Methods", "GET, POST, PUT, DELETE, OPTIONS");
    ("Access-Control-Allow-Headers", "Content-Type, x-client-id, x-client-secret")];
  r_body := None
|}.

Definition invalid_tags_body : string :=
  "Invalid request body. For search: use " +:+ PyStr.dq +:+ "tag_name" +:+ PyStr.dq
  +:+ " or " +:+ PyStr.dq +:+ "search" +:+ PyStr.dq +:+ ". For create: use "
  +:+ PyStr.dq +:+ "name" +:+ PyStr.dq.

Definition invalid_products_body : string :=
  "Invalid request body. For create: use " +:+ PyStr.dq +:+ "name" +:+ PyStr.dq
  +:+ " and " +:+ PyStr.dq +:+ "price" +:+ PyStr.dq +:+ " (or legacy " +:+ PyStr.dq
  +:+ "cost" +:+ PyStr.dq +:+ "). For update: use " +:+ PyStr.dq +:+ "product_name"
  +:+ PyStr.dq +:+ " and " +:+ PyStr.dq +:+ "price" +:+ PyStr.dq.

(** [a or b] on two membership tests: [b] is not evaluated when [a] holds. *)
Definition or_else (a : res bool) (b : res bool) : res bool :=
  x ← a; if x : bool then inr true else b.

Definition and_then (a : res bool) (b : res bool) : res bool :=
  x ← a; if x : bool then b else inr false.

(** POST /tags: search or create, by the keys of the body. *)
Definition route_tags_post (ev : event) : prog response :=
  try_except
    (if has_body (ev_body ev)
     then
       let* data := lift (json_loads (ev_body ev)) in
       let* is_search := lift (or_else (py_in "tag_name" data) (py_in "search" data)) in
       if is_search then handle_list_tags ev
       else
         let* is_create := lift (py_in "name" data) in
         if is_create then handle_create_tag ev
         else Ret (error_response 400 invalid_tags_body)
     else Ret (error_response 400 "Request body is required for POST requests"))
    (except is_JSONDecodeError (λ _,
       Ret (error_response 400 "Invalid JSON in request body"))).

(** POST /products: update or create, by the keys of the body. *)
Definition route_products_post (ev : event) : prog response :=
  try_except
    (if has_body (ev_body ev)
     then
       let* data := lift (json_loads (ev_body ev)) in
       let* is_update := lift (and_then (py_in "product_name" data) (py_in "price" data)) in
       if is_update then handle_update_product ev
       else
         let* is_create :=
           lift (and_then (py_in "name" data)
                          (or_else (py_in "cost" data) (py_in "price" data))) in
         if is_create then handle_create_product ev
         else Ret (error_response 400 invalid_products_body)
     else Ret (error_response 400 "Request body is required"))
    (except is_JSONDecodeError (λ _,
       Ret (error_response 400 "Invalid JSON in request body"))).

(** The routing [if]/[elif] chain inside the [try] of [lambda_handler]. *)
Definition route (ev : event) (http_method : option string) (path_parts : list string)
  : prog response :=
  match path_parts with
  | [] =>
      if method_is http_method "GET" || method_is http_method "POST"
      then handle_list_inventory ev
      else Ret (error_response 405 "Method Not Allowed for inventory listing")
  | part0 :: _ =>
      if String.eqb part0 "tags" then
        if method_is http_method "GET" then handle_list_tags ev
        else if method_is http_method "POST" then route_tags_post ev
        else Ret (error_response 405 "Method Not Allowed for tags")
      else if String.eqb part0 "search" then
        if method_is http_method "POST" then handle_list_inventory ev
        else Ret (error_response 405 "Search endpoint only supports POST method")
      else if String.eqb part0 "products" then
        if method_is http_method "POST" then route_products_post ev
        else if method_is http_method "PUT" then handle_update_product ev
        else Ret (error_response 405 "Method Not Allowed for products")
      else Ret (error_response 404 "Endpoint not found")
  end.

Definition lambda_handler (ev : event) : prog response :=
  let http_method := ev_method ev in
  if method_is http_method "OPTIONS" then Ret options_response
  else if negb (existsb (method_is http_method) ["GET"; "POST"; "PUT"; "DELETE"])
  then Ret (error_response 405 "Method Not Allowed")
  else
    let raw_path := default "/" (ev_rawPath ev) in
    let path_parts := path_parts_of raw_path in
    try_except (route ev http_method path_parts)
      (except is_Exception (λ _, Ret (error_response 500 "Internal server error"))).

(** *** Vocabulary for the statements *)

(** The header check lets the request through: it is switched off, or the
    credentials match. *)
Definition authorized (ev : event) : bool :=
  negb (str_truthy (CLIENT_ID cfg) && str_truthy (CLIENT_SECRET cfg)
        && negb (credentials_match ev)).

(** The ERP call [authenticate_request] makes. *)
Definition login_call : call :=
  Authenticate common_proxy (ODOO_DB cfg) (ODOO_USERNAME cfg) (ODOO_PASSWORD cfg).

(** An [execute_kw] of the session [uid]. *)
Definition kw_call (uid : Z) (m : method) : call :=
  ExecuteKw models_proxy (ODOO_DB cfg) uid (ODOO_PASSWORD cfg) m.

Inductive target :=
| ListInventory | ListTags | NewTag | NewProduct | UpdateProduct.

Definition handler_of (t : target) : event → prog response :=
  match t with
  | ListInventory => handle_list_inventory
  | ListTags => handle_list_tags
  | NewTag => handle_create_tag
  | NewProduct => handle_create_product
  | UpdateProduct => handle_update_product
  end.

Definition tags_post_target (b : body_t) : option target :=
  match b with
  | Parsed data =>
      match or_else (py_in "tag_name" data) (py_in "search" data) with
      | inr true => Some ListTags
      | inr false =>
          match py_in "name" data with inr true => Some NewTag | _ => None end
      | inl _ => None
      end
  | _ => None
  end.

Definition products_post_target (b : body_t) : option target :=
  match b with
  | Parsed data =>
      match and_then (py_in "product_name" data) (py_in "price" data) with
      | inr true => Some UpdateProduct
      | inr false =>
          match and_then (py_in "name" data)
                         (or_else (py_in "cost" data) (py_in "price" data)) with
          | inr true => Some NewProduct
          | _ => None
          end
      | inl _ => None
      end
  | _ => None
  end.

(** The handler [lambda_handler] passes the event to; [None] when it
    answers the request itself (204, 400, 404, 405 or 500). *)
Definition dispatch (ev : event) : option target :=
  let http_method := ev_method ev in
  if method_is http_method "OPTIONS" then None
  else if negb (existsb (method_is http_method) ["GET"; "POST"; "PUT"; "DELETE"])
  then None
  else
    match path_parts_of (default "/" (ev_rawPath ev)) with
    | [] =>
        if method_is http_method "GET" || method_is http_method "POST"
        then Some ListInventory else None
    | part0 :: _ =>
        if String.eqb part0 "tags" then
          if method_is http_method "GET" then Some ListTags
          else if method_is http_method "POST" then tags_post_target (ev_body ev)
          else None
        else if String.eqb part0 "search" then
          if method_is http_method "POST" then Some ListInventory else None
        else if String.eqb part0 "products" then
          if method_is http_method "POST" then products_post_target (ev_body ev)
          else if method_is http_method "PUT" then Some UpdateProduct
          else None
        else None
    end.

(** The id lists of the [product.tag] reads among some calls. *)
Definition tag_reads_in (calls : list call) : list (list Z) :=
  omap (λ c, match c with
             | ExecuteKw _ _ _ _ (ReadTag ids _) => Some ids
             | _ => None
             end) calls.

(** A response other than 401, and an early response other than 401. *)
Definition not_401 (r : response) : Prop := statusCode r ≠ 401.

Definition early_not_401 {A} (a : response + A) : Prop :=
  match a with inl r => not_401 r | inr _ => True end.

(** The calls that change ERP records. *)
Definition is_mutation (c : call) : bool :=
  match c with
  | ExecuteKw _ _ _ _ (CreateTag _ | CreateProduct _ | WriteProduct _ _) => true
  | _ => false
  end.

(** A call that changes no ERP record. *)
Definition reads_only (c : call) : Prop := is_mutation c = false.

(** The tag read of [handle_list_inventory] for a page of products. *)
Definition page_tag_read (uid : Z) (products : list product) : list call :=
  match unique (mjoin (p_product_tag_ids <$> products)) with
  | [] => []
  | ids => [kw_call uid (ReadTag ids tag_fields)]
  end.

(** *** Further vocabulary *)

(** The statuses the handler answers with. *)
Definition known_status (r : response) : bool :=
  existsb (Z.eqb (statusCode r)) [200; 201; 204; 400; 401; 404; 405; 409; 500].

(** The number of [create] and [write] calls among some calls. *)
Definition mutations (calls : list call) : nat :=
  List.length (List.filter is_mutation calls).

(** A program that makes at most [n] [create] or [write] calls on any
    path. *)
Inductive mutations_le {A} : nat → prog A → Prop :=
| mutations_ret n a : mutations_le n (Ret a)
| mutations_raise n e : mutations_le n (Raise e)
| mutations_read n c k :
    is_mutation c = false → (∀ r, mutations_le n (k r)) → mutations_le n (Rpc c k)
| mutations_write n c k :
    is_mutation c = true → (∀ r, mutations_le n (k r)) → mutations_le (S n) (Rpc c k).

(** The same event under another raw path. *)
Definition with_path (raw_path : option string) (ev : event) : event := {|
  ev_method := ev_method ev;
  ev_rawPath := raw_path;
  ev_headers := ev_headers ev;
  ev_queryStringParameters := ev_queryStringParameters ev;
  ev_body := ev_body ev
|}.

(** The same event under other headers. *)
Definition with_headers (headers : list (string * string)) (ev : event) : event := {|
  ev_method := ev_method ev;
  ev_rawPath := ev_rawPath ev;
  ev_headers := headers;
  ev_queryStringParameters := ev_queryStringParameters ev;
  ev_body := ev_body ev
|}.

(** *** The events of the test helpers *)

(** [TestLambdaFunction.create_event] of [testing/test_api.py]: the event
    has no [rawPath]; [headers or {}]. *)
Definition create_event (method : string) (query_params : option (list (string * string)))
    (headers : option (list (string * string))) (body : body_t) : event := {|
  ev_method := Some method;
  ev_rawPath := None;
  ev_headers := default [] headers;
  ev_queryStringParameters := query_params;
  ev_body := body
|}.

(** What [create_lambda_event] of [testing/local_server.py] reads of a Flask
    request: the method, [dict(request.args)], [dict(request.headers)] and
    the request data as [json.loads] will see its text ([NoBody] for empty
    data). *)
Record flask_request := {
  fr_method : string;
  fr_args : list (string * string);
  fr_headers : list (string * string);
  fr_data : body_t
}.

(** [create_lambda_event]: no [rawPath]; the query parameters are [None]
    when the request has none. *)
Definition create_lambda_event (flask_request : flask_request) : event := {|
  ev_method := Some (fr_method flask_request);
  ev_rawPath := None;
  ev_headers := fr_headers flask_request;
  ev_queryStringParameters :=
    match fr_args flask_request with
    | [] => None
    | args => Some args
    end;
  ev_body := fr_data flask_request
|}.

(** An early response with one of those statuses. *)
Definition early_known {A} (a : response + A) : Prop :=
  match a with inl r => known_status r = true | inr _ => True end.

(** The calls a handler may issue: every read, and the one kind of [create]
    or [write] that is its own. *)
Definition may_issue (t : target) (c : call) : bool :=
  match c, t with
  | ExecuteKw _ _ _ _ (CreateTag _), NewTag => true
  | ExecuteKw _ _ _ _ (CreateProduct _), NewProduct => true
  | ExecuteKw _ _ _ _ (WriteProduct _ _), UpdateProduct => true
  | ExecuteKw _ _ _ _ (CreateTag _ | CreateProduct _ | WriteProduct _ _), _ => false
  | _, _ => true
  end.

(** A request body that is an object with a string under [name]. *)
Definition has_name (data : json) : Prop :=
  ∃ members n, data = JObject members ∧ assoc "name" members = Some (JString n).

(** [name] is the trimmed [name] of the request body. *)
Definition trimmed_name (ev : event) (name : string) : Prop :=
  ∃ members n,
    ev_body ev = Parsed (JObject members)
    ∧ assoc "name" members = Some (JString n)
    ∧ name = PyStr.strip n.

(** What the validation of the handlers lets through to a [create] or a
    [write]: the trimmed name of the request, not empty; prices that are
    not negative; a product of type [product] that can be sold and not
    purchased; one product id, and a cost price that is the sale price. *)
Definition validated (ev : event) (c : call) : Prop :=
  match c with
  | ExecuteKw _ _ _ _ (CreateTag vals) =>
      trimmed_name ev (td_name vals) ∧ td_name vals ≠ ""
  | ExecuteKw _ _ _ _ (CreateProduct vals) =>
      trimmed_name ev (pd_name vals)
      ∧ pd_name vals ≠ ""
      ∧ float_neg (pd_list_price vals) = false
      ∧ from_option (λ cost, float_neg cost = false) True (pd_standard_price vals)
      ∧ pd_type vals = "product"
      ∧ pd_sale_ok vals = true
      ∧ pd_purchase_ok vals = false
  | ExecuteKw _ _ _ _ (WriteProduct ids vals) =>
      List.length ids = 1%nat
      ∧ float_neg (ud_list_price vals) = false
      ∧ (ud_standard_price vals = None
         ∨ ud_standard_price vals = Some (ud_list_price vals))
  | _ => True
  end.

(** Two header lists with the same values under names that differ in case
    only. *)
Definition same_headers (hs hs' : list (string * string)) : Prop :=
  Forall2 (λ kv kv', PyStr.lower kv.1 = PyStr.lower kv'.1 ∧ kv.2 = kv'.2) hs hs'.

(** Why [authenticate_request] gives up on an answer of the ERP login. *)
Definition login_failure (r : res (option Z)) : option string :=
  match r with
  | inl e => Some (exn_str e)
  | inr None | inr (Some 0) => Some "Authentication failed. Please check credentials."
  | inr (Some _) => None
  end.

(** A search or count of products that is restricted to the type
    [product]. *)
Definition product_typed (c : call) : Prop :=
  match c with
  | ExecuteKw _ _ _ _ (Search product_product d _)
  | ExecuteKw _ _ _ _ (SearchCount product_product d) =>
      head d = Some (Cond "type" "=" (JString "product"))
  | _ => True
  end.

(** The optional [cost_price] of a create-product body: absent, or a
    number that is not negative. *)
Definition cost_price_is (members : list (string * json)) (cost_price : option float)
  : Prop :=
  match assoc "cost_price" members with
  | None => cost_price = None
  | Some c => ∃ y, py_float c = inr y ∧ float_neg y = false ∧ cost_price = Some y
  end.

(** A create-product body whose name is a string that is not blank, whose
    [price] (or, without one, legacy [cost]) is the number [x], not
    negative, and whose cost price is [cost_price]. *)
Definition valid_basics (members : list (string * json)) (n : string) (x : float)
    (cost_price : option float) : Prop :=
  assoc "name" members = Some (JString n)
  ∧ PyStr.strip n ≠ ""
  ∧ is_key "cost" members || is_key "price" members = true
  ∧ py_float (default (default (JInt 0) (assoc "cost" members)) (assoc "price" members))
    = inr x
  ∧ float_neg x = false
  ∧ cost_price_is members cost_price.

End Lambda.

(** ** A reference ERP

    Modelled from the spec: the remote ERP is an external service, known to
    the repository only through the interface above ([authenticate], and
    [execute_kw] with [search], [search_count], [read], [create], [write] on
    [product.product] and [product.tag]).  This store answers those calls
    the way the handler expects of Odoo: [search] returns the ids of the
    records the domain selects, each once; ['='] on a name is exact and
    case-sensitive, ['ilike'] is a case-insensitive substring test; [read]
    returns one record per requested id; only [create] and [write] change
    the store.  In front of it stands [xmlrpc.client], which refuses to send
    [None] and an int outside 32 bits. *)

Section ReferenceERP.
Context `{PyRuntime}.

Record account := {
  acc_db : string; acc_username : string; acc_password : string; acc_uid : Z
}.

Record store := {
  st_accounts : list account;
  st_tags : list tag;
  st_products : list product;
  st_next_id : Z
}.

Definition fault (msg : string) : exn :=
  {| exn_cls := Fault; exn_str := "<Fault 1: " +:+ msg +:+ ">"; faultString := msg |}.

Definition cannot_marshal_none : exn :=
  py_error TypeError "cannot marshal None unless allow_none is enabled".

Definition int_exceeds : exn := py_error OverflowError "int exceeds XML-RPC limits".

(** [MININT <= n <= MAXINT] of [xmlrpc.client] *)
Definition fits (n : Z) : bool := (-2147483648 <=? n) && (n <=? 2147483647).

Fixpoint first_error (l : list (option exn)) : option exn :=
  match l with
  | [] => None
  | Some e :: _ => Some e
  | None :: r => first_error r
  end.

(** The exception [xmlrpc.client] raises on a value it cannot send. *)
Fixpoint unsendable (v : json) : option exn :=
  match v with
  | JNull => Some cannot_marshal_none
  | JInt n => if fits n then None else Some int_exceeds
  | JArray items => first_error (map unsendable items)
  | JObject members => first_error (map (λ kv, unsendable kv.2) members)
  | _ => None
  end.

Definition unsendable_ints (l : list Z) : option exn :=
  if forallb fits l then None else Some int_exceeds.

Definition unsendable_domain (d : domain) : option exn :=
  first_error (map (λ c, match c with
                         | Or_marker => None
                         | Cond _ _ value => unsendable value
                         end) d).

Definition unsendable_method (m : method) : option exn :=
  match m with
  | Search _ d kw =>
      first_error [unsendable_domain d;
                   match kw with
                   | Some k => unsendable_ints [kw_limit k; kw_offset k]
                   | None => None
                   end]
  | SearchCount _ d => unsendable_domain d
  | ReadProduct ids _ | ReadTag ids _ => unsendable_ints ids
  | CreateTag vals => unsendable (td_color vals)
  | CreateProduct vals =>
      first_error (map (λ '(command, id, items),
                          first_error [unsendable_ints [command; id];
                                       unsendable (JArray items)])
                       (pd_product_tag_ids vals))
  | WriteProduct ids _ => unsendable_ints ids
  end.

(** The arguments of one [execute_kw], in the order they are sent. *)
Definition unsendable_call (db : option string) (uid : Z) (password : option string)
    (m : method) : option exn :=
  match db with
  | None => Some cannot_marshal_none
  | Some _ =>
      if fits uid
      then match password with
           | None => Some cannot_marshal_none
           | Some _ => unsendable_method m
           end
      else Some int_exceeds
  end.

Definition login (s : store) (db username password : option string) : res (option Z) :=
  match db, username, password with
  | Some d, Some u, Some p =>
      inr (acc_uid <$>
             head (List.filter (λ a, String.eqb (acc_db a) d && String.eqb (acc_username a) u
                                     && String.eqb (acc_password a) p) (st_accounts s)))
  | _, _, _ => inl cannot_marshal_none
  end.

Definition session_ok (s : store) (db : option string) (uid : Z)
    (password : option string) : res unit :=
  match db, password with
  | Some d, Some p =>
      if existsb (λ a, String.eqb (acc_db a) d && (acc_uid a =? uid)
                       && String.eqb (acc_password a) p) (st_accounts s)
      then inr tt else inl (fault "Access Denied")
  | _, _ => inl cannot_marshal_none
  end.

Definition ilike (pattern text : string) : bool :=
  PyStr.contains (PyStr.lower pattern) (PyStr.lower text).

Definition is_JInt (n : Z) (v : json) : bool :=
  match v with JInt k => k =? n | _ => false end.

(** One [(field, operator, value)] triple on a tag; [None] on a triple the
    model does not know. *)
Definition tag_cond (field op : string) (value : json) (t : tag) : option bool :=
  match field, op, value with
  | "name", "=", JString s => Some (String.eqb (t_name t) s)
  | "name", "ilike", JString s => Some (ilike s (t_name t))
  | "id", "in", JArray items => Some (existsb (is_JInt (t_id t)) items)
  | _, _, _ => None
  end.

Definition product_cond (field op : string) (value : json) (p : product) : option bool :=
  match field, op, value with
  | "name", "=", JString s => Some (String.eqb (p_name p) s)
  | "name", "ilike", JString s => Some (ilike s (p_name p))
  | "default_code", "ilike", JString s => Some (ilike s (p_default_code p))
  | "type", "=", JString s => Some (String.eqb (p_type p) s)
  | "categ_id", "=", JInt c => Some (p_categ_id p =? c)
  | "id", "in", JArray items => Some (existsb (is_JInt (p_id p)) items)
  | _, _, _ => None
  end.

(** One term of a prefix-notation domain, and what follows it. *)
Fixpoint eval_term {R} (cond : string → string → json → R → option bool)
    (fuel : nat) (d : domain) (r : R) : option (bool * domain) :=
  match fuel, d with
  | S fuel', Or_marker :: rest =>
      '(a, rest1) ← eval_term cond fuel' rest r;
      '(b, rest2) ← eval_term cond fuel' rest1 r;
      Some (a || b, rest2)
  | S fuel', Cond field op value :: rest =>
      a ← cond field op value r; Some (a, rest)
  | _, _ => None
  end.

(** The terms of a domain are joined by an implicit AND. *)
Fixpoint eval_terms {R} (cond : string → string → json → R → option bool)
    (fuel : nat) (d : domain) (r : R) : option bool :=
  match fuel, d with
  | _, [] => Some true
  | S fuel', _ =>
      '(a, rest) ← eval_term cond (List.length d) d r;
      b ← eval_terms cond fuel' rest r;
      Some (a && b)
  | O, _ => None
  end.

Definition selects {R} (cond : string → string → json → R → option bool)
    (d : domain) (r : R) : option bool :=
  eval_terms cond (S (List.length d)) d r.

(** The records a domain selects, in stored order. *)
Fixpoint select {R} (cond : string → string → json → R → option bool)
    (d : domain) (rows : list R) : option (list R) :=
  match rows with
  | [] => Some []
  | r :: rest =>
      keep ← selects cond d r;
      kept ← select cond d rest;
      Some (if keep : bool then r :: kept else kept)
  end.

Fixpoint insert_by_name {R} (name : R → string) (r : R) (sorted : list R) : list R :=
  match sorted with
  | [] => [r]
  | x :: rest => if String.leb (name r) (name x) then r :: sorted
                 else x :: insert_by_name name r rest
  end.

Definition sort_by_name {R} (name : R → string) (rows : list R) : list R :=
  foldr (insert_by_name name) [] rows.

(** [limit], [offset] and [order]: a page of the selected ids. *)
Definition page {R} (name : R → string) (kw : option search_kwargs) (rows : list R)
  : option (list R) :=
  match kw with
  | None => Some rows
  | Some k =>
      if (kw_limit k <? 0) || (kw_offset k <? 0) then None
      else
        let ordered := if String.eqb (kw_order k) "name" then sort_by_name name rows
                       else rows in
        let rest := drop (Z.to_nat (kw_offset k)) ordered in
        Some (if kw_limit k =? 0 then rest else take (Z.to_nat (kw_limit k)) rest)
  end.

Definition search_rows {R} (cond : string → string → json → R → option bool)
    (name : R → string) (id_of : R → Z) (d : domain) (kw : option search_kwargs)
    (rows : list R) : res (list Z) :=
  match select cond d rows with
  | None => inl (fault "Invalid domain")
  | Some kept =>
      match page name kw kept with
      | None => inl (fault "LIMIT and OFFSET must not be negative")
      | Some p => inr (id_of <$> p)
      end
  end.

Definition count_rows {R} (cond : string → string → json → R → option bool)
    (d : domain) (rows : list R) : res Z :=
  match select cond d rows with
  | None => inl (fault "Invalid domain")
  | Some kept => inr (Z.of_nat (List.length kept))
  end.

Definition find_row {R} (id_of : R → Z) (rows : list R) (i : Z) : option R :=
  head (List.filter (λ r, id_of r =? i) rows).

(** [read]: the record of each requested id, in the order requested. *)
Definition read_rows {R} (id_of : R → Z) (rows : list R) (ids : list Z) : res (list R) :=
  match mapM (find_row id_of rows) ids with
  | Some found => inr found
  | None => inl (fault "Record does not exist or has been deleted")
  end.

(** The ids of a [(6, 0, ids)] command; [None] when one is not an int. *)
Definition int_ids (items : list json) : option (list Z) :=
  mapM (λ v, match v with JInt n => Some n | _ => None end) items.

Definition tag_ids_of (commands : list (Z * Z * list json)) : option (list Z) :=
  match commands with
  | [] => Some []
  | [(6, 0, items)] => int_ids items
  | _ => None
  end.

Definition add_tag (vals : tag_data) (s : store) : store * res Z :=
  let new_id := st_next_id s in
  ({| st_accounts := st_accounts s;
      st_tags := st_tags s ++ [{| t_id := new_id; t_name := td_name vals;
                                  t_color := td_color vals |}];
      st_products := st_products s;
      st_next_id := new_id + 1 |}, inr new_id).

(** A new product; an unset cost price is stored as [float(0)]. *)
Definition add_product (vals : product_data) (s : store) : store * res Z :=
  let new_id := st_next_id s in
  match tag_ids_of (pd_product_tag_ids vals),
        from_option Some (float_of_int 0) (pd_standard_price vals) with
  | Some tags, Some cost =>
      ({| st_accounts := st_accounts s;
          st_tags := st_tags s;
          st_products := st_products s ++ [{|
            p_id := new_id;
            p_name := pd_name vals;
            p_list_price := pd_list_price vals;
            p_standard_price := cost;
            p_currency_id := None;
            p_product_tag_ids := tags;
            p_default_code := "";
            p_type := pd_type vals;
            p_categ_id := 1;
            p_sale_ok := pd_sale_ok vals;
            p_purchase_ok := pd_purchase_ok vals |}];
          st_next_id := new_id + 1 |}, inr new_id)
  | _, _ => (s, inl (fault "Invalid field value"))
  end.

Definition set_prices (vals : update_data) (p : product) : product := {|
  p_id := p_id p;
  p_name := p_name p;
  p_list_price := ud_list_price vals;
  p_standard_price := default (p_standard_price p) (ud_standard_price vals);
  p_currency_id := p_currency_id p;
  p_product_tag_ids := p_product_tag_ids p;
  p_default_code := p_default_code p;
  p_type := p_type p;
  p_categ_id := p_categ_id p;
  p_sale_ok := p_sale_ok p;
  p_purchase_ok := p_purchase_ok p
|}.

Definition update_products (ids : list Z) (vals : update_data) (s : store)
  : store * res bool :=
  match read_rows p_id (st_products s) ids with
  | inl e => (s, inl e)
  | inr _ =>
      ({| st_accounts := st_accounts s;
          st_tags := st_tags s;
          st_products :=
            (λ p, if existsb (Z.eqb (p_id p)) ids then set_prices vals p else p)
              <$> st_products s;
          st_next_id := st_next_id s |}, inr true)
  end.

(** The answer to one [execute_kw], once the session is accepted. *)
Definition answer (m : method) (s : store) models db uid password
  : store * res (reply (ExecuteKw models db uid password m)) :=
  match m return store * res (reply (ExecuteKw models db uid password m)) with
  | Search product_product d kw =>
      (s, search_rows product_cond p_name p_id d kw (st_products s))
  | Search product_tag d kw =>
      (s, search_rows tag_cond t_name t_id d kw (st_tags s))
  | SearchCount product_product d => (s, count_rows product_cond d (st_products s))
  | SearchCount product_tag d => (s, count_rows tag_cond d (st_tags s))
  | ReadProduct ids _ => (s, read_rows p_id (st_products s) ids)
  | ReadTag ids _ => (s, read_rows t_id (st_tags s) ids)
  | CreateTag vals => add_tag vals s
  | CreateProduct vals => add_product vals s
  | WriteProduct ids vals => update_products ids vals s
  end.

Definition erp : server store := λ c s,
  match c return store * res (reply c) with
  | Authenticate _ db username password => (s, login s db username password)
  | ExecuteKw models db uid password m =>
      match unsendable_call db uid password m with
      | Some e => (s, inl e)
      | None =>
          match session_ok s db uid password with
          | inl e => (s, inl e)
          | inr _ => answer m s models db uid password
          end
      end
  end.

(** The products an update by name resolves to: those with exactly that
    name, or, when there is none, those whose name contains it. *)
Definition named (name : string) (s : store) : list product :=
  List.filter (λ p, String.eqb (p_name p) name) (st_products s).

Definition name_like (name : string) (s : store) : list product :=
  List.filter (λ p, ilike name (p_name p)) (st_products s).

Definition candidates (name : string) (s : store) : list product :=
  match named name s with
  | [] => name_like name s
  | exact => exact
  end.

(** The tags with a given name, and whether a tag id exists. *)
Definition tags_named (name : string) (s : store) : list tag :=
  List.filter (λ t, String.eqb (t_name t) name) (st_tags s).

Definition tag_exists (s : store) (i : Z) : Prop := i ∈ t_id <$> st_tags s.

(** The ids of a store are serial numbers of 32 bits, one per record. *)
Definition serial_ids (s : store) : Prop :=
  NoDup (p_id <$> st_products s)
  ∧ NoDup (t_id <$> st_tags s)
  ∧ Forall (λ a, fits (acc_uid a) = true) (st_accounts s)
  ∧ Forall (λ q, fits (p_id q) = true) (st_products s)
  ∧ Forall (λ t, fits (t_id t) = true) (st_tags s).

(** What the check of a truthy [tag_ids] asks of the store: a list that
    [xmlrpc.client] can send, for which [search] finds as many tags as the
    list has entries. *)
Definition tags_found (s : store) (tag_ids : json) : Prop :=
  match tag_ids with
  | JArray items =>
      unsendable (JArray items) = None
      ∧ List.length (List.filter (λ t, existsb (is_JInt (t_id t)) items) (st_tags s))
        = List.length items
  | _ => False
  end.

(** A run that leaves the store as it was and makes no [create] or
    [write]. *)
Definition quiet {A} (s : store) (p : prog A) : Prop :=
  (run erp p s).1.1 = s ∧ Forall reads_only (run erp p s).1.2.

End ReferenceERP.

(** ** Sample data

    A runtime whose floats are the integers (all the examples use whole
    prices) and whose [int()] and [float()] read ASCII digits, which is all
    the examples give them; one ERP store and a few requests. *)

Module Sample.

Definition whole_numbers : PyRuntime := {|
  float := Z;
  float_of_int := Some;
  int_of_str := PyStr.ascii_int;
  float_of_str := PyStr.ascii_int;
  float_neg := λ x, x <? 0;
  float_truthy := λ x, negb (x =? 0);
  float_trunc := inr;
  float_repr := λ x, pretty x +:+ ".0";
  str_repr := λ s, "'" +:+ s +:+ "'"
|}.
#[local] Existing Instance whole_numbers.

Definition environ : gmap string string :=
  list_to_map [("ODOO_URL", "erp.example.com"); ("ODOO_DB", "prod");
               ("ODOO_USERNAME", "api"); ("ODOO_PASSWORD", "pw");
               ("CLIENT_ID", "shop"); ("CLIENT_SECRET", "s3cret")].

(** The configuration of a deployment that sets no [VERIFY_SSL]. *)
Definition cfg : config := Eval vm_compute in load_config environ.

(** The same deployment with a client id and no client secret. *)
Definition cfg_no_secret : config := {|
  ODOO_URL := ODOO_URL cfg; ODOO_DB := ODOO_DB cfg;
  ODOO_USERNAME := ODOO_USERNAME cfg; ODOO_PASSWORD := ODOO_PASSWORD cfg;
  CLIENT_ID := Some "shop"; CLIENT_SECRET := None;
  VERIFY_SSL := false
|}.

Definition mk_tag (i : Z) (name : string) (color : Z) : tag :=
  {| t_id := i; t_name := name; t_color := JInt color |}.

Definition mk_product (i : Z) (name : string) (price cost : Z) (tags : list Z) : product := {|
  p_id := i; p_name := name; p_list_price := price; p_standard_price := cost;
  p_currency_id := Some (1, "USD"); p_product_tag_ids := tags;
  p_default_code := ""; p_type := "product"; p_categ_id := 1;
  p_sale_ok := true; p_purchase_ok := false
|}.

(** Two products share the name Widget and both carry tag 1. *)
Definition db : store := {|
  st_accounts := [{| acc_db := "prod"; acc_username := "api";
                     acc_password := "pw"; acc_uid := 2 |}];
  st_tags := [mk_tag 1 "Premium" 5; mk_tag 2 "Sale" 3];
  st_products := [mk_product 10 "Widget" 10 4 [1];
                  mk_product 11 "Widget" 12 5 [1; 2];
                  mk_product 12 "Gadget" 7 3 []];
  st_next_id := 13
|}.

Definition good_headers : list (string * string) :=
  [("X-Client-Id", "shop"); ("x-client-secret", "s3cret")].

Definition request (method path : string) (headers : list (string * string))
    (query : list (string * string)) (body : body_t) : event := {|
  ev_method := Some method; ev_rawPath := Some path; ev_headers := headers;
  ev_queryStringParameters := Some query; ev_body := body
|}.

(** A CORS preflight without credentials. *)
Definition preflight : event := request "OPTIONS" "/products" [] [] NoBody.

(** GET /?limit=abc *)
Definition bad_limit : event := request "GET" "/" good_headers [("limit", "abc")] NoBody.

(** GET /?limit=5 *)
Definition first_page : event := request "GET" "/" good_headers [("limit", "5")] NoBody.

(** GET /?search=Gadget *)
Definition find_gadget : event :=
  request "GET" "/" good_headers [("search", "Gadget")] NoBody.

(** GET /?search=nothing-like-this *)
Definition no_match : event :=
  request "GET" "/" good_headers [("search", "nothing-like-this")] NoBody.

(** U+00A0, the no-break space. *)
Definition nbsp : string := String "194" (String "160" EmptyString).

(** PUT /products with an ambiguous name, a no-break space after it *)
Definition reprice_widget : event :=
  request "PUT" "/products" good_headers []
    (Parsed (JObject [("product_name", JString ("Widget" +:+ nbsp));
                      ("price", JInt 15)])).

(** POST /tags creating a tag that exists *)
Definition premium_again : event :=
  request "POST" "/tags" good_headers []
    (Parsed (JObject [("name", JString " Premium "); ("color", JInt 4)])).

(** POST /products creating a product that exists *)
Definition gadget_again : event :=
  request "POST" "/products" good_headers []
    (Parsed (JObject [("name", JString "Gadget"); ("price", JInt 9)])).

(** POST /products creating a product that exists, at a negative price *)
Definition gadget_below_zero : event :=
  request "POST" "/products" good_headers []
    (Parsed (JObject [("name", JString "Gadget"); ("price", JInt (-1))])).

(** POST /products with a price that is not a number *)
Definition bad_price : event :=
  request "POST" "/products" good_headers []
    (Parsed (JObject [("name", JString "Gizmo"); ("price", JString "cheap")])).

(** POST /products whose tag_ids is the number 0 *)
Definition zero_tag_ids : event :=
  request "POST" "/products" good_headers []
    (Parsed (JObject [("name", JString "Gizmo"); ("price", JInt 9); ("tag_ids", JInt 0)])).

(** POST /products with two existing tags *)
Definition tagged_gizmo : event :=
  request "POST" "/products" good_headers []
    (Parsed (JObject [("name", JString "Gizmo"); ("price", JInt 9);
                      ("tag_ids", JArray [JInt 2; JInt 1])])).

(** POST /products naming tag 1 twice *)
Definition twice_tagged : event :=
  request "POST" "/products" good_headers []
    (Parsed (JObject [("name", JString "Gizmo"); ("price", JInt 9);
                      ("tag_ids", JArray [JInt 1; JInt 1])])).

(** POST /products naming a tag that does not exist *)
Definition ghost_tagged : event :=
  request "POST" "/products" good_headers []
    (Parsed (JObject [("name", JString "Gizmo"); ("price", JInt 9);
                      ("tag_ids", JArray [JInt 1; JInt 9])])).

(** GET / with a wrong client secret *)
Definition intruder : event :=
  request "GET" "/" [("x-client-id", "shop"); ("x-client-secret", "guess")] [] NoBody.

(** The products of [db] in name order, as the first page lists them. *)
Definition by_name : list product :=
  [mk_product 12 "Gadget" 7 3 []; mk_product 10 "Widget" 10 4 [1];
   mk_product 11 "Widget" 12 5 [1; 2]].

(** The same deployment with an ERP password the ERP does not accept. *)
Definition stale_cfg : config := {|
  ODOO_URL := ODOO_URL cfg; ODOO_DB := ODOO_DB cfg;
  ODOO_USERNAME := ODOO_USERNAME cfg; ODOO_PASSWORD := Some "old";
  CLIENT_ID := CLIENT_ID cfg; CLIENT_SECRET := CLIENT_SECRET cfg;
  VERIFY_SSL := false
|}.

(** The credentials under header names in another case. *)
Definition shouted_headers : list (string * string) :=
  [("x-client-id", "shop"); ("X-CLIENT-SECRET", "s3cret")].

(** DELETE /products/12 *)
Definition delete_gadget : event := request "DELETE" "/products/12" good_headers [] NoBody.

(** GET /tags *)
Definition all_tags : event := request "GET" "/tags" good_headers [] NoBody.

(** POST /tags with a search key and a name *)
Definition search_or_create : event :=
  request "POST" "/tags" good_headers []
    (Parsed (JObject [("tag_name", JString "Sale"); ("name", JString "Clearance")])).

(** POST /tags creating a tag that does not exist *)
Definition new_tag : event :=
  request "POST" "/tags" good_headers []
    (Parsed (JObject [("name", JString " Clearance "); ("color", JInt 7)])).

(** PUT /products with the name of one product *)
Definition reprice_gadget : event :=
  request "PUT" "/products" good_headers []
    (Parsed (JObject [("product_name", JString "Gadget"); ("price", JInt 8);
                      ("update_cost_price", JBool true)])).

(** PUT /products with a name no product has *)
Definition reprice_gizmo : event :=
  request "PUT" "/products" good_headers []
    (Parsed (JObject [("product_name", JString "Gizmo"); ("price", JInt 8)])).

(** GET /?limit=-1 *)
Definition negative_limit : event :=
  request "GET" "/" good_headers [("limit", "-1")] NoBody.

(** [db] after the Gadget is repriced to 8, cost price included. *)
Definition db_repriced : store := {|
  st_accounts := st_accounts db;
  st_tags := st_tags db;
  st_products := [mk_product 10 "Widget" 10 4 [1];
                  mk_product 11 "Widget" 12 5 [1; 2];
                  mk_product 12 "Gadget" 8 8 []];
  st_next_id := 13
|}.

(** One request served by the reference ERP. *)
Definition serve (c : config) (ev : event) (s : store) : store * list call * res response :=
  run erp (lambda_handler c ev) s.

End Sample.

(** * Properties *)

(** ** Runs of composed programs *)

Section Runs.
Context `{PyRuntime} {S : Type} (srv : server S).

Lemma run_bind_ok {A B} (p : prog A) (f : A → prog B) s s1 s2 calls1 calls2 a out :
  run srv p s = (s1, calls1, inr a) →
  run srv (f a) s1 = (s2, calls2, out) →
  run srv (bind p f) s = (s2, calls1 ++ calls2, out).
Proof.
  revert s calls1. induction p as [b | e | c k IH]; intros s calls1 Hp Hf; simpl in *.
  - injection Hp as <- <- <-. exact Hf.
  - discriminate.
  - destruct (srv c s) as [s' r].
    destruct (run srv (k r) s') as [[s'' calls'] out'] eqn:Hk.
    injection Hp as <- <- ->.
    rewrite (IH r s' calls' Hk Hf). reflexivity.
Qed.

Lemma run_bind_raise {A B} (p : prog A) (f : A → prog B) s s1 calls1 e :
  run srv p s = (s1, calls1, inl e) →
  run srv (bind p f) s = (s1, calls1, inl e).
Proof.
  revert s calls1. induction p as [b | e' | c k IH]; intros s calls1 Hp; simpl in *.
  - discriminate.
  - injection Hp as <- <- <-. reflexivity.
  - destruct (srv c s) as [s' r].
    destruct (run srv (k r) s') as [[s'' calls'] out'] eqn:Hk.
    injection Hp as <- <- ->.
    rewrite (IH r s' calls' Hk). reflexivity.
Qed.

Lemma run_try_ok {A} (p : prog A) (h : exn → prog A) s s1 calls1 a :
  run srv p s = (s1, calls1, inr a) →
  run srv (try_except p h) s = (s1, calls1, inr a).
Proof.
  revert s calls1. induction p as [b | e | c k IH]; intros s calls1 Hp; simpl in *.
  - exact Hp.
  - discriminate.
  - destruct (srv c s) as [s' r].
    destruct (run srv (k r) s') as [[s'' calls'] out'] eqn:Hk.
    injection Hp as <- <- ->.
    rewrite (IH r s' calls' Hk). reflexivity.
Qed.

Lemma run_try_raise {A} (p : prog A) (h : exn → prog A) s s1 s2 calls1 calls2 e out :
  run srv p s = (s1, calls1, inl e) →
  run srv (h e) s1 = (s2, calls2, out) →
  run srv (try_except p h) s = (s2, calls1 ++ calls2, out).
Proof.
  revert s calls1. induction p as [b | e' | c k IH]; intros s calls1 Hp Hh; simpl in *.
  - discriminate.
  - injection Hp as <- <- <-. exact Hh.
  - destruct (srv c s) as [s' r].
    destruct (run srv (k r) s') as [[s'' calls'] out'] eqn:Hk.
    injection Hp as <- <- ->.
    rewrite (IH r s' calls' Hk Hh). reflexivity.
Qed.

Lemma run_bind {A B} (p : prog A) (f : A → prog B) s :
  run srv (bind p f) s
  = let '(s1, calls1, out) := run srv p s in
    match out with
    | inl e => (s1, calls1, inl e)
    | inr a => let '(s2, calls2, out2) := run srv (f a) s1 in
               (s2, calls1 ++ calls2, out2)
    end.
Proof.
  destruct (run srv p s) as [[s1 calls1] [e | a]] eqn:Hp.
  - apply run_bind_raise, Hp.
  - destruct (run srv (f a) s1) as [[s2 calls2] out2] eqn:Hf.
    eapply run_bind_ok; eassumption.
Qed.

Lemma run_try {A} (p : prog A) (h : exn → prog A) s :
  run srv (try_except p h) s
  = let '(s1, calls1, out) := run srv p s in
    match out with
    | inl e => let '(s2, calls2, out2) := run srv (h e) s1 in
               (s2, calls1 ++ calls2, out2)
    | inr a => (s1, calls1, inr a)
    end.
Proof.
  destruct (run srv p s) as [[s1 calls1] [e | a]] eqn:Hp.
  - destruct (run srv (h e) s1) as [[s2 calls2] out2] eqn:Hh.
    eapply run_try_raise; eassumption.
  - apply run_try_ok, Hp.
Qed.

Lemma run_lift {A} (r : res A) s : run srv (lift r) s = (s, [], r).
Proof. destruct r; reflexivity. Qed.

Lemma run_rpc c s s1 r :
  srv c s = (s1, r) → run srv (rpc c) s = (s1, [c], r).
Proof. intros Hc. simpl. rewrite Hc. rewrite run_lift. reflexivity. Qed.

End Runs.

(** ** What a program can return *)

Section Leaves.
Context `{PyRuntime}.

Lemma leaves_any {A} (p : prog A) : leaves (λ _, True) p.
Proof. induction p; constructor; auto. Qed.

Lemma leaves_bind {A B} (Q : A → Prop) (P : B → Prop) (p : prog A) (f : A → prog B) :
  leaves Q p → (∀ a, Q a → leaves P (f a)) → leaves P (bind p f).
Proof.
  intros Hp Hf. induction Hp as [a Ha | e | c k _ IH]; simpl.
  - apply Hf, Ha.
  - constructor.
  - constructor. exact IH.
Qed.

Lemma leaves_try {A} (P : A → Prop) (p : prog A) (h : exn → prog A) :
  leaves P p → (∀ e, leaves P (h e)) → leaves P (try_except p h).
Proof.
  intros Hp Hh. induction Hp as [a Ha | e | c k _ IH]; simpl.
  - constructor. exact Ha.
  - apply Hh.
  - constructor. exact IH.
Qed.

Lemma leaves_run {A} (P : A → Prop) (p : prog A) S (srv : server S) s a :
  leaves P p → (run srv p s).2 = inr a → P a.
Proof.
  intros Hp. revert s. induction Hp as [b Hb | e | c k _ IH]; intros s; simpl.
  - intros [= <-]. exact Hb.
  - discriminate.
  - destruct (srv c s) as [s1 r]. specialize (IH r s1).
    destruct (run srv (k r) s1) as [[s2 calls] out]. exact IH.
Qed.

(** A program under a catch-all [except] whose clause returns, returns. *)
Lemma try_returns {A} (p : prog A) (h : exn → A) S (srv : server S) s :
  ∃ a, (run srv (try_except p (except is_Exception (λ e, Ret (h e)))) s).2 = inr a.
Proof.
  revert s. induction p as [a | e | c k IH]; intros s; simpl.
  - eauto.
  - eauto.
  - destruct (srv c s) as [s1 r]. destruct (IH r s1) as [a Ha].
    destruct (run srv _ s1) as [[s2 calls] out]. eauto.
Qed.

Lemma calls_all_bind {A B} (Q : call → Prop) (p : prog A) (f : A → prog B) :
  calls_all Q p → (∀ a, calls_all Q (f a)) → calls_all Q (bind p f).
Proof.
  intros Hp Hf. induction Hp as [a | e | c k Hc _ IH]; simpl.
  - apply Hf.
  - constructor.
  - constructor; assumption.
Qed.

Lemma calls_all_try {A} (Q : call → Prop) (p : prog A) (h : exn → prog A) :
  calls_all Q p → (∀ e, calls_all Q (h e)) → calls_all Q (try_except p h).
Proof.
  intros Hp Hh. induction Hp as [a | e | c k Hc _ IH]; simpl.
  - constructor.
  - apply Hh.
  - constructor; assumption.
Qed.

Lemma calls_all_lift {A} (Q : call → Prop) (r : res A) : calls_all Q (lift r).
Proof. destruct r; constructor. Qed.

Lemma calls_all_run {A} (Q : call → Prop) (p : prog A) S (srv : server S) s :
  calls_all Q p → Forall Q (run srv p s).1.2.
Proof.
  intros Hp. revert s. induction Hp as [a | e | c k Hc _ IH]; intros s; simpl.
  - constructor.
  - constructor.
  - destruct (srv c s) as [s1 r]. specialize (IH r s1).
    destruct (run srv (k r) s1) as [[s2 calls] out]. simpl in *.
    constructor; assumption.
Qed.

End Leaves.

(** One step of a proof that a program makes only calls satisfying a
    predicate. *)
Ltac calls_step :=
  lazymatch goal with
  | |- calls_all _ (Ret _) => apply calls_ret
  | |- calls_all _ (Raise _) => apply calls_raise
  | |- calls_all _ (Rpc _ _) => apply calls_rpc; [ reflexivity | intros ? ]
  | |- calls_all _ (lift _) => apply calls_all_lift
  | |- calls_all _ (bind _ _) => apply calls_all_bind; [ | intros ? ]
  | |- calls_all _ (try_except _ _) => apply calls_all_try; [ | intros ? ]
  | |- calls_all _ (except _ _ _) => unfold except
  | |- calls_all _ (if ?b then _ else _) => destruct b
  | |- calls_all _ (match ?x with _ => _ end) => destruct x
  | |- calls_all _ _ => progress cbv zeta
  end.

(** One step of a proof that the responses of a program satisfy
    [not_401]: [known] closes the sub-programs whose early responses
    matter. *)
Ltac leaves_step known :=
  lazymatch goal with
  | |- leaves _ (Ret _) =>
      apply leaves_ret;
      first [ assumption | exact I | by unfold early_not_401, not_401 in *; simpl in * ]
  | |- leaves _ (Raise _) => apply leaves_raise
  | |- leaves _ (Rpc _ _) => apply leaves_rpc; intros ?
  | |- leaves _ (bind (if ?b then _ else _) _) => destruct b
  | |- leaves _ (bind (Ret _) _) => cbn [bind]
  | |- leaves _ (bind _ _) =>
      eapply leaves_bind; [ first [ known | apply leaves_any ] | intros ? ? ]
  | |- leaves _ (try_except _ _) => apply leaves_try; [ | intros ? ]
  | |- leaves _ (except _ _ _) => unfold except
  | |- leaves _ (if ?b then _ else _) => destruct b
  | |- leaves _ (match ?x with _ => _ end) => destruct x; simpl in *
  | |- leaves _ _ => first [ known | progress cbv zeta ]
  end.

(** ** The header check *)

Section Auth.
Context `{PyRuntime}.
Variable cfg : config.

Lemma authenticate_request_rejects ev :
  str_truthy (CLIENT_ID cfg) = true →
  str_truthy (CLIENT_SECRET cfg) = true →
  credentials_match cfg ev = false →
  authenticate_request cfg ev = Ret (inl (error_response 401 "Unauthorized")).
Proof.
  intros Hid Hsecret Hmatch. unfold authenticate_request.
  rewrite Hid, Hsecret, Hmatch. reflexivity.
Qed.

Lemma handler_rejects t ev :
  str_truthy (CLIENT_ID cfg) = true →
  str_truthy (CLIENT_SECRET cfg) = true →
  credentials_match cfg ev = false →
  handler_of cfg t ev = Ret (error_response 401 "Unauthorized").
Proof.
  intros Hid Hsecret Hmatch.
  pose proof (authenticate_request_rejects ev Hid Hsecret Hmatch) as Hauth.
  destruct t; simpl;
    [ unfold handle_list_inventory | unfold handle_list_tags | unfold handle_create_tag
    | unfold handle_create_product | unfold handle_update_product ];
    rewrite Hauth; reflexivity.
Qed.

Lemma route_to_target ev t :
  dispatch ev = Some t →
  route cfg ev (ev_method ev) (path_parts_of (default "/" (ev_rawPath ev)))
  = handler_of cfg t ev
  ∨ (∃ h, route cfg ev (ev_method ev) (path_parts_of (default "/" (ev_rawPath ev)))
          = try_except (handler_of cfg t ev) h).
Proof.
  unfold dispatch, route.
  destruct (method_is (ev_method ev) "OPTIONS"); [discriminate |].
  destruct (negb _); [discriminate |].
  destruct (path_parts_of _) as [| part0 rest].
  - destruct (_ || _); [| discriminate]. intros [= <-]. left. reflexivity.
  - destruct (String.eqb part0 "tags").
    { destruct (method_is (ev_method ev) "GET").
      { intros [= <-]. left. reflexivity. }
      destruct (method_is (ev_method ev) "POST"); [| discriminate].
      unfold tags_post_target, route_tags_post.
      destruct (ev_body ev) as [| | data]; try discriminate. simpl.
      destruct (or_else _ _) as [e | [|]]; try discriminate.
      - intros [= <-]. right. eexists. reflexivity.
      - destruct (py_in "name" data) as [e | [|]]; try discriminate.
        intros [= <-]. right. eexists. reflexivity. }
    destruct (String.eqb part0 "search").
    { destruct (method_is (ev_method ev) "POST"); [| discriminate].
      intros [= <-]. left. reflexivity. }
    destruct (String.eqb part0 "products"); [| discriminate].
    destruct (method_is (ev_method ev) "POST").
    { unfold products_post_target, route_products_post.
      destruct (ev_body ev) as [| | data]; try discriminate. simpl.
      destruct (and_then (py_in "product_name" data) _) as [e | [|]]; try discriminate.
      - intros [= <-]. right. eexists. reflexivity.
      - destruct (and_then (py_in "name" data) _) as [e | [|]]; try discriminate.
        intros [= <-]. right. eexists. reflexivity. }
    destruct (method_is (ev_method ev) "PUT"); [| discriminate].
    intros [= <-]. left. reflexivity.
Qed.

(** C1, amended: with a client id and secret configured, a request that
    [lambda_handler] passes to one of its five handlers and whose
    x-client-id / x-client-secret headers do not both equal the configured
    values is answered 401 Unauthorized, before any ERP call. *)
Theorem unauthorized_when_dispatched ev t S (srv : server S) s :
  str_truthy (CLIENT_ID cfg) = true →
  str_truthy (CLIENT_SECRET cfg) = true →
  credentials_match cfg ev = false →
  dispatch ev = Some t →
  run srv (lambda_handler cfg ev) s = (s, [], inr (error_response 401 "Unauthorized")).
Proof.
  intros Hid Hsecret Hmatch Ht.
  pose proof (handler_rejects t ev Hid Hsecret Hmatch) as Hrej.
  pose proof (route_to_target ev t Ht) as Hroute.
  unfold lambda_handler. unfold dispatch in Ht.
  destruct (method_is (ev_method ev) "OPTIONS"); [discriminate |].
  destruct (negb _); [discriminate |].
  destruct Hroute as [-> | [h ->]]; rewrite Hrej; reflexivity.
Qed.

Lemma run_authenticate_ok ev S (srv : server S) s s1 uid :
  authorized cfg ev = true →
  srv (login_call cfg) s = (s1, inr (Some uid)) →
  uid ≠ 0 →
  run srv (authenticate_request cfg ev) s
  = (s1, [login_call cfg], inr (inr (uid, models_proxy cfg))).
Proof.
  intros Hauth Hlogin Huid. unfold authenticate_request.
  unfold authorized in Hauth. apply negb_true_iff in Hauth. rewrite Hauth.
  apply (run_try_ok srv).
  change [login_call cfg] with ([login_call cfg] ++ []).
  eapply run_bind_ok.
  - apply run_rpc. exact Hlogin.
  - simpl. destruct (Z.eqb_spec uid 0) as [-> | _]; [contradiction | reflexivity].
Qed.

Lemma authenticate_request_open ev :
  str_truthy (CLIENT_ID cfg) = false ∨ str_truthy (CLIENT_SECRET cfg) = false →
  authenticate_request cfg ev = authenticate_request (open_mode cfg) ev.
Proof.
  intros Hskip. unfold authenticate_request.
  replace (str_truthy (CLIENT_ID cfg) && str_truthy (CLIENT_SECRET cfg))
    with false by (destruct Hskip as [-> | ->]; [| rewrite andb_false_r]; reflexivity).
  reflexivity.
Qed.

Lemma authenticate_request_not_401 ev :
  str_truthy (CLIENT_ID cfg) = false ∨ str_truthy (CLIENT_SECRET cfg) = false →
  leaves early_not_401 (authenticate_request cfg ev).
Proof.
  intros Hskip. unfold authenticate_request.
  replace (str_truthy (CLIENT_ID cfg) && str_truthy (CLIENT_SECRET cfg))
    with false by (destruct Hskip as [-> | ->]; [| rewrite andb_false_r]; reflexivity).
  simpl. repeat leaves_step fail.
Qed.

Lemma parse_price_not_401 {A} value (wrap : float → A) negative invalid :
  leaves early_not_401 (parse_price value wrap negative invalid).
Proof. unfold parse_price. repeat leaves_step fail. Qed.

Lemma product_basics_not_401 data : leaves early_not_401 (product_basics_of data).
Proof.
  unfold product_basics_of. repeat leaves_step ltac:(apply parse_price_not_401).
Qed.

Lemma validate_tag_ids_not_401 models uid tag_ids :
  leaves (from_option not_401 True) (validate_tag_ids cfg models uid tag_ids).
Proof. unfold validate_tag_ids, execute_kw, rpc. repeat leaves_step fail. Qed.

Lemma inventory_params_not_401 ev http_method :
  leaves early_not_401 (inventory_params_of ev http_method).
Proof. unfold inventory_params_of. repeat leaves_step fail. Qed.

Lemma tags_params_not_401 ev http_method :
  leaves early_not_401 (tags_params_of ev http_method).
Proof. unfold tags_params_of. repeat leaves_step fail. Qed.

Lemma tag_params_not_401 ev : leaves early_not_401 (tag_params_of ev).
Proof. unfold tag_params_of. repeat leaves_step fail. Qed.

Lemma update_params_not_401 ev : leaves early_not_401 (update_params_of ev).
Proof.
  unfold update_params_of. repeat leaves_step ltac:(apply parse_price_not_401).
Qed.

Lemma product_params_not_401 models uid ev :
  leaves early_not_401 (product_params_of cfg models uid ev).
Proof.
  unfold product_params_of.
  repeat leaves_step
    ltac:(first [ apply product_basics_not_401 | apply validate_tag_ids_not_401 ]).
Qed.

Ltac params_not_401 :=
  first [ apply inventory_params_not_401 | apply tags_params_not_401
        | apply tag_params_not_401 | apply update_params_not_401
        | apply product_params_not_401 ].

Lemma handler_not_401 t ev :
  str_truthy (CLIENT_ID cfg) = false ∨ str_truthy (CLIENT_SECRET cfg) = false →
  leaves not_401 (handler_of cfg t ev).
Proof.
  intros Hskip. pose proof (authenticate_request_not_401 ev Hskip) as Hauth.
  destruct t; simpl;
    [ unfold handle_list_inventory, retrieve_inventory
    | unfold handle_list_tags, retrieve_tags
    | unfold handle_create_tag, store_tag
    | unfold handle_create_product, store_product
    | unfold handle_update_product, write_price ];
    repeat leaves_step ltac:(first [ exact Hauth | params_not_401 ]).
Qed.

Lemma handler_open t ev :
  str_truthy (CLIENT_ID cfg) = false ∨ str_truthy (CLIENT_SECRET cfg) = false →
  handler_of cfg t ev = handler_of (open_mode cfg) t ev.
Proof.
  intros Hskip. pose proof (authenticate_request_open ev Hskip) as Hauth.
  destruct t; simpl;
    [ unfold handle_list_inventory | unfold handle_list_tags | unfold handle_create_tag
    | unfold handle_create_product | unfold handle_update_product ];
    rewrite Hauth; reflexivity.
Qed.

Lemma route_not_401 ev http_method path_parts :
  str_truthy (CLIENT_ID cfg) = false ∨ str_truthy (CLIENT_SECRET cfg) = false →
  leaves not_401 (route cfg ev http_method path_parts).
Proof.
  intros Hskip.
  pose proof (handler_not_401 ListInventory ev Hskip) as Hinv.
  pose proof (handler_not_401 ListTags ev Hskip) as Htags.
  pose proof (handler_not_401 NewTag ev Hskip) as Htag.
  pose proof (handler_not_401 NewProduct ev Hskip) as Hnew.
  pose proof (handler_not_401 UpdateProduct ev Hskip) as Hupd.
  simpl in Hinv, Htags, Htag, Hnew, Hupd.
  unfold route, route_tags_post, route_products_post.
  repeat leaves_step ltac:(assumption).
Qed.

(** C9: the header check runs only when both the client id and the client
    secret are configured.  When either is absent the check is skipped:
    [authenticate_request] and the whole handler behave as with neither
    configured, the first thing [authenticate_request] does is the ERP
    login, and the response, which always exists, is never 401. *)
Theorem header_check_needs_both ev S (srv : server S) s :
  str_truthy (CLIENT_ID cfg) = false ∨ str_truthy (CLIENT_SECRET cfg) = false →
  authenticate_request cfg ev = authenticate_request (open_mode cfg) ev ∧
  lambda_handler cfg ev = lambda_handler (open_mode cfg) ev ∧
  (∃ k, authenticate_request cfg ev = Rpc (login_call cfg) k) ∧
  ∃ r, (run srv (lambda_handler cfg ev) s).2 = inr r ∧ statusCode r ≠ 401.
Proof.
  intros Hskip. split; [| split; [| split]].
  - apply authenticate_request_open, Hskip.
  - unfold lambda_handler, route, route_tags_post, route_products_post.
    pose proof (handler_open ListInventory ev Hskip) as Hinv.
    pose proof (handler_open ListTags ev Hskip) as Htags.
    pose proof (handler_open NewTag ev Hskip) as Htag.
    pose proof (handler_open NewProduct ev Hskip) as Hnew.
    pose proof (handler_open UpdateProduct ev Hskip) as Hupd.
    simpl in Hinv, Htags, Htag, Hnew, Hupd.
    rewrite Hinv, Htags, Htag, Hnew, Hupd. reflexivity.
  - unfold authenticate_request.
    replace (str_truthy (CLIENT_ID cfg) && str_truthy (CLIENT_SECRET cfg))
      with false by (destruct Hskip as [-> | ->]; [| rewrite andb_false_r]; reflexivity).
    simpl. eexists. reflexivity.
  - assert (Hleaves : leaves not_401 (lambda_handler cfg ev)).
    { unfold lambda_handler.
      repeat leaves_step ltac:(apply route_not_401, Hskip). }
    assert (Hret : ∃ r, (run srv (lambda_handler cfg ev) s).2 = inr r).
    { unfold lambda_handler.
      destruct (method_is (ev_method ev) "OPTIONS"); [simpl; eauto |].
      destruct (negb _); [simpl; eauto |].
      apply try_returns. }
    destruct Hret as [r Hr]. exists r. split; [exact Hr |].
    exact (leaves_run not_401 _ S srv s r Hleaves Hr).
Qed.

End Auth.

(** ** The TLS policy of the ERP channel *)

Section Tls.
Context `{PyRuntime}.

Lemma authenticate_request_calls cfg ev S (srv : server S) s :
  authorized cfg ev = true →
  (run srv (authenticate_request cfg ev) s).1.2 = [login_call cfg].
Proof.
  intros Hauth. unfold authenticate_request.
  unfold authorized in Hauth. apply negb_true_iff in Hauth. rewrite Hauth.
  simpl. destruct (srv _ s) as [s1 [e | [u |]]]; simpl; try reflexivity.
  destruct (u =? 0); reflexivity.
Qed.

(** C2, amended: when VERIFY_SSL is absent from the environment the ERP
    authentication channel is opened with certificate verification disabled
    (no hostname check, CERT_NONE); verification is on exactly when
    VERIFY_SSL is set to a value that lower-cases to "true".  The one call a
    request that passes the header check makes in [authenticate_request] is
    the ERP login over a proxy with that context. *)
Theorem tls_verification_is_opt_in environ ev S (srv : server S) s :
  authorized (load_config environ) ev = true →
  (run srv (authenticate_request (load_config environ) ev) s).1.2
  = [Authenticate
       {| uri := "https://" +:+ fmt (environ !! "ODOO_URL") +:+ "/xmlrpc/2/common";
          context := make_ssl_context (load_config environ) |}
       (environ !! "ODOO_DB") (environ !! "ODOO_USERNAME") (environ !! "ODOO_PASSWORD")]
  ∧ (environ !! "VERIFY_SSL" = None →
     make_ssl_context (load_config environ)
     = {| check_hostname := false; verify_mode := CERT_NONE |})
  ∧ (make_ssl_context (load_config environ) = create_default_context
     ↔ ∃ v, environ !! "VERIFY_SSL" = Some v ∧ PyStr.lower v = "true").
Proof.
  intros Hauth. split; [| split].
  - rewrite (authenticate_request_calls _ ev S srv s Hauth). reflexivity.
  - intros Habsent. unfold make_ssl_context, load_config. simpl.
    rewrite Habsent. reflexivity.
  - unfold make_ssl_context, load_config. simpl.
    destruct (environ !! "VERIFY_SSL") as [v |] eqn:Hv; simpl.
    + destruct (String.eqb_spec (PyStr.lower v) "true") as [Heq | Hne].
      * split; [eauto | reflexivity].
      * split; [discriminate |]. intros (v' & [= <-] & Hlow). contradiction.
    + split; [discriminate |]. intros (v' & Hv' & _). discriminate.
Qed.

End Tls.

(** ** Listing *)

(** Unfold the program down to its next [Rpc] node. *)
Ltac run_step :=
  cbn [run bind try_except lift rpc execute_kw except is_Exception].

(** Answer the next call with the hypothesis [H] on the server. *)
Ltac run_call H :=
  run_step; unfold kw_call, login_call in H; rewrite H; run_step.

(** Answer the next call with the hypothesis [H], which states it up to
    unfolding. *)
Ltac run_answer H :=
  run_step; unfold kw_call, login_call in H;
  match type of H with
  | ?srv _ ?s = ?r =>
      match goal with
      | |- context [srv ?c s] =>
          let H' := fresh in
          assert (H' : srv c s = r) by exact H; rewrite H'; clear H'
      end
  end;
  run_step.

Section Listing.
Context `{PyRuntime}.
Variable cfg : config.
Context {S : Type} (srv : server S).

Lemma run_list_inventory_empty ev s s1 s2 uid p d :
  authorized cfg ev = true →
  srv (login_call cfg) s = (s1, inr (Some uid)) →
  uid ≠ 0 →
  inventory_params_of ev (default "GET" (ev_method ev)) = Ret (inr p) →
  inventory_domain (ip_search_term p) (ip_category_id p) = inr d →
  srv (kw_call cfg uid (Search product_product d
                          (name_order (ip_limit p) (ip_offset p)))) s1
  = (s2, inr []) →
  run srv (handle_list_inventory cfg ev) s
  = (s2,
     [login_call cfg;
      kw_call cfg uid (Search product_product d
                         (name_order (ip_limit p) (ip_offset p)))],
     inr (json_response 200 (JObject [
       ("success", JBool true);
       ("found", JBool false);
       ("data", JArray []);
       ("total_count", JInt 0);
       ("limit", JInt (ip_limit p));
       ("offset", JInt (ip_offset p));
       ("message", JString (not_found_message (ip_search_term p)))]))).
Proof.
  intros Hauth Hlogin Huid Hparams Hd Hsearch.
  unfold handle_list_inventory.
  eapply (run_bind_ok srv _ _ _ _ _ [_] [_]);
    [ apply run_authenticate_ok; eassumption |].
  cbn beta iota. rewrite Hparams. cbn [bind].
  unfold retrieve_inventory. rewrite Hd.
  run_call Hsearch. reflexivity.
Qed.

Lemma run_list_tags_empty ev s s1 s2 uid p :
  authorized cfg ev = true →
  srv (login_call cfg) s = (s1, inr (Some uid)) →
  uid ≠ 0 →
  tags_params_of ev (default "GET" (ev_method ev)) = Ret (inr p) →
  srv (kw_call cfg uid (Search product_tag (tags_domain (tp_search_term p))
                          (name_order (tp_limit p) (tp_offset p)))) s1
  = (s2, inr []) →
  run srv (handle_list_tags cfg ev) s
  = (s2,
     [login_call cfg;
      kw_call cfg uid (Search product_tag (tags_domain (tp_search_term p))
                         (name_order (tp_limit p) (tp_offset p)))],
     inr (json_response 200 (JObject [
       ("success", JBool true);
       ("data", JArray []);
       ("total_count", JInt 0);
       ("limit", JInt (tp_limit p));
       ("offset", JInt (tp_offset p))]))).
Proof.
  intros Hauth Hlogin Huid Hparams Hsearch.
  unfold handle_list_tags.
  eapply (run_bind_ok srv _ _ _ _ _ [_] [_]);
    [ apply run_authenticate_ok; eassumption |].
  cbn beta iota. rewrite Hparams. cbn [bind].
  unfold retrieve_tags.
  run_call Hsearch. reflexivity.
Qed.

(** C10: when the id search of a list-inventory or list-tags request returns
    no ids, the handler answers 200 with the body written out below: it has
    [total_count] 0, [limit] and [offset] at the top level and no
    [pagination] member; and the only ERP calls of the request are the login
    and that search: neither [search_count] nor [read] is issued. *)
Theorem empty_page_short_circuits ev s s1 s2 s2' uid :
  authorized cfg ev = true →
  srv (login_call cfg) s = (s1, inr (Some uid)) →
  uid ≠ 0 →
  (∀ p d,
     inventory_params_of ev (default "GET" (ev_method ev)) = Ret (inr p) →
     inventory_domain (ip_search_term p) (ip_category_id p) = inr d →
     srv (kw_call cfg uid
            (Search product_product d
               (Some {| kw_limit := ip_limit p; kw_offset := ip_offset p;
                        kw_order := "name" |}))) s1
     = (s2, inr []) →
     run srv (handle_list_inventory cfg ev) s
     = (s2,
        [login_call cfg;
         kw_call cfg uid
           (Search product_product d
              (Some {| kw_limit := ip_limit p; kw_offset := ip_offset p;
                       kw_order := "name" |}))],
        inr {| statusCode := 200;
               r_headers := Some [("Access-Control-Allow-Origin", "*");
                                  ("Content-Type", "application/json")];
               r_body := Some (JObject [
                 ("success", JBool true);
                 ("found", JBool false);
                 ("data", JArray []);
                 ("total_count", JInt 0);
                 ("limit", JInt (ip_limit p));
                 ("offset", JInt (ip_offset p));
                 ("message",
                  JString (if truthy (ip_search_term p)
                           then "No products found matching: "
                                +:+ py_str (ip_search_term p)
                           else "No products found"))]) |}))
  ∧ (∀ p,
     tags_params_of ev (default "GET" (ev_method ev)) = Ret (inr p) →
     srv (kw_call cfg uid
            (Search product_tag
               (if truthy (tp_search_term p)
                then [Cond "name" "ilike" (tp_search_term p)] else [])
               (Some {| kw_limit := tp_limit p; kw_offset := tp_offset p;
                        kw_order := "name" |}))) s1
     = (s2', inr []) →
     run srv (handle_list_tags cfg ev) s
     = (s2',
        [login_call cfg;
         kw_call cfg uid
           (Search product_tag
              (if truthy (tp_search_term p)
               then [Cond "name" "ilike" (tp_search_term p)] else [])
              (Some {| kw_limit := tp_limit p; kw_offset := tp_offset p;
                       kw_order := "name" |}))],
        inr {| statusCode := 200;
               r_headers := Some [("Access-Control-Allow-Origin", "*");
                                  ("Content-Type", "application/json")];
               r_body := Some (JObject [
                 ("success", JBool true);
                 ("data", JArray []);
                 ("total_count", JInt 0);
                 ("limit", JInt (tp_limit p));
                 ("offset", JInt (tp_offset p))]) |})).
Proof.
  intros Hauth Hlogin Huid. split.
  - intros p d. apply run_list_inventory_empty; assumption.
  - intros p. apply run_list_tags_empty; assumption.
Qed.

(** The calls of a list-inventory request whose search finds products. *)
Lemma list_inventory_calls ev s s1 s2 s3 s4 uid p d ids products total_count :
  authorized cfg ev = true →
  srv (login_call cfg) s = (s1, inr (Some uid)) →
  uid ≠ 0 →
  inventory_params_of ev (default "GET" (ev_method ev)) = Ret (inr p) →
  inventory_domain (ip_search_term p) (ip_category_id p) = inr d →
  srv (kw_call cfg uid (Search product_product d
                          (name_order (ip_limit p) (ip_offset p)))) s1
  = (s2, inr ids) →
  ids ≠ [] →
  srv (kw_call cfg uid (ReadProduct ids product_fields)) s2 = (s3, inr products) →
  srv (kw_call cfg uid (SearchCount product_product d)) s3 = (s4, inr total_count) →
  (run srv (handle_list_inventory cfg ev) s).1.2
  = [login_call cfg;
     kw_call cfg uid (Search product_product d (name_order (ip_limit p) (ip_offset p)));
     kw_call cfg uid (ReadProduct ids product_fields);
     kw_call cfg uid (SearchCount product_product d)]
    ++ page_tag_read cfg uid products.
Proof.
  intros Hauth Hlogin Huid Hparams Hd Hsearch Hids Hread Hcount.
  unfold handle_list_inventory, authenticate_request.
  unfold authorized in Hauth. apply negb_true_iff in Hauth. rewrite Hauth.
  run_call Hlogin. destruct (Z.eqb_spec uid 0) as [? | _]; [contradiction |].
  run_step. rewrite Hparams. run_step.
  unfold retrieve_inventory. rewrite Hd.
  run_call Hsearch. destruct ids as [| i ids]; [contradiction |].
  run_call Hread. run_call Hcount.
  unfold page_tag_read, kw_call.
  destruct (unique _) as [| t ts]; run_step; [reflexivity |].
  destruct (srv _ s4) as [s5 [e | tags]]; run_step;
    [destruct (is_Fault e) |]; reflexivity.
Qed.

(** C6, amended: a list/search-inventory request whose id search finds
    products issues its ERP calls in this order: the login, the id search
    with limit, offset and name ordering, the bulk read of id, name, sale
    price, cost price, currency reference and tag-id list, then the count of
    the records matching the domain, and last the read of the page's tags
    when it has any.  The count comes after the search and the read, not
    before them. *)
Theorem inventory_calls_in_order ev s s1 s2 s3 s4 uid p d ids products total_count :
  authorized cfg ev = true →
  srv (login_call cfg) s = (s1, inr (Some uid)) →
  uid ≠ 0 →
  inventory_params_of ev (default "GET" (ev_method ev)) = Ret (inr p) →
  inventory_domain (ip_search_term p) (ip_category_id p) = inr d →
  srv (kw_call cfg uid (Search product_product d
                          (name_order (ip_limit p) (ip_offset p)))) s1
  = (s2, inr ids) →
  ids ≠ [] →
  srv (kw_call cfg uid (ReadProduct ids product_fields)) s2 = (s3, inr products) →
  srv (kw_call cfg uid (SearchCount product_product d)) s3 = (s4, inr total_count) →
  (run srv (handle_list_inventory cfg ev) s).1.2
  = [login_call cfg;
     kw_call cfg uid
       (Search product_product d
          (Some {| kw_limit := ip_limit p; kw_offset := ip_offset p;
                   kw_order := "name" |}));
     kw_call cfg uid
       (ReadProduct ids ["id"; "name"; "list_price"; "standard_price";
                         "currency_id"; "product_tag_ids"]);
     kw_call cfg uid (SearchCount product_product d)]
    ++ page_tag_read cfg uid products.
Proof. apply list_inventory_calls. Qed.

Lemma unique_spec (l : list Z) : NoDup (unique l) ∧ ∀ i, i ∈ unique l ↔ i ∈ l.
Proof.
  unfold unique. split.
  - apply NoDup_elements.
  - intros i. rewrite elem_of_elements, elem_of_list_to_set. reflexivity.
Qed.

(** C8: on a page of products the tag ids are resolved at most once.  The
    calls of the request contain at most one [product.tag] read; it asks for
    the de-duplicated union of the tag ids of the page's products: no id
    twice, and an id is asked for exactly when some product of the page
    carries it. *)
Theorem page_tags_read_once ev s s1 s2 s3 s4 uid p d ids products total_count :
  authorized cfg ev = true →
  srv (login_call cfg) s = (s1, inr (Some uid)) →
  uid ≠ 0 →
  inventory_params_of ev (default "GET" (ev_method ev)) = Ret (inr p) →
  inventory_domain (ip_search_term p) (ip_category_id p) = inr d →
  srv (kw_call cfg uid (Search product_product d
                          (name_order (ip_limit p) (ip_offset p)))) s1
  = (s2, inr ids) →
  ids ≠ [] →
  srv (kw_call cfg uid (ReadProduct ids product_fields)) s2 = (s3, inr products) →
  srv (kw_call cfg uid (SearchCount product_product d)) s3 = (s4, inr total_count) →
  ∃ unique_tag_ids : list Z,
    tag_reads_in (run srv (handle_list_inventory cfg ev) s).1.2
    = match unique_tag_ids with [] => [] | _ => [unique_tag_ids] end
    ∧ NoDup unique_tag_ids
    ∧ ∀ tag_id : Z,
        tag_id ∈ unique_tag_ids
        ↔ ∃ q : product, q ∈ (products : list product) ∧ tag_id ∈ p_product_tag_ids q.
Proof.
  intros Hauth Hlogin Huid Hparams Hd Hsearch Hids Hread Hcount.
  exists (unique (mjoin (p_product_tag_ids <$> (products : list product)))).
  rewrite (list_inventory_calls ev s s1 s2 s3 s4 uid p d ids products total_count)
    by assumption.
  destruct (unique_spec (mjoin (p_product_tag_ids <$> (products : list product))))
    as [Hnodup Hmem].
  split; [| split].
  - unfold page_tag_read. destruct (unique _); reflexivity.
  - exact Hnodup.
  - intros tag_id. rewrite Hmem, list_elem_of_join. split.
    + intros (l & Hin & Hl). apply list_elem_of_fmap in Hl as (q & -> & Hq). eauto.
    + intros (q & Hq & Hin). exists (p_product_tag_ids q). split; [exact Hin |].
      apply list_elem_of_fmap. eauto.
Qed.

End Listing.

(** ** Validation of numeric parameters *)

Section Validation.
Context `{PyRuntime}.
Variable cfg : config.
Context {S : Type} (srv : server S).

Lemma is_key_assoc {A} k (l : list (string * A)) v :
  assoc k l = Some v → is_key k l = true.
Proof. unfold is_key. intros ->. reflexivity. Qed.

Lemma parse_price_invalid {A} value v e (wrap : float → A) negative invalid :
  value = inr v →
  py_float v = inl e →
  is_ValueError_or_TypeError e = true →
  parse_price value wrap negative invalid = Ret (inl (error_response 400 invalid)).
Proof.
  intros -> Hfloat Hcls. unfold parse_price. simpl. rewrite Hfloat. simpl.
  unfold except. rewrite Hcls. reflexivity.
Qed.

Lemma parse_price_valid {A} value v x (wrap : float → A) negative invalid :
  value = inr v →
  py_float v = inr x →
  float_neg x = false →
  parse_price value wrap negative invalid = Ret (inr (wrap x)).
Proof.
  intros -> Hfloat Hneg. unfold parse_price. simpl. rewrite Hfloat. simpl.
  rewrite Hneg. reflexivity.
Qed.

(** POST /products, create: a [price] (or legacy [cost]) that [float()]
    rejects. *)
Lemma create_price_invalid ev s s1 uid members n e :
  authorized cfg ev = true →
  srv (login_call cfg) s = (s1, inr (Some uid)) →
  uid ≠ 0 →
  ev_body ev = Parsed (JObject members) →
  assoc "name" members = Some (JString n) →
  PyStr.strip n ≠ "" →
  is_key "cost" members || is_key "price" members = true →
  py_float (default (default (JInt 0) (assoc "cost" members)) (assoc "price" members))
  = inl e →
  is_ValueError_or_TypeError e = true →
  run srv (handle_create_product cfg ev) s
  = (s1, [login_call cfg], inr (error_response 400 "Price must be a valid number")).
Proof.
  intros Hauth Hlogin Huid Hbody Hname Hn Hprice Hfloat Hcls.
  unfold handle_create_product.
  eapply (run_bind_ok srv _ _ _ _ _ [_] []);
    [ apply run_authenticate_ok; eassumption |].
  cbn beta iota. unfold product_params_of, product_basics_of.
  rewrite Hbody. cbn [has_body negb json_loads lift bind py_in py_getitem py_get].
  rewrite (is_key_assoc _ _ _ Hname), Hname.
  cbn [negb bind lift of_option mbind res_bind py_strip].
  destruct (is_key "cost" members); simpl in Hprice;
    [| rewrite Hprice ]; cbn [negb bind lift];
    (destruct (String.eqb_spec (PyStr.strip n) "") as [? | _]; [contradiction |]);
    erewrite parse_price_invalid by (try reflexivity; eassumption);
    reflexivity.
Qed.

(** POST /products, create: a [cost_price] that [float()] rejects. *)
Lemma create_cost_price_invalid ev s s1 uid members n x c e :
  authorized cfg ev = true →
  srv (login_call cfg) s = (s1, inr (Some uid)) →
  uid ≠ 0 →
  ev_body ev = Parsed (JObject members) →
  assoc "name" members = Some (JString n) →
  PyStr.strip n ≠ "" →
  is_key "cost" members || is_key "price" members = true →
  py_float (default (default (JInt 0) (assoc "cost" members)) (assoc "price" members))
  = inr x →
  float_neg x = false →
  assoc "cost_price" members = Some c →
  py_float c = inl e →
  is_ValueError_or_TypeError e = true →
  run srv (handle_create_product cfg ev) s
  = (s1, [login_call cfg], inr (error_response 400 "Cost price must be a valid number")).
Proof.
  intros Hauth Hlogin Huid Hbody Hname Hn Hprice Hfloat Hneg Hcost Hc Hcls.
  unfold handle_create_product.
  eapply (run_bind_ok srv _ _ _ _ _ [_] []);
    [ apply run_authenticate_ok; eassumption |].
  cbn beta iota. unfold product_params_of, product_basics_of.
  rewrite Hbody. cbn [has_body negb json_loads lift bind py_in py_getitem py_get].
  rewrite (is_key_assoc _ _ _ Hname), Hname, (is_key_assoc _ _ _ Hcost), Hcost.
  cbn [negb bind lift of_option mbind res_bind py_strip].
  destruct (is_key "cost" members); simpl in Hprice;
    [| rewrite Hprice ]; cbn [negb bind lift];
    (destruct (String.eqb_spec (PyStr.strip n) "") as [? | _]; [contradiction |]);
    erewrite (parse_price_valid _ _ x) by (try reflexivity; eassumption);
    cbn [bind lift of_option];
    erewrite (parse_price_invalid _ c) by (try reflexivity; eassumption);
    reflexivity.
Qed.

(** PUT /products, update: a [price] that [float()] rejects. *)
Lemma update_price_invalid ev s s1 uid members n v e :
  authorized cfg ev = true →
  srv (login_call cfg) s = (s1, inr (Some uid)) →
  uid ≠ 0 →
  ev_body ev = Parsed (JObject members) →
  assoc "product_name" members = Some (JString n) →
  PyStr.strip n ≠ "" →
  assoc "price" members = Some v →
  py_float v = inl e →
  is_ValueError_or_TypeError e = true →
  run srv (handle_update_product cfg ev) s
  = (s1, [login_call cfg], inr (error_response 400 "Price must be a valid number")).
Proof.
  intros Hauth Hlogin Huid Hbody Hname Hn Hprice Hfloat Hcls.
  unfold handle_update_product.
  eapply (run_bind_ok srv _ _ _ _ _ [_] []);
    [ apply run_authenticate_ok; eassumption |].
  cbn beta iota. unfold update_params_of.
  rewrite Hbody. cbn [has_body negb json_loads lift bind py_in py_getitem py_get].
  rewrite (is_key_assoc _ _ _ Hname), Hname, (is_key_assoc _ _ _ Hprice), Hprice.
  cbn [negb bind lift of_option mbind res_bind py_strip].
  destruct (String.eqb_spec (PyStr.strip n) "") as [? | _]; [contradiction |].
  erewrite (parse_price_invalid _ v) by (try reflexivity; eassumption).
  reflexivity.
Qed.

(** GET / : a [limit] or [offset] that [int()] rejects ends in the
    dispatcher's catch-all. *)
Lemma get_inventory_bad_number ev s s1 uid e :
  authorized cfg ev = true →
  srv (login_call cfg) s = (s1, inr (Some uid)) →
  uid ≠ 0 →
  ev_method ev = Some "GET" →
  path_parts_of (default "/" (ev_rawPath ev)) = [] →
  let query_params := default [] (ev_queryStringParameters ev) in
  py_int (query_get query_params "limit" (JInt 100)) = inl e
  ∨ (∃ limit, py_int (query_get query_params "limit" (JInt 100)) = inr limit
              ∧ py_int (query_get query_params "offset" (JInt 0)) = inl e) →
  run srv (lambda_handler cfg ev) s
  = (s1, [login_call cfg], inr (error_response 500 "Internal server error")).
Proof.
  intros Hauth Hlogin Huid Hget Hpath query_params Hbad.
  unfold lambda_handler. rewrite Hget, Hpath. cbn -[handle_list_inventory].
  eapply (run_try_raise srv _ _ _ _ _ [_] []); [| reflexivity].
  unfold handle_list_inventory.
  eapply (run_bind_ok srv _ _ _ _ _ [_] []);
    [ apply run_authenticate_ok; eassumption |].
  cbn beta iota. rewrite Hget. unfold inventory_params_of. cbn [default String.eqb].
  change (default [] (ev_queryStringParameters ev)) with query_params.
  destruct Hbad as [-> | (limit & -> & ->)]; reflexivity.
Qed.

(** GET /tags : the same for the tag listing. *)
Lemma get_tags_bad_number ev s s1 uid e rest :
  authorized cfg ev = true →
  srv (login_call cfg) s = (s1, inr (Some uid)) →
  uid ≠ 0 →
  ev_method ev = Some "GET" →
  path_parts_of (default "/" (ev_rawPath ev)) = "tags" :: rest →
  let query_params := default [] (ev_queryStringParameters ev) in
  py_int (query_get query_params "limit" (JInt 100)) = inl e
  ∨ (∃ limit, py_int (query_get query_params "limit" (JInt 100)) = inr limit
              ∧ py_int (query_get query_params "offset" (JInt 0)) = inl e) →
  run srv (lambda_handler cfg ev) s
  = (s1, [login_call cfg], inr (error_response 500 "Internal server error")).
Proof.
  intros Hauth Hlogin Huid Hget Hpath query_params Hbad.
  unfold lambda_handler. rewrite Hget, Hpath. cbn -[handle_list_tags].
  eapply (run_try_raise srv _ _ _ _ _ [_] []); [| reflexivity].
  unfold handle_list_tags.
  eapply (run_bind_ok srv _ _ _ _ _ [_] []);
    [ apply run_authenticate_ok; eassumption |].
  cbn beta iota. rewrite Hget. unfold tags_params_of. cbn [default String.eqb].
  change (default [] (ev_queryStringParameters ev)) with query_params.
  destruct Hbad as [-> | (limit & -> & ->)]; reflexivity.
Qed.

(** POST / : a [limit] or [offset] of the JSON body that [int()] rejects. *)
Lemma post_inventory_bad_number ev s s1 uid e members :
  authorized cfg ev = true →
  srv (login_call cfg) s = (s1, inr (Some uid)) →
  uid ≠ 0 →
  ev_method ev = Some "POST" →
  path_parts_of (default "/" (ev_rawPath ev)) = [] →
  ev_body ev = Parsed (JObject members) →
  is_JSONDecodeError e = false →
  py_int (default (JInt 100) (assoc "limit" members)) = inl e
  ∨ (∃ limit, py_int (default (JInt 100) (assoc "limit" members)) = inr limit
              ∧ py_int (default (JInt 0) (assoc "offset" members)) = inl e) →
  run srv (lambda_handler cfg ev) s
  = (s1, [login_call cfg], inr (error_response 500 "Internal server error")).
Proof.
  intros Hauth Hlogin Huid Hpost Hpath Hbody Hcls Hbad.
  unfold lambda_handler. rewrite Hpost, Hpath. cbn -[handle_list_inventory].
  eapply (run_try_raise srv _ _ _ _ _ [_] []); [| reflexivity].
  unfold handle_list_inventory.
  eapply (run_bind_ok srv _ _ _ _ _ [_] []);
    [ apply run_authenticate_ok; eassumption |].
  cbn beta iota. rewrite Hpost. change (default "GET" (Some "POST")) with "POST".
  unfold inventory_params_of. change (String.eqb "POST" "POST") with true. cbv iota.
  rewrite Hbody. cbn [has_body negb json_loads lift bind py_get mbind res_bind].
  destruct Hbad as [-> | (limit & -> & ->)];
    cbn [lift bind try_except]; unfold except; rewrite Hcls; reflexivity.
Qed.

(** POST /tags, create: the colour is taken from the body as it is. *)
Lemma create_tag_color_unchecked ev members n :
  ev_body ev = Parsed (JObject members) →
  assoc "name" members = Some (JString n) →
  PyStr.strip n ≠ "" →
  tag_params_of ev
  = Ret (inr (PyStr.strip n, default (JInt 0) (assoc "color" members))).
Proof.
  intros Hbody Hname Hn. unfold tag_params_of.
  rewrite Hbody. cbn [has_body negb json_loads lift bind py_in py_getitem py_get].
  rewrite (is_key_assoc _ _ _ Hname), Hname.
  cbn [negb bind lift of_option mbind res_bind py_strip try_except].
  destruct (String.eqb_spec (PyStr.strip n) "") as [? | _]; [contradiction |].
  reflexivity.
Qed.

(** PUT /products: what [update_params_of] reads from a body that passes
    its checks. *)
Lemma update_params_from_body ev members n v x :
  ev_body ev = Parsed (JObject members) →
  assoc "product_name" members = Some (JString n) →
  PyStr.strip n ≠ "" →
  assoc "price" members = Some v →
  py_float v = inr x →
  float_neg x = false →
  update_params_of ev
  = Ret (inr {| up_product_name := PyStr.strip n;
                up_new_price := x;
                up_update_cost_price :=
                  default (JBool false) (assoc "update_cost_price" members) |}).
Proof.
  intros Hbody Hname Hn Hprice Hfloat Hneg. unfold update_params_of.
  rewrite Hbody. cbn [has_body negb json_loads lift bind py_in py_getitem py_get].
  rewrite (is_key_assoc _ _ _ Hname), Hname, (is_key_assoc _ _ _ Hprice), Hprice.
  cbn [negb bind lift of_option mbind res_bind py_strip].
  destruct (String.eqb_spec (PyStr.strip n) "") as [? | _]; [contradiction |].
  erewrite (parse_price_valid _ v x) by (try reflexivity; eassumption).
  reflexivity.
Qed.

(** POST /products: what [product_basics_of] reads from a body that passes
    its checks. *)
Lemma product_basics_from_body members n x cost_price :
  valid_basics members n x cost_price →
  product_basics_of (JObject members) = Ret (inr (PyStr.strip n, x, cost_price)).
Proof.
  intros (Hname & Hn & Hprice & Hfloat & Hneg & Hcost). unfold product_basics_of.
  cbn [py_in py_getitem py_get lift bind].
  rewrite (is_key_assoc _ _ _ Hname), Hname.
  cbn [negb bind lift of_option mbind res_bind py_strip].
  unfold cost_price_is in Hcost. unfold is_key at 3.
  destruct (is_key "cost" members); simpl in Hprice;
    [| rewrite Hprice ]; cbn [negb bind lift];
    (destruct (String.eqb_spec (PyStr.strip n) "") as [? | _]; [contradiction |]);
    erewrite (parse_price_valid _ _ x) by (try reflexivity; eassumption);
    cbn [bind lift of_option];
    (destruct (assoc "cost_price" members) as [c |];
     [ destruct Hcost as (y & Hy & Hyneg & ->);
       cbn [bind lift of_option];
       erewrite (parse_price_valid _ c y) by (try reflexivity; eassumption);
       reflexivity
     | subst cost_price; reflexivity ]).
Qed.

(** POST /products: the three ways the check of [tag_ids] can go. *)
Lemma product_params_not_list ev models uid members n x cost_price :
  ev_body ev = Parsed (JObject members) →
  valid_basics members n x cost_price →
  truthy (default (JArray []) (assoc "tag_ids" members)) = true →
  is_list (default (JArray []) (assoc "tag_ids" members)) = false →
  product_params_of cfg models uid ev
  = Ret (inl (error_response 400 "tag_ids must be an array of tag IDs")).
Proof.
  intros Hbody Hbasics Htruthy Hlist. unfold product_params_of. rewrite Hbody.
  cbn [has_body negb json_loads lift bind].
  rewrite (product_basics_from_body _ _ _ _ Hbasics).
  cbn [bind py_get lift]. unfold validate_tag_ids. rewrite Htruthy, Hlist. reflexivity.
Qed.

Lemma product_params_no_tags ev models uid members n x cost_price :
  ev_body ev = Parsed (JObject members) →
  valid_basics members n x cost_price →
  truthy (default (JArray []) (assoc "tag_ids" members)) = false →
  product_params_of cfg models uid ev
  = Ret (inr {| pp_product_name := PyStr.strip n; pp_sales_price := x;
                pp_cost_price := cost_price;
                pp_tag_ids := default (JArray []) (assoc "tag_ids" members) |}).
Proof.
  intros Hbody Hbasics Hfalsy. unfold product_params_of. rewrite Hbody.
  cbn [has_body negb json_loads lift bind].
  rewrite (product_basics_from_body _ _ _ _ Hbasics).
  cbn [bind py_get lift]. unfold validate_tag_ids. rewrite Hfalsy. reflexivity.
Qed.

Lemma run_product_params_checked ev uid members n x cost_price items s1 s2 existing :
  ev_body ev = Parsed (JObject members) →
  valid_basics members n x cost_price →
  assoc "tag_ids" members = Some (JArray items) →
  items ≠ [] →
  srv (kw_call cfg uid (Search product_tag [Cond "id" "in" (JArray items)] None)) s1
  = (s2, inr existing) →
  run srv (product_params_of cfg (models_proxy cfg) uid ev) s1
  = (s2, [kw_call cfg uid (Search product_tag [Cond "id" "in" (JArray items)] None)],
     inr (if Nat.eqb (List.length existing) (List.length items)
          then inr {| pp_product_name := PyStr.strip n; pp_sales_price := x;
                      pp_cost_price := cost_price; pp_tag_ids := JArray items |}
          else inl (error_response 400 "One or more tag IDs do not exist"))).
Proof.
  intros Hbody Hbasics Htags Hitems Hsearch. unfold product_params_of. rewrite Hbody.
  cbn [has_body negb json_loads lift bind].
  rewrite (product_basics_from_body _ _ _ _ Hbasics).
  cbn [bind py_get lift]. rewrite Htags. cbn [default id]. unfold validate_tag_ids.
  destruct items as [| item items]; [contradiction |].
  cbn [truthy is_list negb andb]. run_call Hsearch.
  unfold len. cbn [items_of].
  destruct (Nat.eqb_spec (List.length existing) (List.length (item :: items)))
    as [Heq | Hne].
  - rewrite Heq, Z.eqb_refl. reflexivity.
  - destruct (Z.eqb_spec (Z.of_nat (List.length existing))
                (Z.of_nat (List.length (item :: items)))) as [Heq | _];
      [apply Nat2Z.inj in Heq; contradiction | reflexivity].
Qed.

(** The two error responses of [authenticate_request]. *)
Lemma authenticate_request_early ev :
  leaves (λ a, match a with
               | inl r => statusCode r = 401 ∨ statusCode r = 500
               | inr _ => True
               end) (authenticate_request cfg ev).
Proof.
  unfold authenticate_request.
  destruct (_ && _ && _); [constructor; left; reflexivity |].
  apply leaves_try.
  - unfold rpc. cbn [bind]. constructor. intros [e | [u |]]; simpl; try constructor.
    destruct (u =? 0); constructor. exact I.
  - intros e. unfold except. simpl. constructor. right. reflexivity.
Qed.

Lemma create_tag_never_400 ev members n s r :
  ev_body ev = Parsed (JObject members) →
  assoc "name" members = Some (JString n) →
  PyStr.strip n ≠ "" →
  (run srv (handle_create_tag cfg ev) s).2 = inr r →
  statusCode r ≠ 400.
Proof.
  intros Hbody Hname Hn. apply (leaves_run (λ r, statusCode r ≠ 400)).
  unfold handle_create_tag.
  eapply leaves_bind; [apply authenticate_request_early |].
  intros [early | [uid models]] Hearly.
  { constructor. destruct Hearly as [-> | ->]; discriminate. }
  rewrite (create_tag_color_unchecked ev members n Hbody Hname Hn).
  unfold store_tag. repeat leaves_step fail.
Qed.

Lemma create_tag_returns ev members n s s1 uid :
  authorized cfg ev = true →
  srv (login_call cfg) s = (s1, inr (Some uid)) →
  uid ≠ 0 →
  ev_body ev = Parsed (JObject members) →
  assoc "name" members = Some (JString n) →
  PyStr.strip n ≠ "" →
  ∃ r, (run srv (handle_create_tag cfg ev) s).2 = inr r ∧ statusCode r ≠ 400.
Proof.
  intros Hauth Hlogin Huid Hbody Hname Hn.
  assert (Hret : ∃ r, (run srv (handle_create_tag cfg ev) s).2 = inr r).
  { unfold handle_create_tag.
    rewrite run_bind, (run_authenticate_ok cfg ev S srv s s1 uid Hauth Hlogin Huid).
    cbn beta iota.
    rewrite (create_tag_color_unchecked ev members n Hbody Hname Hn). cbn [bind].
    match goal with
    | |- context [run srv (try_except ?p (except is_Exception (λ e, Ret (@?h e)))) s1] =>
        destruct (try_returns p h S srv s1) as [r Hr];
        destruct (run srv (try_except p (except is_Exception (λ e, Ret (h e)))) s1)
          as [[s2 calls] out]
    end.
    simpl in Hr. subst out. exists r. reflexivity. }
  destruct Hret as [r Hr]. exists r. split; [exact Hr |].
  exact (create_tag_never_400 ev members n s r Hbody Hname Hn Hr).
Qed.

(** POST /tags, create: the run of a request whose name is new. *)
Lemma run_new_tag ev s s1 s2 s3 uid members n (created : res Z) :
  authorized cfg ev = true →
  srv (login_call cfg) s = (s1, inr (Some uid)) →
  uid ≠ 0 →
  ev_body ev = Parsed (JObject members) →
  assoc "name" members = Some (JString n) →
  PyStr.strip n ≠ "" →
  srv (kw_call cfg uid (Search product_tag (name_is (PyStr.strip n)) None)) s1
  = (s2, inr []) →
  srv (kw_call cfg uid
         (CreateTag {| td_name := PyStr.strip n;
                       td_color := default (JInt 0) (assoc "color" members) |})) s2
  = (s3, created) →
  run srv (handle_create_tag cfg ev) s
  = (s3,
     [login_call cfg;
      kw_call cfg uid (Search product_tag (name_is (PyStr.strip n)) None);
      kw_call cfg uid
        (CreateTag {| td_name := PyStr.strip n;
                      td_color := default (JInt 0) (assoc "color" members) |})],
     inr match created with
         | inr tag_id =>
             json_response 201 (JObject [
               ("success", JBool true);
               ("message", JString "Tag created successfully");
               ("data", JObject [
                  ("id", JInt tag_id);
                  ("name", JString (PyStr.strip n));
                  ("color", default (JInt 0) (assoc "color" members))])])
         | inl e => error_response 500 ("Could not create tag: " +:+ exn_str e)
         end).
Proof.
  intros Hauth Hlogin Huid Hbody Hname Hn Hsearch Hcreate.
  unfold handle_create_tag.
  eapply (run_bind_ok srv _ _ _ _ _ [_] [_; _]);
    [ apply run_authenticate_ok; eassumption |].
  cbn beta iota.
  rewrite (create_tag_color_unchecked ev members n Hbody Hname Hn). cbn [bind].
  unfold store_tag.
  run_call Hsearch. run_call Hcreate. destruct created; reflexivity.
Qed.

(** POST /products, create: a non-empty [tag_ids] array goes into the
    existence search as it is. *)
Lemma tag_ids_unchecked ev s s1 uid members n x cost_price items :
  authorized cfg ev = true →
  srv (login_call cfg) s = (s1, inr (Some uid)) →
  uid ≠ 0 →
  ev_body ev = Parsed (JObject members) →
  valid_basics members n x cost_price →
  assoc "tag_ids" members = Some (JArray items) →
  items ≠ [] →
  ∃ rest,
    (run srv (handle_create_product cfg ev) s).1.2
    = login_call cfg
      :: kw_call cfg uid (Search product_tag [Cond "id" "in" (JArray items)] None)
      :: rest.
Proof.
  intros Hauth Hlogin Huid Hbody Hbasics Htags Hitems.
  unfold handle_create_product.
  rewrite run_bind, (run_authenticate_ok cfg ev S srv s s1 uid Hauth Hlogin Huid).
  cbn beta iota. rewrite run_bind.
  unfold product_params_of at 1. rewrite Hbody.
  cbn [has_body negb json_loads lift bind].
  rewrite (product_basics_from_body _ _ _ _ Hbasics).
  cbn [bind py_get lift]. rewrite Htags. cbn [default id]. unfold validate_tag_ids.
  destruct items as [| item items]; [contradiction |].
  cbn [truthy is_list negb andb]. run_step. unfold kw_call.
  destruct (srv _ s1) as [s2 r]. cbn beta iota.
  destruct (run srv _ s2) as [[s3 calls] [e | a]]; cbn beta iota.
  - eexists. reflexivity.
  - destruct (run srv _ s3) as [[s4 calls'] out]. eexists. reflexivity.
Qed.

(** C5, amended: of the numeric parameters only the prices are validated.
    For a request that passes the header check and the ERP login:
    on create, with a name that is a string and not blank, and on update,
    with a product name that is one, a [price] (or legacy [cost]) or a
    [cost_price] that [float()] rejects with [ValueError] or [TypeError] is
    answered 400 with the field's message;
    a [limit] or [offset] that [int()] rejects (query string of GET / and
    GET /tags, JSON body of POST /) is not a validation error: the exception
    reaches [lambda_handler] and the answer is 500 "Internal server error";
    the [color] of a new tag is sent to the ERP as the body has it, whatever
    value it is, and the answer of the handler is not a 400; a non-empty
    [tag_ids] array goes unchanged into the ERP search that follows the
    login. *)
Theorem numeric_parameters ev s s1 uid :
  authorized cfg ev = true →
  srv (login_call cfg) s = (s1, inr (Some uid)) →
  uid ≠ 0 →
  (∀ members n e,
     ev_body ev = Parsed (JObject members) →
     assoc "name" members = Some (JString n) →
     PyStr.strip n ≠ "" →
     is_key "cost" members || is_key "price" members = true →
     py_float (default (default (JInt 0) (assoc "cost" members))
                       (assoc "price" members)) = inl e →
     is_ValueError_or_TypeError e = true →
     run srv (handle_create_product cfg ev) s
     = (s1, [login_call cfg],
        inr {| statusCode := 400; r_headers := None;
               r_body := Some (JObject [
                 ("error", JString "Price must be a valid number")]) |}))
  ∧ (∀ members n x c e,
     ev_body ev = Parsed (JObject members) →
     assoc "name" members = Some (JString n) →
     PyStr.strip n ≠ "" →
     is_key "cost" members || is_key "price" members = true →
     py_float (default (default (JInt 0) (assoc "cost" members))
                       (assoc "price" members)) = inr x →
     float_neg x = false →
     assoc "cost_price" members = Some c →
     py_float c = inl e →
     is_ValueError_or_TypeError e = true →
     run srv (handle_create_product cfg ev) s
     = (s1, [login_call cfg],
        inr {| statusCode := 400; r_headers := None;
               r_body := Some (JObject [
                 ("error", JString "Cost price must be a valid number")]) |}))
  ∧ (∀ members n v e,
     ev_body ev = Parsed (JObject members) →
     assoc "product_name" members = Some (JString n) →
     PyStr.strip n ≠ "" →
     assoc "price" members = Some v →
     py_float v = inl e →
     is_ValueError_or_TypeError e = true →
     run srv (handle_update_product cfg ev) s
     = (s1, [login_call cfg],
        inr {| statusCode := 400; r_headers := None;
               r_body := Some (JObject [
                 ("error", JString "Price must be a valid number")]) |}))
  ∧ (∀ e rest,
     ev_method ev = Some "GET" →
     path_parts_of (default "/" (ev_rawPath ev)) = [] ∨
     path_parts_of (default "/" (ev_rawPath ev)) = "tags" :: rest →
     let query_params := default [] (ev_queryStringParameters ev) in
     py_int (query_get query_params "limit" (JInt 100)) = inl e
     ∨ (∃ limit, py_int (query_get query_params "limit" (JInt 100)) = inr limit
                 ∧ py_int (query_get query_params "offset" (JInt 0)) = inl e) →
     run srv (lambda_handler cfg ev) s
     = (s1, [login_call cfg],
        inr {| statusCode := 500; r_headers := None;
               r_body := Some (JObject [
                 ("error", JString "Internal server error")]) |}))
  ∧ (∀ e members,
     ev_method ev = Some "POST" →
     path_parts_of (default "/" (ev_rawPath ev)) = [] →
     ev_body ev = Parsed (JObject members) →
     is_JSONDecodeError e = false →
     py_int (default (JInt 100) (assoc "limit" members)) = inl e
     ∨ (∃ limit, py_int (default (JInt 100) (assoc "limit" members)) = inr limit
                 ∧ py_int (default (JInt 0) (assoc "offset" members)) = inl e) →
     run srv (lambda_handler cfg ev) s
     = (s1, [login_call cfg],
        inr {| statusCode := 500; r_headers := None;
               r_body := Some (JObject [
                 ("error", JString "Internal server error")]) |}))
  ∧ (∀ members n,
     ev_body ev = Parsed (JObject members) →
     assoc "name" members = Some (JString n) →
     PyStr.strip n ≠ "" →
     (∃ r, (run srv (handle_create_tag cfg ev) s).2 = inr r ∧ statusCode r ≠ 400)
     ∧ ∀ s2,
         srv (kw_call cfg uid
                (Search product_tag [Cond "name" "=" (JString (PyStr.strip n))] None)) s1
         = (s2, inr []) →
         (run srv (handle_create_tag cfg ev) s).1.2
         = [login_call cfg;
            kw_call cfg uid
              (Search product_tag [Cond "name" "=" (JString (PyStr.strip n))] None);
            kw_call cfg uid
              (CreateTag {| td_name := PyStr.strip n;
                            td_color := default (JInt 0) (assoc "color" members) |})])
  ∧ (∀ members n x cost_price items,
     ev_body ev = Parsed (JObject members) →
     valid_basics members n x cost_price →
     assoc "tag_ids" members = Some (JArray items) →
     items ≠ [] →
     ∃ rest,
       (run srv (handle_create_product cfg ev) s).1.2
       = login_call cfg
         :: kw_call cfg uid (Search product_tag [Cond "id" "in" (JArray items)] None)
         :: rest).
Proof.
  intros Hauth Hlogin Huid. repeat split.
  - intros. eapply create_price_invalid; eassumption.
  - intros. eapply create_cost_price_invalid; eassumption.
  - intros. eapply update_price_invalid; eassumption.
  - intros e rest Hget [Hroot | Htags] query_params Hbad.
    + eapply get_inventory_bad_number; eassumption.
    + eapply get_tags_bad_number; eassumption.
  - intros. eapply post_inventory_bad_number; eassumption.
  - eapply create_tag_returns; eassumption.
  - intros s2 Hsearch.
    destruct (srv (kw_call cfg uid
                     (CreateTag {| td_name := PyStr.strip n;
                                   td_color := default (JInt 0) (assoc "color" members) |}))
                s2) as [s3 created] eqn:Hcreate.
    rewrite (run_new_tag ev s s1 s2 s3 uid members n created) by assumption.
    reflexivity.
  - intros. eapply tag_ids_unchecked; eassumption.
Qed.

End Validation.

(** ** Requests served by the reference ERP *)

Section Store.
Context `{PyRuntime}.
Variable cfg : config.

Lemma login_session st db username password uid :
  login st db username password = inr (Some uid) →
  session_ok st db uid password = inr tt.
Proof.
  unfold login, session_ok.
  destruct db as [d |], username as [u |], password as [p |]; try discriminate.
  intros [= Hhead].
  destruct (List.filter _ (st_accounts st)) as [| a rest] eqn:Hfilter; [discriminate |].
  injection Hhead as <-.
  assert (Hin : In a (List.filter
                        (λ a, String.eqb (acc_db a) d && String.eqb (acc_username a) u
                              && String.eqb (acc_password a) p) (st_accounts st)))
    by (rewrite Hfilter; left; reflexivity).
  apply filter_In in Hin as [Hin Hcond].
  apply andb_prop in Hcond as [Hcond Hp]. apply andb_prop in Hcond as [Hd _].
  replace (existsb _ (st_accounts st)) with true; [reflexivity |].
  symmetry. apply existsb_exists. exists a. split; [exact Hin |].
  rewrite Hd, Hp, Z.eqb_refl. reflexivity.
Qed.

Lemma erp_login st uid :
  login st (ODOO_DB cfg) (ODOO_USERNAME cfg) (ODOO_PASSWORD cfg) = inr (Some uid) →
  erp (login_call cfg) st = (st, inr (Some uid)).
Proof. intros Hlogin. simpl. rewrite Hlogin. reflexivity. Qed.

Lemma login_fits st db username password uid :
  serial_ids st →
  login st db username password = inr (Some uid) →
  fits uid = true.
Proof.
  intros (_ & _ & Haccounts & _) Hlogin. unfold login in Hlogin.
  destruct db as [d |], username as [u |], password as [p |]; try discriminate.
  injection Hlogin as Hhead.
  destruct (List.filter _ (st_accounts st)) as [| a rest] eqn:Hfilter; [discriminate |].
  injection Hhead as <-.
  assert (Hin : In a (List.filter
                        (λ a, String.eqb (acc_db a) d && String.eqb (acc_username a) u
                              && String.eqb (acc_password a) p) (st_accounts st)))
    by (rewrite Hfilter; left; reflexivity).
  apply filter_In in Hin as [Hin _].
  rewrite Forall_forall in Haccounts. apply Haccounts, list_elem_of_In, Hin.
Qed.

Lemma erp_kw st uid m :
  session_ok st (ODOO_DB cfg) uid (ODOO_PASSWORD cfg) = inr tt →
  fits uid = true →
  unsendable_method m = None →
  erp (kw_call cfg uid m) st
  = answer m st (models_proxy cfg) (ODOO_DB cfg) uid (ODOO_PASSWORD cfg).
Proof.
  intros Hsession Hfits Hm. simpl. rewrite Hsession.
  unfold unsendable_call. rewrite Hfits, Hm.
  unfold session_ok in Hsession.
  destruct (ODOO_DB cfg), (ODOO_PASSWORD cfg); try discriminate; reflexivity.
Qed.

Lemma unsendable_ids (ids : list Z) :
  Forall (λ i, fits i = true) ids → unsendable (JArray (JInt <$> ids)) = None.
Proof.
  induction 1 as [| i ids Hi _ IH]; [reflexivity |].
  simpl in *. rewrite Hi. exact IH.
Qed.

Lemma unsendable_ints_fit (ids : list Z) :
  Forall (λ i, fits i = true) ids → unsendable_ints ids = None.
Proof.
  intros Hids. unfold unsendable_ints.
  replace (forallb fits ids) with true; [reflexivity |].
  symmetry. apply forallb_forall. intros i Hi.
  rewrite Forall_forall in Hids. apply Hids, list_elem_of_In, Hi.
Qed.

(** A domain of one triple selects the records the triple holds on. *)
Lemma select_single {R} (cond : string → string → json → R → option bool)
    field op value (holds : R → bool) rows :
  (∀ r, cond field op value r = Some (holds r)) →
  select cond [Cond field op value] rows = Some (List.filter holds rows).
Proof.
  intros Hcond. induction rows as [| r rows IH]; [reflexivity |].
  simpl. rewrite IH. unfold selects. simpl. rewrite Hcond. simpl.
  rewrite andb_true_r. destruct (holds r); reflexivity.
Qed.

Lemma find_row_in {R} (id_of : R → Z) rows x :
  NoDup (id_of <$> rows) → x ∈ rows → find_row id_of rows (id_of x) = Some x.
Proof.
  unfold find_row. induction rows as [| r rows IH]; intros Hnodup Hin.
  - inversion Hin.
  - rewrite fmap_cons in Hnodup. apply NoDup_cons in Hnodup as [Hfresh Hnodup].
    simpl. apply elem_of_cons in Hin as [-> | Hin].
    + rewrite Z.eqb_refl. reflexivity.
    + destruct (Z.eqb_spec (id_of r) (id_of x)) as [Heq | _].
      * exfalso. apply Hfresh. rewrite Heq. apply list_elem_of_fmap. eauto.
      * apply IH; assumption.
Qed.

Lemma read_rows_sub {R} (id_of : R → Z) rows sub :
  NoDup (id_of <$> rows) →
  (∀ x, x ∈ sub → x ∈ rows) →
  read_rows id_of rows (id_of <$> sub) = inr sub.
Proof.
  intros Hnodup Hsub. unfold read_rows.
  replace (mapM (find_row id_of rows) (id_of <$> sub)) with (Some sub); [reflexivity |].
  symmetry. apply mapM_Some. apply Forall2_fmap_l, Forall_Forall2_diag.
  apply Forall_forall. intros x Hx. apply find_row_in; auto.
Qed.

Lemma filter_sub {R} (f : R → bool) rows x : x ∈ List.filter f rows → x ∈ rows.
Proof. rewrite !list_elem_of_In. intros Hin. apply filter_In in Hin. tauto. Qed.

Section Session.
Variables (st : store) (uid : Z).
Hypothesis Hsession : session_ok st (ODOO_DB cfg) uid (ODOO_PASSWORD cfg) = inr tt.
Hypothesis Hfits : fits uid = true.

Lemma erp_search_name name :
  erp (kw_call cfg uid (Search product_product (name_is name) None)) st
  = (st, inr (p_id <$> named name st)).
Proof.
  rewrite (erp_kw st uid _ Hsession Hfits) by reflexivity.
  simpl. unfold search_rows, name_is.
  rewrite (select_single product_cond "name" "=" (JString name)
             (λ p, String.eqb (p_name p) name)) by reflexivity.
  reflexivity.
Qed.

Lemma erp_search_like name :
  erp (kw_call cfg uid (Search product_product [Cond "name" "ilike" (JString name)] None)) st
  = (st, inr (p_id <$> name_like name st)).
Proof.
  rewrite (erp_kw st uid _ Hsession Hfits) by reflexivity.
  simpl. unfold search_rows.
  rewrite (select_single product_cond "name" "ilike" (JString name)
             (λ p, ilike name (p_name p))) by reflexivity.
  reflexivity.
Qed.

Lemma erp_search_tag_name name :
  erp (kw_call cfg uid (Search product_tag (name_is name) None)) st
  = (st, inr (t_id <$> tags_named name st)).
Proof.
  rewrite (erp_kw st uid _ Hsession Hfits) by reflexivity.
  simpl. unfold search_rows, name_is.
  rewrite (select_single tag_cond "name" "=" (JString name)
             (λ t, String.eqb (t_name t) name)) by reflexivity.
  reflexivity.
Qed.

Lemma erp_search_tag_ids items :
  unsendable (JArray items) = None →
  erp (kw_call cfg uid (Search product_tag [Cond "id" "in" (JArray items)] None)) st
  = (st, inr (t_id <$> List.filter (λ t, existsb (is_JInt (t_id t)) items) (st_tags st))).
Proof.
  intros Hitems. rewrite (erp_kw st uid _ Hsession Hfits).
  2:{ unfold unsendable_method, unsendable_domain. cbn [map first_error].
      rewrite Hitems. reflexivity. }
  simpl. unfold search_rows.
  rewrite (select_single tag_cond "id" "in" (JArray items)
             (λ t, existsb (is_JInt (t_id t)) items)) by reflexivity.
  reflexivity.
Qed.

Lemma erp_read_products sub fields :
  NoDup (p_id <$> st_products st) →
  Forall (λ q, fits (p_id q) = true) (st_products st) →
  (∀ x, x ∈ sub → x ∈ st_products st) →
  erp (kw_call cfg uid (ReadProduct (p_id <$> sub) fields)) st = (st, inr sub).
Proof.
  intros Hnodup Hids Hsub. rewrite (erp_kw st uid _ Hsession Hfits).
  2:{ apply unsendable_ints_fit, Forall_fmap, Forall_forall. intros q Hq.
      rewrite Forall_forall in Hids. apply Hids, Hsub, Hq. }
  simpl. rewrite (read_rows_sub p_id _ sub Hnodup Hsub). reflexivity.
Qed.

End Session.
(** C3: an update whose trimmed product name resolves to more than one
    product (the products with exactly that name or, when there is none,
    those whose name contains it) is answered 400 with every candidate as
    [{id, name}] in [matches]; the calls made are the login, the one or two
    searches and one read, none of them a write, and the ERP store, hence
    every price in it, is what it was. *)
Theorem ambiguous_update_changes_nothing ev st uid members n v x :
  authorized cfg ev = true →
  login st (ODOO_DB cfg) (ODOO_USERNAME cfg) (ODOO_PASSWORD cfg) = inr (Some uid) →
  uid ≠ 0 →
  serial_ids st →
  ev_body ev = Parsed (JObject members) →
  assoc "product_name" members = Some (JString n) →
  PyStr.strip n ≠ "" →
  assoc "price" members = Some v →
  py_float v = inr x →
  float_neg x = false →
  (1 < List.length (candidates (PyStr.strip n) st))%nat →
  ∃ calls,
    run erp (handle_update_product cfg ev) st
    = (st, calls,
       inr {| statusCode := 400;
              r_headers := None;
              r_body := Some (JObject [
                ("error", JString ("Multiple products found matching " +:+ PyStr.dq
                                   +:+ PyStr.strip n +:+ PyStr.dq));
                ("matches", JArray ((λ c, JObject [("id", JInt (p_id c));
                                                   ("name", JString (p_name c))])
                                      <$> candidates (PyStr.strip n) st));
                ("suggestion", JString "Please use the exact product name")]) |})
    ∧ calls
      = [login_call cfg;
         kw_call cfg uid
           (Search product_product [Cond "name" "=" (JString (PyStr.strip n))] None)]
        ++ match named (PyStr.strip n) st with
           | [] => [kw_call cfg uid
                      (Search product_product
                         [Cond "name" "ilike" (JString (PyStr.strip n))] None)]
           | _ => []
           end
        ++ [kw_call cfg uid
              (ReadProduct (p_id <$> candidates (PyStr.strip n) st) ["id"; "name"])]
    ∧ Forall reads_only calls.
Proof.
  intros Hauth Hlogin Huid Hserial Hbody Hname Hn Hprice Hfloat Hneg Hmany.
  pose proof (login_session _ _ _ _ _ Hlogin) as Hsession.
  pose proof (login_fits _ _ _ _ _ Hserial Hlogin) as Hfits.
  pose proof (update_params_from_body ev members n v x Hbody Hname Hn Hprice Hfloat Hneg)
    as Hparams.
  destruct Hserial as (Hnodup & _ & _ & Hids & _).
  pose proof (erp_search_name st uid Hsession Hfits (PyStr.strip n)) as Hexact.
  pose proof (erp_search_like st uid Hsession Hfits (PyStr.strip n)) as Hlike.
  assert (Hread : erp (kw_call cfg uid
                         (ReadProduct (p_id <$> candidates (PyStr.strip n) st)
                            ["id"; "name"])) st
                  = (st, inr (candidates (PyStr.strip n) st))).
  { apply erp_read_products; [exact Hsession | exact Hfits | exact Hnodup | exact Hids |].
    intros q. unfold candidates.
    destruct (named _ st) eqn:Hnamed; [apply filter_sub |].
    rewrite <- Hnamed. apply filter_sub. }
  pose proof (erp_login st uid Hlogin) as Hin.
  eexists. split; [| split; [reflexivity |]].
  - unfold handle_update_product, authenticate_request.
    unfold authorized in Hauth. apply negb_true_iff in Hauth. rewrite Hauth.
    run_call Hin. destruct (Z.eqb_spec uid 0) as [? | _]; [contradiction |].
    run_step. rewrite Hparams. run_step.
    unfold write_price, find_by_name. cbn [up_product_name].
    run_call Hexact.
    unfold candidates in Hmany, Hread |- *.
    destruct (named (PyStr.strip n) st) as [| a exact] eqn:Hnamed.
    + cbn [fmap list_fmap]. run_call Hlike.
      destruct (name_like (PyStr.strip n) st) as [| c1 [| c2 more]];
        [simpl in Hmany; lia | simpl in Hmany; lia |].
      cbn [fmap list_fmap]. run_step.
      cbn [fmap list_fmap] in Hread. run_call Hread. reflexivity.
    + destruct exact as [| c2 more]; [simpl in Hmany; lia |].
      cbn [fmap list_fmap]. run_step.
      cbn [fmap list_fmap] in Hread. run_call Hread. reflexivity.
  - unfold reads_only. destruct (named (PyStr.strip n) st);
      repeat constructor.
Qed.

(** The reference ERP changes its store on [create] and [write] only. *)
Lemma erp_reads_only c st : reads_only c → (erp c st).1 = st.
Proof.
  unfold reads_only.
  destruct c as [common db username password | models db uid password m]; simpl.
  - reflexivity.
  - destruct (unsendable_call db uid password m); [reflexivity |].
    destruct (session_ok st db uid password); [reflexivity |].
    destruct m as [[] d kw | [] d | ids fields | ids fields | vals | vals | ids vals];
      simpl; try reflexivity; discriminate.
Qed.

Lemma run_reads_only {A} (p : prog A) st :
  calls_all reads_only p → (run erp p st).1.1 = st.
Proof.
  intros Hp. revert st. induction Hp as [a | e | c k Hc _ IH]; intros st; simpl.
  - reflexivity.
  - reflexivity.
  - pose proof (erp_reads_only c st Hc) as Hst.
    destruct (erp c st) as [s1 r]. simpl in Hst. subst s1. specialize (IH r st).
    destruct (run erp (k r) st) as [[s2 calls] out]. exact IH.
Qed.

Lemma product_params_reads_only models uid ev :
  calls_all reads_only (product_params_of cfg models uid ev).
Proof.
  unfold product_params_of, product_basics_of, validate_tag_ids, parse_price,
    execute_kw, rpc.
  repeat calls_step.
Qed.

Lemma product_basics_name members n :
  assoc "name" members = Some (JString n) →
  leaves (λ a, match a with
               | inl _ => True
               | inr (product_name, _, _) => product_name = PyStr.strip n
               end) (product_basics_of (JObject members)).
Proof.
  intros Hname. unfold product_basics_of.
  cbn [py_in py_getitem lift bind]. rewrite (is_key_assoc _ _ _ Hname), Hname.
  cbn [negb of_option mbind res_bind py_strip lift bind].
  repeat leaves_step ltac:(apply leaves_any).
Qed.

Lemma product_params_name ev members n models uid :
  ev_body ev = Parsed (JObject members) →
  assoc "name" members = Some (JString n) →
  leaves (λ a, match a with
               | inl _ => True
               | inr p => pp_product_name p = PyStr.strip n
               end) (product_params_of cfg models uid ev).
Proof.
  intros Hbody Hname. unfold product_params_of. rewrite Hbody.
  cbn [has_body negb json_loads lift bind].
  apply leaves_try; [| intros e; unfold except; destruct (is_JSONDecodeError e);
                       constructor; exact I].
  eapply leaves_bind; [apply (product_basics_name members n Hname) |].
  intros [early | [[product_name sales_price] cost_price]] Hbasics;
    [constructor; exact I |].
  repeat leaves_step ltac:(apply leaves_any).
Qed.

Lemma named_nonempty {R} (name_of : R → string) rows name :
  (∃ r, r ∈ rows ∧ name_of r = name) →
  ∃ r rest, List.filter (λ r, String.eqb (name_of r) name) rows = r :: rest.
Proof.
  intros (r & Hin & Hname).
  destruct (List.filter _ rows) as [| r' rest] eqn:Hfilter; [| eauto].
  exfalso. apply list_elem_of_In in Hin.
  assert (Hr : In r (List.filter (λ r, String.eqb (name_of r) name) rows)).
  { apply filter_In. split; [exact Hin |]. apply String.eqb_eq, Hname. }
  rewrite Hfilter in Hr. exact Hr.
Qed.

(** *** Runs that change nothing *)

Lemma quiet_ret {A} st (a : A) : quiet st (Ret a).
Proof. split; [reflexivity | constructor]. Qed.

Lemma quiet_calls {A} st (p : prog A) : calls_all reads_only p → quiet st p.
Proof. intros Hp. split; [apply run_reads_only, Hp | apply calls_all_run, Hp]. Qed.

Lemma quiet_bind {A B} st (p : prog A) (f : A → prog B) :
  quiet st p →
  (∀ a, (run erp p st).2 = inr a → quiet st (f a)) →
  quiet st (bind p f).
Proof.
  unfold quiet. intros [Hst Hcalls] Hf. rewrite run_bind.
  destruct (run erp p st) as [[s1 calls1] [e | a]]; simpl in *; subst s1.
  - split; [reflexivity | exact Hcalls].
  - destruct (Hf a eq_refl) as [Hst2 Hcalls2].
    destruct (run erp (f a) st) as [[s2 calls2] out2]; simpl in *.
    split; [exact Hst2 | apply Forall_app; split; assumption].
Qed.

Lemma quiet_try {A} st (p : prog A) (h : exn → prog A) :
  quiet st p → (∀ e, quiet st (h e)) → quiet st (try_except p h).
Proof.
  unfold quiet. intros [Hst Hcalls] Hh. rewrite run_try.
  destruct (run erp p st) as [[s1 calls1] [e | a]]; simpl in *; subst s1.
  - destruct (Hh e) as [Hst2 Hcalls2].
    destruct (run erp (h e) st) as [[s2 calls2] out2]; simpl in *.
    split; [exact Hst2 | apply Forall_app; split; assumption].
  - split; [reflexivity | exact Hcalls].
Qed.

Lemma authenticate_request_reads_only ev :
  calls_all reads_only (authenticate_request cfg ev).
Proof. unfold authenticate_request, rpc. repeat calls_step. Qed.

Lemma tag_params_name ev members n :
  ev_body ev = Parsed (JObject members) →
  assoc "name" members = Some (JString n) →
  leaves (λ a, match a with
               | inl _ => True
               | inr (tag_name, _) => tag_name = PyStr.strip n
               end) (tag_params_of ev).
Proof.
  intros Hbody Hname. unfold tag_params_of. rewrite Hbody.
  cbn [has_body negb json_loads lift bind py_in py_getitem py_get].
  rewrite (is_key_assoc _ _ _ Hname), Hname.
  cbn [negb of_option mbind res_bind py_strip lift bind try_except].
  destruct (String.eqb (PyStr.strip n) ""); constructor; [exact I | reflexivity].
Qed.

(** With a tag of that name in the store, [store_tag] stops at the search,
    whatever the session. *)
Lemma store_tag_quiet st models uid name color :
  (∃ t, t ∈ st_tags st ∧ t_name t = name) →
  quiet st (store_tag cfg models uid name color).
Proof.
  intros Hexists.
  destruct (named_nonempty t_name (st_tags st) name Hexists) as (t & rest & Hfound).
  unfold quiet, store_tag, execute_kw, rpc. cbn [bind run].
  cbn [erp].
  destruct (unsendable_call _ _ _ _); [simpl; split; [reflexivity | repeat constructor] |].
  destruct (session_ok st (ODOO_DB cfg) uid (ODOO_PASSWORD cfg)).
  - simpl. split; [reflexivity | repeat constructor].
  - cbn [answer]. unfold search_rows, name_is.
    rewrite (select_single tag_cond "name" "=" (JString name)
               (λ t, String.eqb (t_name t) name)) by reflexivity.
    rewrite Hfound. simpl. split; [reflexivity | repeat constructor].
Qed.

Lemma store_product_quiet st models uid p :
  (∃ q, q ∈ st_products st ∧ p_name q = pp_product_name p) →
  quiet st (store_product cfg models uid p).
Proof.
  intros Hexists.
  destruct (named_nonempty p_name (st_products st) _ Hexists) as (q & rest & Hfound).
  unfold quiet, store_product, execute_kw, rpc. cbn [bind run].
  cbn [erp].
  destruct (unsendable_call _ _ _ _); [simpl; split; [reflexivity | repeat constructor] |].
  destruct (session_ok st (ODOO_DB cfg) uid (ODOO_PASSWORD cfg)).
  - simpl. split; [reflexivity | repeat constructor].
  - cbn [answer]. unfold search_rows, name_is.
    rewrite (select_single product_cond "name" "=" (JString (pp_product_name p))
               (λ q, String.eqb (p_name q) (pp_product_name p))) by reflexivity.
    rewrite Hfound. simpl. split; [reflexivity | repeat constructor].
Qed.

Lemma create_tag_quiet ev st members n :
  ev_body ev = Parsed (JObject members) →
  assoc "name" members = Some (JString n) →
  (∃ t, t ∈ st_tags st ∧ t_name t = PyStr.strip n) →
  quiet st (handle_create_tag cfg ev).
Proof.
  intros Hbody Hname Hexists. unfold handle_create_tag.
  apply quiet_bind; [apply quiet_calls, authenticate_request_reads_only |].
  intros [early | [uid models]] _; [apply quiet_ret |].
  pose proof (tag_params_name ev members n Hbody Hname) as Hleaves.
  apply quiet_bind.
  { apply quiet_calls. unfold tag_params_of. repeat calls_step. }
  intros [early | [tag_name color]] Hparams; [apply quiet_ret |].
  apply (leaves_run _ _ _ erp st _ Hleaves) in Hparams. simpl in Hparams. subst tag_name.
  apply quiet_try; [apply store_tag_quiet, Hexists |].
  intros e. unfold except. simpl. apply quiet_ret.
Qed.

Lemma create_product_quiet ev st members n :
  ev_body ev = Parsed (JObject members) →
  assoc "name" members = Some (JString n) →
  (∃ q, q ∈ st_products st ∧ p_name q = PyStr.strip n) →
  quiet st (handle_create_product cfg ev).
Proof.
  intros Hbody Hname Hexists. unfold handle_create_product.
  apply quiet_bind; [apply quiet_calls, authenticate_request_reads_only |].
  intros [early | [uid models]] _; [apply quiet_ret |].
  pose proof (product_params_name ev members n models uid Hbody Hname) as Hleaves.
  apply quiet_bind; [apply quiet_calls, product_params_reads_only |].
  intros [early | p] Hparams; [apply quiet_ret |].
  apply (leaves_run _ _ _ erp st _ Hleaves) in Hparams. simpl in Hparams.
  apply quiet_try; [apply store_product_quiet; rewrite Hparams; exact Hexists |].
  intros e. unfold except. simpl. apply quiet_ret.
Qed.

(** C4, amended: a create-tag or create-product request whose trimmed name
    is exactly the name of an existing record of that model never creates
    anything: whatever else the request holds, no [create] (and no [write])
    is issued and the ERP store is what it was.  The answer is 409 Conflict
    when the request also gets as far as the name check, that is, when it
    passes the header check, the ERP login (which gives a user id of 32
    bits) and the validation of its body: a name that is not blank and, for
    a product, a price and a cost price that are numbers and not negative
    and a [tag_ids] that is falsy or a list that XML-RPC can send and for
    which the ERP finds as many tags as it has entries.  The calls are then
    the login, the tag search of the validation when there is one, and the
    exact-name search. *)
Theorem duplicate_name_is_conflict ev st members n :
  ev_body ev = Parsed (JObject members) →
  assoc "name" members = Some (JString n) →
  ((∃ t, t ∈ st_tags st ∧ t_name t = PyStr.strip n) →
   quiet st (handle_create_tag cfg ev)
   ∧ ∀ uid,
       authorized cfg ev = true →
       login st (ODOO_DB cfg) (ODOO_USERNAME cfg) (ODOO_PASSWORD cfg) = inr (Some uid) →
       uid ≠ 0 →
       fits uid = true →
       PyStr.strip n ≠ "" →
       run erp (handle_create_tag cfg ev) st
       = (st,
          [login_call cfg;
           kw_call cfg uid
             (Search product_tag [Cond "name" "=" (JString (PyStr.strip n))] None)],
          inr {| statusCode := 409; r_headers := None;
                 r_body := Some (JObject [
                   ("error", JString ("Tag " +:+ PyStr.dq +:+ PyStr.strip n +:+ PyStr.dq
                                      +:+ " already exists"))]) |}))
  ∧ ((∃ q, q ∈ st_products st ∧ p_name q = PyStr.strip n) →
     quiet st (handle_create_product cfg ev)
     ∧ ∀ uid x cost_price,
         authorized cfg ev = true →
         login st (ODOO_DB cfg) (ODOO_USERNAME cfg) (ODOO_PASSWORD cfg) = inr (Some uid) →
         uid ≠ 0 →
         fits uid = true →
         valid_basics members n x cost_price →
         let tag_ids := default (JArray []) (assoc "tag_ids" members) in
         (truthy tag_ids = true → tags_found st tag_ids) →
         run erp (handle_create_product cfg ev) st
         = (st,
            login_call cfg
            :: (if truthy tag_ids
                then [kw_call cfg uid (Search product_tag [Cond "id" "in" tag_ids] None)]
                else [])
            ++ [kw_call cfg uid
                  (Search product_product [Cond "name" "=" (JString (PyStr.strip n))] None)],
            inr {| statusCode := 409; r_headers := None;
                   r_body := Some (JObject [
                     ("error", JString ("Product " +:+ PyStr.dq +:+ PyStr.strip n
                                        +:+ PyStr.dq +:+ " already exists"))]) |})).
Proof.
  intros Hbody Hname. split.
  - intros Hexists. split; [eapply create_tag_quiet; eassumption |].
    intros uid Hauth Hlogin Huid Hfits Hn.
    pose proof (login_session _ _ _ _ _ Hlogin) as Hsession.
    pose proof (erp_login st uid Hlogin) as Hin.
    destruct (named_nonempty t_name (st_tags st) (PyStr.strip n) Hexists)
      as (t & rest & Hfound).
    pose proof (erp_search_tag_name st uid Hsession Hfits (PyStr.strip n)) as Hsearch.
    unfold tags_named in Hsearch. rewrite Hfound in Hsearch.
    unfold handle_create_tag.
    eapply (run_bind_ok erp _ _ _ _ _ [_] [_]);
      [ apply run_authenticate_ok; eassumption |].
    cbn beta iota.
    rewrite (create_tag_color_unchecked ev members n Hbody Hname Hn). cbn [bind].
    unfold store_tag. run_call Hsearch. reflexivity.
  - intros Hexists. split; [eapply create_product_quiet; eassumption |].
    intros uid x cost_price Hauth Hlogin Huid Hfits Hbasics tag_ids Hfound.
    pose proof (login_session _ _ _ _ _ Hlogin) as Hsession.
    pose proof (erp_login st uid Hlogin) as Hin.
    destruct (named_nonempty p_name (st_products st) (PyStr.strip n) Hexists)
      as (q & rest & Hq).
    pose proof (erp_search_name st uid Hsession Hfits (PyStr.strip n)) as Hsearch.
    unfold named in Hsearch. rewrite Hq in Hsearch.
    unfold handle_create_product.
    change (login_call cfg :: ?l) with ([login_call cfg] ++ l).
    eapply run_bind_ok; [ apply run_authenticate_ok; eassumption |].
    cbn beta iota.
    destruct (truthy tag_ids) eqn:Htruthy.
    + specialize (Hfound eq_refl). subst tag_ids.
      destruct (assoc "tag_ids" members) as [tag_ids |] eqn:Htags;
        [| discriminate Htruthy].
      cbn [default id] in *.
      destruct tag_ids as [| b | k | y | t | items | ms]; try contradiction.
      destruct Hfound as [Hsend Hcount].
      assert (Hitems : items ≠ []) by (intros ->; discriminate Htruthy).
      pose proof (erp_search_tag_ids st uid Hsession Hfits items Hsend) as Hcheck.
      eapply run_bind_ok.
      { apply (run_product_params_checked cfg erp ev uid members n x cost_price items
                 st st _ Hbody Hbasics Htags Hitems Hcheck). }
      rewrite length_fmap, Hcount, Nat.eqb_refl. cbn beta iota.
      apply run_try_ok. unfold store_product. cbn [pp_product_name].
      run_call Hsearch. reflexivity.
    + rewrite (product_params_no_tags cfg ev (models_proxy cfg) uid members n x cost_price
                 Hbody Hbasics Htruthy).
      cbn [bind]. apply run_try_ok. unfold store_product. cbn [pp_product_name].
      run_call Hsearch. reflexivity.
Qed.

(** *** The existence check on tag ids *)

Lemma is_JInt_ids i (ids : list Z) : existsb (is_JInt i) (JInt <$> ids) = true ↔ i ∈ ids.
Proof.
  rewrite existsb_exists. split.
  - intros (v & Hv & Hi). apply list_elem_of_In, list_elem_of_fmap in Hv as (k & -> & Hk).
    simpl in Hi. apply Z.eqb_eq in Hi. subst. exact Hk.
  - intros Hi. exists (JInt i). split; [| simpl; apply Z.eqb_refl].
    apply list_elem_of_In, list_elem_of_fmap. eauto.
Qed.

Lemma filter_ids {R} (id_of : R → Z) (g : Z → bool) rows :
  id_of <$> List.filter (λ r, g (id_of r)) rows = List.filter g (id_of <$> rows).
Proof.
  induction rows as [| r rows IH]; [reflexivity |].
  rewrite fmap_cons. cbn [List.filter].
  destruct (g (id_of r)); [rewrite fmap_cons |]; rewrite IH; reflexivity.
Qed.

(** With no id listed twice and no id stored twice, the search finds as
    many tags as were listed exactly when every listed id exists. *)
Lemma found_all_iff st (ids : list Z) :
  NoDup ids →
  NoDup (t_id <$> st_tags st) →
  List.length (t_id <$> List.filter (λ t, existsb (is_JInt (t_id t)) (JInt <$> ids))
                                  (st_tags st)) = List.length ids
  ↔ ∀ i, i ∈ ids → tag_exists st i.
Proof.
  intros Hids Htags. unfold tag_exists.
  rewrite (filter_ids t_id (λ i, existsb (is_JInt i) (JInt <$> ids))).
  set (stored := t_id <$> st_tags st) in *.
  set (found := List.filter _ stored).
  assert (Hfound : ∀ i, i ∈ found ↔ i ∈ stored ∧ i ∈ ids).
  { intros i. unfold found. rewrite list_elem_of_In, filter_In, <- list_elem_of_In.
    rewrite is_JInt_ids. reflexivity. }
  assert (Hnodup : NoDup found)
    by (apply NoDup_ListNoDup, List.NoDup_filter, NoDup_ListNoDup, Htags).
  split.
  - intros Hlen i Hi.
    assert (Hperm : found ≡ₚ ids).
    { apply submseteq_length_Permutation; [| lia].
      apply NoDup_submseteq; [exact Hnodup |]. intros x Hx. apply Hfound in Hx. tauto. }
    rewrite <- Hperm in Hi. apply Hfound in Hi. tauto.
  - intros Hall. apply Permutation_length, NoDup_Permutation; try assumption.
    intros i. rewrite Hfound. split; [tauto |]. intros Hi. split; [apply Hall, Hi | exact Hi].
Qed.

(** C7, amended: on create-product, for a request that passes the header
    check, the ERP login and the checks of its name and prices, a [tag_ids]
    value that is truthy and not an array is rejected with 400, while a
    falsy one (absent, null, false, 0, an empty string, list or object)
    counts as no tags: no tag search is made, the call after the login is
    the name search of the creation step, and the product is created with
    no tag command.  For a non-empty array of distinct integer ids of 32
    bits, over a store whose ids are distinct, the request is rejected with
    400 "One or more tag IDs do not exist" exactly when some listed id is
    not the id of an existing tag; when every listed id exists, the handler
    goes on to the creation step: the call after the tag search is the name
    search, and with a new name the [create] that carries the ids in one
    replace-all command. *)
Theorem tag_ids_are_checked_by_count ev members n x cost_price :
  authorized cfg ev = true →
  ev_body ev = Parsed (JObject members) →
  valid_basics members n x cost_price →
  let tag_ids := default (JArray []) (assoc "tag_ids" members) in
  let name_search uid :=
    kw_call cfg uid
      (Search product_product [Cond "name" "=" (JString (PyStr.strip n))] None) in
  let create uid commands :=
    kw_call cfg uid
      (CreateProduct {| pd_name := PyStr.strip n;
                        pd_list_price := x;
                        pd_type := "product";
                        pd_sale_ok := true;
                        pd_purchase_ok := false;
                        pd_product_tag_ids := commands;
                        pd_standard_price := cost_price |}) in
  (∀ (S : Type) (srv : server S) s s1 uid,
     srv (login_call cfg) s = (s1, inr (Some uid)) →
     uid ≠ 0 →
     (truthy tag_ids = true → is_list tag_ids = false →
      run srv (handle_create_product cfg ev) s
      = (s1, [login_call cfg],
         inr {| statusCode := 400; r_headers := None;
                r_body := Some (JObject [
                  ("error", JString "tag_ids must be an array of tag IDs")]) |}))
     ∧ (truthy tag_ids = false →
        ∀ s2,
          srv (name_search uid) s1 = (s2, inr []) →
          ∃ rest,
            (run srv (handle_create_product cfg ev) s).1.2
            = [login_call cfg; name_search uid; create uid []] ++ rest))
  ∧ (∀ st uid (ids : list Z),
     login st (ODOO_DB cfg) (ODOO_USERNAME cfg) (ODOO_PASSWORD cfg) = inr (Some uid) →
     uid ≠ 0 →
     serial_ids st →
     tag_ids = JArray (JInt <$> ids) →
     ids ≠ [] →
     NoDup ids →
     Forall (λ i, fits i = true) ids →
     let check :=
       kw_call cfg uid (Search product_tag [Cond "id" "in" (JArray (JInt <$> ids))] None) in
     ((∃ i, i ∈ ids ∧ ¬ tag_exists st i) →
      run erp (handle_create_product cfg ev) st
      = (st, [login_call cfg; check],
         inr {| statusCode := 400; r_headers := None;
                r_body := Some (JObject [
                  ("error", JString "One or more tag IDs do not exist")]) |}))
     ∧ ((∀ i, i ∈ ids → tag_exists st i) →
        ∃ rest,
          (run erp (handle_create_product cfg ev) st).1.2
          = [login_call cfg; check; name_search uid] ++ rest
          ∧ (named (PyStr.strip n) st = [] →
             ∃ rest', rest = create uid [(6, 0, JInt <$> ids)] :: rest'))).
Proof.
  intros Hauth Hbody Hbasics tag_ids name_search create. split.
  - intros S srv s s1 uid Hlogin Huid. split.
    + intros Htruthy Hlist. unfold handle_create_product.
      eapply (run_bind_ok srv _ _ _ _ _ [_] []);
        [ apply run_authenticate_ok; eassumption |].
      cbn beta iota.
      rewrite (product_params_not_list cfg ev (models_proxy cfg) uid members n x
                 cost_price Hbody Hbasics Htruthy Hlist).
      reflexivity.
    + intros Hfalsy s2 Hsearch. unfold handle_create_product.
      rewrite run_bind, (run_authenticate_ok cfg ev S srv s s1 uid Hauth Hlogin Huid).
      cbn beta iota.
      rewrite (product_params_no_tags cfg ev (models_proxy cfg) uid members n x
                 cost_price Hbody Hbasics Hfalsy).
      cbn [bind]. unfold store_product. cbn [pp_product_name pp_tag_ids pp_sales_price
                                              pp_cost_price].
      fold tag_ids. rewrite Hfalsy. subst name_search create. cbv beta.
      unfold name_is. run_call Hsearch. unfold kw_call.
      destruct (srv _ s2) as [s3 r]. cbn beta iota.
      destruct (run srv _ s3) as [[s4 calls] out]. eexists. reflexivity.
  - intros st uid ids Hlogin Huid Hserial Hids Hne Hnodup Hfit check.
    pose proof (login_session _ _ _ _ _ Hlogin) as Hsession.
    pose proof (login_fits _ _ _ _ _ Hserial Hlogin) as Hfits.
    pose proof (erp_login st uid Hlogin) as Hin.
    destruct Hserial as (_ & Htags & _).
    pose proof (erp_search_tag_ids st uid Hsession Hfits (JInt <$> ids)
                  (unsendable_ids ids Hfit)) as Hsearch.
    pose proof (found_all_iff st ids Hnodup Htags) as Hcount.
    assert (Hitems : JInt <$> ids ≠ []) by (destruct ids; [contradiction | discriminate]).
    assert (Hassoc : assoc "tag_ids" members = Some (JArray (JInt <$> ids))).
    { subst tag_ids. destruct (assoc "tag_ids" members) as [v |]; simpl in Hids.
      - rewrite Hids. reflexivity.
      - injection Hids as Hnil. destruct ids; [contradiction | discriminate]. }
    pose proof (run_product_params_checked cfg erp ev uid members n x cost_price
                  (JInt <$> ids) st st _ Hbody Hbasics Hassoc Hitems Hsearch) as Hparams.
    rewrite (length_fmap JInt ids) in Hparams.
    split.
    + intros (i & Hi & Hmissing).
      assert (Hmismatch :
                Nat.eqb (List.length
                           (t_id <$> List.filter
                              (λ t, existsb (is_JInt (t_id t)) (JInt <$> ids)) (st_tags st)))
                        (List.length ids) = false).
      { apply Nat.eqb_neq. intros Heq. apply Hmissing, Hcount; assumption. }
      rewrite Hmismatch in Hparams.
      unfold handle_create_product.
      eapply (run_bind_ok erp _ _ _ _ _ [_] [_]);
        [ apply run_authenticate_ok; eassumption |].
      cbn beta iota.
      eapply (run_bind_ok erp _ _ _ _ _ [_] []); [exact Hparams |]. reflexivity.
    + intros Hall.
      assert (Hmatch :
                Nat.eqb (List.length
                           (t_id <$> List.filter
                              (λ t, existsb (is_JInt (t_id t)) (JInt <$> ids)) (st_tags st)))
                        (List.length ids) = true).
      { apply Nat.eqb_eq, Hcount, Hall. }
      rewrite Hmatch in Hparams.
      pose proof (erp_search_name st uid Hsession Hfits (PyStr.strip n)) as Hname.
      unfold handle_create_product.
      rewrite run_bind, (run_authenticate_ok cfg ev store erp st st uid Hauth Hin Huid).
      cbn beta iota. rewrite run_bind, Hparams. cbn beta iota.
      rewrite run_try. unfold store_product.
      cbn [pp_product_name pp_tag_ids pp_sales_price pp_cost_price].
      subst name_search create. cbv beta.
      run_call Hname.
      destruct (named (PyStr.strip n) st) as [| q others].
      * cbn [fmap list_fmap]. run_step.
        replace (truthy (JArray (JInt <$> ids))) with true
          by (destruct ids; [contradiction | reflexivity]).
        unfold kw_call.
        match goal with
        | |- context [erp (ExecuteKw ?a ?b ?c ?d (CreateProduct ?vals)) st] =>
            destruct (erp (ExecuteKw a b c d (CreateProduct vals)) st) as [s3 r]
        end.
        cbn beta iota.
        match goal with
        | |- context [run erp ?p s3] => destruct (run erp p s3) as [[s4 calls] out]
        end.
        destruct out as [e | a]; cbn beta iota;
          (eexists; split; [reflexivity |]; intros _; eexists; reflexivity).
      * cbn [fmap list_fmap]. run_step. eexists.
        split; [reflexivity |]. intros Hnil. discriminate Hnil.
Qed.

End Store.

(** ** What the dispatcher answers itself *)

Section Dispatcher.
Context `{PyRuntime}.
Variable cfg : config.
Context {S : Type} (srv : server S).

(** X1: a request that [lambda_handler] passes to none of its handlers is
    answered without any ERP call and without the header check; the answer
    is one of 204, 400, 404, 405 and 500, and it is 204 exactly for
    OPTIONS. *)
Theorem refused_without_erp ev s :
  dispatch ev = None →
  ∃ r, run srv (lambda_handler cfg ev) s = (s, [], inr r)
       ∧ statusCode r ∈ [204; 400; 404; 405; 500]
       ∧ (statusCode r = 204 ↔ ev_method ev = Some "OPTIONS").
Proof.
  intros Hnone.
  unfold dispatch, tags_post_target, products_post_target in Hnone.
  unfold lambda_handler, route, route_tags_post, route_products_post.
  destruct (method_is (ev_method ev) "OPTIONS") eqn:Hoptions.
  { apply bool_decide_eq_true in Hoptions. eexists. split; [reflexivity |].
    split; [apply list_elem_of_In; simpl; auto | tauto]. }
  apply bool_decide_eq_false in Hoptions.
  assert (Hstatus : ∀ r : response,
            In (statusCode r) [400; 404; 405; 500] →
            statusCode r ∈ [204; 400; 404; 405; 500]
            ∧ (statusCode r = 204 ↔ ev_method ev = Some "OPTIONS")).
  { intros r Hr. split; [apply list_elem_of_In; right; exact Hr |].
    split; [| tauto]. intros H204. rewrite H204 in Hr. simpl in Hr.
    exfalso. intuition discriminate. }
  repeat (match type of Hnone with
          | context [if ?b then _ else _] => destruct b
          | context [match ?x with _ => _ end] => destruct x
          end;
          try discriminate;
          cbn [has_body json_loads lift bind negb] in * );
    cbn [try_except]; unfold except; try destruct (is_JSONDecodeError _);
    (eexists; split; [reflexivity | apply Hstatus; simpl; auto 6]).
Qed.

Lemma handler_ignores_path t raw_path ev :
  handler_of cfg t (with_path raw_path ev) = handler_of cfg t ev.
Proof. destruct t; reflexivity. Qed.

Lemma route_ignores_path raw_path ev http_method path_parts :
  route cfg (with_path raw_path ev) http_method path_parts
  = route cfg ev http_method path_parts.
Proof. reflexivity. Qed.

(** X2: DELETE passes the method gate of [lambda_handler] but no route
    serves it: the answer is 405 on /, /tags, /search and /products and 404
    elsewhere, without any ERP call. *)
Theorem delete_is_never_served ev s :
  ev_method ev = Some "DELETE" →
  ∃ r, run srv (lambda_handler cfg ev) s = (s, [], inr r)
       ∧ statusCode r
         = match path_parts_of (default "/" (ev_rawPath ev)) with
           | [] => 405
           | part0 :: _ =>
               if bool_decide (part0 ∈ ["tags"; "search"; "products"]) then 405 else 404
           end.
Proof.
  intros Hdelete. unfold lambda_handler, route. rewrite Hdelete.
  change (method_is (Some "DELETE") "OPTIONS") with false.
  change (existsb (method_is (Some "DELETE")) ["GET"; "POST"; "PUT"; "DELETE"]) with true.
  cbn [negb].
  destruct (path_parts_of _) as [| part0 rest]; [eexists; split; reflexivity |].
  destruct (String.eqb_spec part0 "tags") as [-> | Htags];
    [eexists; split; reflexivity |].
  destruct (String.eqb_spec part0 "search") as [-> | Hsearch];
    [eexists; split; reflexivity |].
  destruct (String.eqb_spec part0 "products") as [-> | Hproducts];
    [eexists; split; reflexivity |].
  eexists. split; [reflexivity |].
  rewrite bool_decide_eq_false_2; [reflexivity |].
  rewrite !elem_of_cons. intros [? | [? | [? | Hnil]]]; try contradiction.
  inversion Hnil.
Qed.

(** X3: the raw path matters only through its first non-empty segment, and
    an absent path is the root: two paths with the same first segment give
    the same program, so /tags/7/ is /tags; and for POST, /search is an alias
    of /. *)
Theorem path_is_its_first_segment ev raw_path raw_path' :
  head (path_parts_of raw_path) = head (path_parts_of raw_path') →
  lambda_handler cfg (with_path (Some raw_path) ev)
  = lambda_handler cfg (with_path (Some raw_path') ev)
  ∧ lambda_handler cfg (with_path None ev) = lambda_handler cfg (with_path (Some "/") ev)
  ∧ (ev_method ev = Some "POST" →
     lambda_handler cfg (with_path (Some "/search") ev)
     = lambda_handler cfg (with_path (Some "/") ev)).
Proof.
  intros Hhead. split; [| split].
  - unfold lambda_handler. cbn [with_path ev_method ev_rawPath default]. unfold id.
    rewrite !route_ignores_path. unfold route.
    destruct (path_parts_of raw_path) as [| part0 rest],
             (path_parts_of raw_path') as [| part0' rest'];
      try discriminate; [reflexivity |].
    injection Hhead as <-. reflexivity.
  - reflexivity.
  - intros Hpost. unfold lambda_handler. cbn [with_path ev_method ev_rawPath default].
    rewrite !route_ignores_path, Hpost. reflexivity.
Qed.

(** X4: the events built by [create_event] of the test suite and by
    [create_lambda_event] of the local server carry no raw path, so they
    reach the inventory listing (GET and POST) or no handler at all, never
    the tag or product handlers; in particular the DELETE event of
    [test_method_not_allowed] is answered 405 without any ERP call. *)
Theorem helper_events_list_inventory_only :
  (∀ method query_params headers body,
     dispatch (create_event method query_params headers body)
     = if bool_decide (method ∈ ["GET"; "POST"]) then Some ListInventory else None)
  ∧ (∀ request,
     dispatch (create_lambda_event request)
     = if bool_decide (fr_method request ∈ ["GET"; "POST"])
       then Some ListInventory else None)
  ∧ (∀ query_params headers body s,
     run srv (lambda_handler cfg (create_event "DELETE" query_params headers body)) s
     = (s, [], inr (error_response 405 "Method Not Allowed for inventory listing"))).
Proof.
  assert (Hdispatch : ∀ ev method,
            ev_method ev = Some method → ev_rawPath ev = None →
            dispatch ev
            = if bool_decide (method ∈ ["GET"; "POST"]) then Some ListInventory else None).
  { intros ev method Hmethod Hpath. unfold dispatch, method_is. rewrite Hmethod, Hpath.
    change (path_parts_of (default "/" None)) with (@nil string).
    cbn [existsb].
    destruct (String.eqb_spec method "GET") as [-> | Hget]; [reflexivity |].
    destruct (String.eqb_spec method "POST") as [-> | Hpost]; [reflexivity |].
    rewrite (bool_decide_eq_false_2 (method ∈ ["GET"; "POST"])).
    2:{ rewrite !elem_of_cons. intros [? | [? | Hnil]]; try contradiction. inversion Hnil. }
    rewrite (bool_decide_eq_false_2 (Some method = Some "GET")) by congruence.
    rewrite (bool_decide_eq_false_2 (Some method = Some "POST")) by congruence.
    cbn [orb negb].
    repeat (match goal with |- context [bool_decide ?P] => destruct (bool_decide P) end;
            cbn [orb negb]);
      reflexivity. }
  split; [| split].
  - intros. apply Hdispatch; reflexivity.
  - intros. apply Hdispatch; reflexivity.
  - reflexivity.
Qed.

End Dispatcher.

(** ** What every request has in common *)

(** One step of a proof about the [create] and [write] calls of a program:
    reduce it, then split on what its head waits for. *)
Ltac split_head p :=
  lazymatch p with
  | bind ?q _ => split_head q
  | try_except ?q _ => split_head q
  | except _ _ _ => unfold except
  | lift ?r => destruct r
  | match ?x with _ => _ end => destruct x
  | _ => progress cbv zeta
  end.

Ltac mutations_step :=
  cbn [bind try_except lift rpc execute_kw];
  lazymatch goal with
  | |- mutations_le _ (Ret _) => constructor
  | |- mutations_le _ (Raise _) => constructor
  | |- mutations_le _ (Rpc _ _) =>
      first [ apply mutations_read; [reflexivity | intros ?]
            | apply mutations_write; [reflexivity | intros ?] ]
  | |- mutations_le _ ?p => split_head p
  end.

Ltac issue_step :=
  cbn [bind try_except lift rpc execute_kw];
  lazymatch goal with
  | |- calls_all _ (Ret _) => constructor
  | |- calls_all _ (Raise _) => constructor
  | |- calls_all _ (Rpc _ _) => apply calls_rpc; [reflexivity | intros ?]
  | |- calls_all _ ?p => split_head p
  end.

Section Handlers.
Context `{PyRuntime}.
Variable cfg : config.
Context {S : Type} (srv : server S).

(** [lambda_handler] is a response of its own, or the handler it dispatches
    to under its catch-all clause, for the two POST routes with the clause
    for a malformed body in between. *)
Lemma lambda_handler_cases ev :
  match dispatch ev with
  | None => ∃ r, lambda_handler cfg ev = Ret r
  | Some t =>
      ∃ h, (lambda_handler cfg ev = h (handler_of cfg t ev))
           ∧ (h = (λ p, try_except p
                     (except is_Exception
                        (λ _, Ret (error_response 500 "Internal server error"))))
              ∨ h = (λ p, try_except
                     (try_except p
                        (except is_JSONDecodeError
                           (λ _, Ret (error_response 400 "Invalid JSON in request body"))))
                     (except is_Exception
                        (λ _, Ret (error_response 500 "Internal server error")))))
  end.
Proof.
  unfold dispatch, tags_post_target, products_post_target,
    lambda_handler, route, route_tags_post, route_products_post.
  repeat (lazymatch goal with
          | |- match ?d with _ => _ end => split_head d
          end;
          cbn [has_body json_loads lift bind negb handler_of]);
    first [ eexists; split; [| left; reflexivity]; reflexivity
          | eexists; split; [| right; reflexivity]; reflexivity
          | cbn [try_except]; unfold except; try destruct (is_JSONDecodeError _);
            eexists; reflexivity ].
Qed.

Lemma lambda_handler_calls (Q : call → Prop) ev :
  (∀ t, dispatch ev = Some t → calls_all Q (handler_of cfg t ev)) →
  calls_all Q (lambda_handler cfg ev).
Proof.
  intros Hhandler. pose proof (lambda_handler_cases ev) as Hcases.
  destruct (dispatch ev) as [t |].
  - specialize (Hhandler t eq_refl).
    destruct Hcases as (h & -> & [-> | ->]); repeat calls_step; assumption.
  - destruct Hcases as [r ->]. constructor.
Qed.

(** *** The calls of a request *)

Lemma inventory_params_reads_only ev http_method :
  calls_all reads_only (inventory_params_of ev http_method).
Proof. unfold inventory_params_of. repeat calls_step. Qed.

Lemma tags_params_reads_only ev http_method :
  calls_all reads_only (tags_params_of ev http_method).
Proof. unfold tags_params_of. repeat calls_step. Qed.

Lemma tag_params_reads_only ev : calls_all reads_only (tag_params_of ev).
Proof. unfold tag_params_of. repeat calls_step. Qed.

Lemma update_params_reads_only ev : calls_all reads_only (update_params_of ev).
Proof. unfold update_params_of, parse_price. repeat calls_step. Qed.

Lemma listing_reads_only t ev :
  t = ListInventory ∨ t = ListTags → calls_all reads_only (handler_of cfg t ev).
Proof.
  intros [-> | ->]; simpl;
    [ unfold handle_list_inventory, retrieve_inventory
    | unfold handle_list_tags, retrieve_tags ].
  - apply calls_all_bind; [apply authenticate_request_reads_only |].
    intros [early | [uid models]]; [constructor |].
    apply calls_all_bind; [apply inventory_params_reads_only |].
    intros [early | p]; [constructor |]. repeat issue_step.
  - apply calls_all_bind; [apply authenticate_request_reads_only |].
    intros [early | [uid models]]; [constructor |].
    apply calls_all_bind; [apply tags_params_reads_only |].
    intros [early | p]; [constructor |]. repeat issue_step.
Qed.

(** X5: a request that reaches the inventory or the tag listing only reads:
    whatever the ERP answers, no [create] and no [write] is among the calls,
    and on the reference ERP the store is what it was. *)
Theorem listings_only_read ev t s st :
  dispatch ev = Some t →
  t = ListInventory ∨ t = ListTags →
  Forall reads_only (run srv (lambda_handler cfg ev) s).1.2
  ∧ (run erp (lambda_handler cfg ev) st).1.1 = st.
Proof.
  intros Ht Hlisting.
  assert (Hcalls : calls_all reads_only (lambda_handler cfg ev)).
  { apply lambda_handler_calls. intros t' Ht'.
    rewrite Ht in Ht'. injection Ht' as <-. apply listing_reads_only, Hlisting. }
  split; [apply calls_all_run, Hcalls | apply run_reads_only, Hcalls].
Qed.

Lemma mutations_le_mono {A} n m (p : prog A) :
  mutations_le n p → (n ≤ m)%nat → mutations_le m p.
Proof.
  intros Hp. revert m.
  induction Hp as [n a | n e | n c k Hc _ IH | n c k Hc _ IH]; intros m Hle.
  - constructor.
  - constructor.
  - apply mutations_read; [exact Hc |]. intros r. apply IH, Hle.
  - destruct m as [| m]; [lia |].
    apply mutations_write; [exact Hc |]. intros r. apply IH. lia.
Qed.

Lemma mutations_le_reads {A} n (p : prog A) : calls_all reads_only p → mutations_le n p.
Proof.
  induction 1 as [a | e | c k Hc _ IH]; [constructor | constructor |].
  apply mutations_read; assumption.
Qed.

Lemma mutations_le_bind {A B} n (p : prog A) (f : A → prog B) :
  calls_all reads_only p → (∀ a, mutations_le n (f a)) → mutations_le n (bind p f).
Proof.
  intros Hp Hf. induction Hp as [a | e | c k Hc _ IH]; simpl.
  - apply Hf.
  - constructor.
  - apply mutations_read; assumption.
Qed.

Lemma mutations_le_try {A} n (p : prog A) (h : exn → prog A) :
  mutations_le n p → (∀ e, mutations_le 0 (h e)) → mutations_le n (try_except p h).
Proof.
  intros Hp Hh.
  induction Hp as [n a | n e | n c k Hc _ IH | n c k Hc _ IH]; simpl.
  - constructor.
  - apply (mutations_le_mono 0); [apply Hh | lia].
  - apply mutations_read; assumption.
  - apply mutations_write; assumption.
Qed.

Lemma mutations_le_run {A} n (p : prog A) s :
  mutations_le n p → (mutations (run srv p s).1.2 ≤ n)%nat.
Proof.
  intros Hp. revert s. unfold mutations.
  induction Hp as [n a | n e | n c k Hc _ IH | n c k Hc _ IH]; intros s; simpl;
    try lia;
    destruct (srv c s) as [s1 r]; specialize (IH r s1);
    destruct (run srv (k r) s1) as [[s2 calls] out]; simpl in *;
    rewrite Hc; simpl; lia.
Qed.

Lemma handler_mutations t ev : mutations_le 1 (handler_of cfg t ev).
Proof.
  destruct t; simpl;
    [ apply mutations_le_reads, (listing_reads_only ListInventory); auto
    | apply mutations_le_reads, (listing_reads_only ListTags); auto
    | unfold handle_create_tag, store_tag
    | unfold handle_create_product, store_product, read_product_tags
    | unfold handle_update_product, write_price, find_by_name, read_product_tags ];
    (apply mutations_le_bind; [apply authenticate_request_reads_only |]);
    intros [early | [uid models]]; try (constructor; fail).
  - apply mutations_le_bind; [apply tag_params_reads_only |].
    intros [early | [tag_name color]]; [constructor |]. repeat mutations_step.
  - apply mutations_le_bind; [apply product_params_reads_only |].
    intros [early | p]; [constructor |]. repeat mutations_step.
  - apply mutations_le_bind; [apply update_params_reads_only |].
    intros [early | p]; [constructor |]. repeat mutations_step.
Qed.

Lemma handler_issues t ev : calls_all (λ c, may_issue t c = true) (handler_of cfg t ev).
Proof.
  destruct t; simpl;
    [ unfold handle_list_inventory, retrieve_inventory, inventory_params_of
    | unfold handle_list_tags, retrieve_tags, tags_params_of
    | unfold handle_create_tag, store_tag, tag_params_of
    | unfold handle_create_product, store_product, read_product_tags
    | unfold handle_update_product, write_price, find_by_name, read_product_tags,
        update_params_of, parse_price ];
    (apply calls_all_bind;
     [unfold authenticate_request; repeat issue_step |]);
    intros [early | [uid models]]; try (constructor; fail).
  - repeat issue_step.
  - repeat issue_step.
  - repeat issue_step.
  - apply calls_all_bind.
    { unfold product_params_of, product_basics_of, validate_tag_ids, parse_price.
      repeat issue_step. }
    intros [early | p]; [constructor |]. repeat issue_step.
  - repeat issue_step.
Qed.

(** X6: a request makes at most one [create] or [write] call, whatever the
    ERP answers, and only of the kind of the handler it reaches: a tag
    [create] for a new tag, a product [create] for a new product, a product
    [write] for a price update, none for the listings. *)
Theorem one_change_of_its_kind ev t s :
  dispatch ev = Some t →
  Forall (λ c, may_issue t c = true) (run srv (lambda_handler cfg ev) s).1.2
  ∧ (mutations (run srv (lambda_handler cfg ev) s).1.2 ≤ 1)%nat.
Proof.
  intros Ht. split.
  - apply calls_all_run, lambda_handler_calls. intros t' Ht'.
    rewrite Ht in Ht'. injection Ht' as <-. apply handler_issues.
  - apply mutations_le_run.
    pose proof (lambda_handler_cases ev) as Hcases. rewrite Ht in Hcases.
    destruct Hcases as (h & -> & [-> | ->]);
      repeat (apply mutations_le_try; [| intros e; unfold except;
                destruct (_ e); constructor]);
      apply handler_mutations.
Qed.

(** *** The statuses of a request *)

Lemma authenticate_request_known ev : leaves early_known (authenticate_request cfg ev).
Proof. unfold authenticate_request, rpc. repeat leaves_step fail. Qed.

Lemma parse_price_known {A} value (wrap : float → A) negative invalid :
  leaves early_known (parse_price value wrap negative invalid).
Proof. unfold parse_price. repeat leaves_step fail. Qed.

Lemma product_basics_known data : leaves early_known (product_basics_of data).
Proof. unfold product_basics_of. repeat leaves_step ltac:(apply parse_price_known). Qed.

Lemma validate_tag_ids_known models uid tag_ids :
  leaves (from_option (λ r, known_status r = true) True)
    (validate_tag_ids cfg models uid tag_ids).
Proof. unfold validate_tag_ids, execute_kw, rpc. repeat leaves_step fail. Qed.

Lemma inventory_params_known ev http_method :
  leaves early_known (inventory_params_of ev http_method).
Proof. unfold inventory_params_of. repeat leaves_step fail. Qed.

Lemma tags_params_known ev http_method :
  leaves early_known (tags_params_of ev http_method).
Proof. unfold tags_params_of. repeat leaves_step fail. Qed.

Lemma tag_params_known ev : leaves early_known (tag_params_of ev).
Proof. unfold tag_params_of. repeat leaves_step fail. Qed.

Lemma update_params_known ev : leaves early_known (update_params_of ev).
Proof. unfold update_params_of. repeat leaves_step ltac:(apply parse_price_known). Qed.

Lemma product_params_known models uid ev :
  leaves early_known (product_params_of cfg models uid ev).
Proof.
  unfold product_params_of.
  repeat leaves_step
    ltac:(first [ apply product_basics_known | apply validate_tag_ids_known ]).
Qed.

Lemma handler_known t ev : leaves (λ r, known_status r = true) (handler_of cfg t ev).
Proof.
  destruct t; simpl;
    [ unfold handle_list_inventory, retrieve_inventory
    | unfold handle_list_tags, retrieve_tags
    | unfold handle_create_tag, store_tag
    | unfold handle_create_product, store_product
    | unfold handle_update_product, write_price ];
    repeat leaves_step
      ltac:(first [ apply authenticate_request_known | apply inventory_params_known
                  | apply tags_params_known | apply tag_params_known
                  | apply update_params_known | apply product_params_known ]).
Qed.

(** X7: on an event of the Function URL payload format (see [event]:
    [requestContext], [http], [headers] dictionaries, method and [rawPath]
    strings, each possibly absent) no exception leaves [lambda_handler],
    whatever the body, the query, the configuration and the answers or
    exceptions of the ERP: it returns a response, and the status of the
    response is one of 200, 201, 204, 400, 401, 404, 405, 409 and 500.
    Payloads outside that format are not covered; on them the lines before
    the [try] can raise. *)
Theorem always_a_known_status ev s :
  ∃ r, (run srv (lambda_handler cfg ev) s).2 = inr r
       ∧ statusCode r ∈ [200; 201; 204; 400; 401; 404; 405; 409; 500].
Proof.
  assert (Hleaves : leaves (λ r, known_status r = true) (lambda_handler cfg ev)).
  { pose proof (handler_known ListInventory ev) as Hinv.
    pose proof (handler_known ListTags ev) as Htags.
    pose proof (handler_known NewTag ev) as Htag.
    pose proof (handler_known NewProduct ev) as Hnew.
    pose proof (handler_known UpdateProduct ev) as Hupd.
    simpl in Hinv, Htags, Htag, Hnew, Hupd.
    unfold lambda_handler, route, route_tags_post, route_products_post.
    repeat leaves_step ltac:(assumption). }
  assert (Hret : ∃ r, (run srv (lambda_handler cfg ev) s).2 = inr r).
  { unfold lambda_handler.
    destruct (method_is (ev_method ev) "OPTIONS"); [simpl; eauto |].
    destruct (negb _); [simpl; eauto |].
    apply try_returns. }
  destruct Hret as [r Hr]. exists r. split; [exact Hr |].
  pose proof (leaves_run _ _ S srv s r Hleaves Hr) as Hknown. simpl in Hknown.
  unfold known_status in Hknown. apply existsb_exists in Hknown.
  destruct Hknown as (code & Hin & Hcode). apply Z.eqb_eq in Hcode. rewrite Hcode.
  apply list_elem_of_In, Hin.
Qed.

End Handlers.

(** ** What reaches the ERP, and what comes back *)

Ltac valid_ret :=
  simpl in *;
  repeat match goal with
         | H : ∃ _, _ |- _ => destruct H as (? & ? & ?)
         | H : _ ∧ _ |- _ => destruct H
         end;
  subst; simpl in *; unfold id in *;
  repeat split;
  first [ exact I | assumption | by apply String.eqb_neq | reflexivity | tauto ].

(** One step of a proof about the values a validation lets through. *)
Ltac valid_step known :=
  lazymatch goal with
  | |- leaves _ (Ret _) => apply leaves_ret; valid_ret
  | |- leaves _ (Raise _) => apply leaves_raise
  | |- leaves _ (Rpc _ _) => apply leaves_rpc; intros ?
  | |- leaves _ (bind (if ?b then _ else _) _) => destruct b eqn:?
  | |- leaves _ (bind (Ret _) _) => cbn [bind]
  | |- leaves _ (bind _ _) =>
      eapply leaves_bind; [ first [ known | apply leaves_any ] | intros ? ? ]
  | |- leaves _ (try_except _ _) => apply leaves_try; [ | intros ? ]
  | |- leaves _ (except _ _ _) => unfold except
  | |- leaves _ (if ?b then _ else _) => destruct b eqn:?
  | |- leaves _ (match ?x with _ => _ end) => destruct x; simpl in *
  | |- leaves _ _ => first [ known | progress cbv zeta ]
  end.

Ltac validated_call :=
  simpl in *;
  repeat match goal with H : _ ∧ _ |- _ => destruct H end;
  try match goal with |- context [truthy ?v] => destruct (truthy v) end;
  simpl;
  repeat match goal with |- _ ∧ _ => split end;
  first [ exact I | assumption | reflexivity | tauto ].

Ltac validated_step :=
  cbn [bind try_except lift rpc execute_kw];
  lazymatch goal with
  | |- calls_all _ (Ret _) => constructor
  | |- calls_all _ (Raise _) => constructor
  | |- calls_all _ (Rpc _ _) => apply calls_rpc; [validated_call | intros ?]
  | |- calls_all _ ?p => split_head p
  end.

Section Flows.
Context `{PyRuntime}.
Variable cfg : config.
Context {S : Type} (srv : server S).

Lemma calls_all_inv {A} (Q : call → Prop) (p : prog A) :
  calls_all Q p →
  match p with Rpc c k => Q c ∧ ∀ r, calls_all Q (k r) | _ => True end.
Proof. destruct 1; auto. Qed.

Lemma calls_all_mono {A} (Q Q' : call → Prop) (p : prog A) :
  (∀ c, Q c → Q' c) → calls_all Q p → calls_all Q' p.
Proof. intros Himpl. induction 1; constructor; auto. Qed.

Lemma calls_all_bind_leaves {A B} (Q : call → Prop) (P : A → Prop)
    (p : prog A) (f : A → prog B) :
  calls_all Q p → leaves P p → (∀ a, P a → calls_all Q (f a)) →
  calls_all Q (bind p f).
Proof.
  intros Hcalls Hleaves Hf. induction Hleaves as [a Ha | e | c k _ IH]; simpl.
  - apply Hf, Ha.
  - constructor.
  - apply calls_all_inv in Hcalls as [Hc Hk]. constructor; [exact Hc |].
    intros r. apply IH, Hk.
Qed.

Lemma validated_reads ev c : reads_only c → validated ev c.
Proof.
  unfold reads_only.
  destruct c as [common db username password | models db uid password m];
    [intros _; exact I |].
  destruct m; simpl; intros Hread; first [exact I | discriminate].
Qed.

(** *** The values the validations let through *)

Lemma parse_price_nonneg {A} value (wrap : float → A) negative invalid :
  leaves (λ a, match a with
               | inl _ => True
               | inr a => ∃ x, a = wrap x ∧ float_neg x = false
               end) (parse_price value wrap negative invalid).
Proof.
  unfold parse_price.
  repeat first [ (lazymatch goal with
                  | |- leaves _ (Ret (inr _)) => apply leaves_ret; eauto
                  end)
               | valid_step fail ].
Qed.

Lemma tag_params_valid ev :
  leaves (λ a, match a with inl _ => True | inr (tag_name, _) => tag_name ≠ "" end)
    (tag_params_of ev).
Proof. unfold tag_params_of. repeat valid_step fail. Qed.

Lemma product_basics_valid data :
  leaves (λ a, match a with
               | inl _ => True
               | inr (product_name, sales_price, cost_price) =>
                   product_name ≠ ""
                   ∧ float_neg sales_price = false
                   ∧ from_option (λ cost, float_neg cost = false) True cost_price
               end) (product_basics_of data).
Proof.
  unfold product_basics_of. repeat valid_step ltac:(apply parse_price_nonneg).
Qed.

Lemma product_params_valid models uid ev :
  leaves (λ a, match a with
               | inl _ => True
               | inr p =>
                   pp_product_name p ≠ ""
                   ∧ float_neg (pp_sales_price p) = false
                   ∧ from_option (λ cost, float_neg cost = false) True (pp_cost_price p)
               end) (product_params_of cfg models uid ev).
Proof.
  unfold product_params_of.
  repeat valid_step ltac:(apply product_basics_valid).
Qed.

Lemma update_params_valid ev :
  leaves (λ a, match a with
               | inl _ => True
               | inr p => up_product_name p ≠ "" ∧ float_neg (up_new_price p) = false
               end) (update_params_of ev).
Proof.
  unfold update_params_of. repeat valid_step ltac:(apply parse_price_nonneg).
Qed.

Lemma name_lookup data :
  leaves (λ _, has_name data) (lift (n ← py_getitem data "name"; py_strip n)).
Proof.
  destruct data as [| b | k | x | s | items | members]; simpl; try (constructor; fail).
  destruct (assoc "name" members) as [[| b | k | x | n | items | members'] |] eqn:Hname;
    simpl; constructor.
  exists members, n. split; [reflexivity | exact Hname].
Qed.

Lemma tag_params_named ev :
  leaves (λ a, match a with
               | inl _ => True
               | inr _ => ∃ data, ev_body ev = Parsed data ∧ has_name data
               end) (tag_params_of ev).
Proof.
  unfold tag_params_of.
  destruct (ev_body ev) as [| | data] eqn:Hbody; cbn [has_body negb json_loads lift bind];
    repeat first [ (lazymatch goal with
                    | |- leaves _ (Ret (inr _)) => apply leaves_ret; eauto
                    end)
                 | valid_step ltac:(apply name_lookup) ].
Qed.

Lemma product_basics_named data :
  leaves (λ a, match a with inl _ => True | inr _ => has_name data end)
    (product_basics_of data).
Proof.
  unfold product_basics_of.
  repeat first [ (lazymatch goal with
                  | |- leaves _ (Ret (inr _)) => apply leaves_ret; assumption
                  end)
               | valid_step ltac:(apply name_lookup) ].
Qed.

Lemma product_params_named models uid ev :
  leaves (λ a, match a with
               | inl _ => True
               | inr _ => ∃ data, ev_body ev = Parsed data ∧ has_name data
               end) (product_params_of cfg models uid ev).
Proof.
  unfold product_params_of.
  destruct (ev_body ev) as [| | data] eqn:Hbody; cbn [has_body negb json_loads lift bind];
    repeat first [ (lazymatch goal with
                    | |- leaves _ (Ret (inr _)) => apply leaves_ret; eauto
                    end)
                 | valid_step ltac:(apply product_basics_named) ].
Qed.

Lemma leaves_inv {A} (P : A → Prop) (p : prog A) :
  leaves P p →
  match p with
  | Ret a => P a
  | Raise _ => True
  | Rpc c k => ∀ r, leaves P (k r)
  end.
Proof. destruct 1; auto. Qed.

Lemma leaves_conj {A} (P Q : A → Prop) (p : prog A) :
  leaves P p → leaves Q p → leaves (λ a, P a ∧ Q a) p.
Proof.
  intros HP. induction HP as [a Ha | e | c k _ IH]; intros HQ.
  - constructor. split; [exact Ha | exact (leaves_inv _ _ HQ)].
  - constructor.
  - constructor. intros r. apply IH. exact (leaves_inv _ _ HQ r).
Qed.

Lemma leaves_mono {A} (P Q : A → Prop) (p : prog A) :
  (∀ a, P a → Q a) → leaves P p → leaves Q p.
Proof. intros Himpl. induction 1; constructor; auto. Qed.

Lemma named_or_not ev :
  (∃ members n, ev_body ev = Parsed (JObject members)
                ∧ assoc "name" members = Some (JString n))
  ∨ ¬ (∃ data, ev_body ev = Parsed data ∧ has_name data).
Proof.
  destruct (ev_body ev) as [| | data];
    [right; intros (data & Hbody & _); discriminate..|].
  destruct data as [| b | k | x | t | items | members];
    try (right; intros (data & [= <-] & members & n & Hdata & _); discriminate).
  destruct (assoc "name" members) as [[| b | k | x | n | items | members'] |] eqn:Hname;
    try (right; intros (data & [= <-] & ms & n' & [= <-] & Hn); congruence).
  left. eauto.
Qed.

Lemma tag_params_trimmed ev :
  leaves (λ a, match a with
               | inl _ => True
               | inr (tag_name, _) => trimmed_name ev tag_name ∧ tag_name ≠ ""
               end) (tag_params_of ev).
Proof.
  destruct (named_or_not ev) as [(members & n & Hbody & Hname) | Hnone].
  - eapply leaves_mono;
      [| apply (leaves_conj _ _ _ (tag_params_valid ev)
                  (tag_params_name ev members n Hbody Hname))].
    intros [early | [tag_name color]] [Hvalid Hstrip]; [exact I |].
    split; [exists members, n; auto | exact Hvalid].
  - eapply leaves_mono; [| apply tag_params_named].
    intros [early | [tag_name color]] Hnamed; [exact I | contradiction (Hnone Hnamed)].
Qed.

Lemma product_params_trimmed models uid ev :
  leaves (λ a, match a with
               | inl _ => True
               | inr p =>
                   trimmed_name ev (pp_product_name p)
                   ∧ pp_product_name p ≠ ""
                   ∧ float_neg (pp_sales_price p) = false
                   ∧ from_option (λ cost, float_neg cost = false) True (pp_cost_price p)
               end) (product_params_of cfg models uid ev).
Proof.
  destruct (named_or_not ev) as [(members & n & Hbody & Hname) | Hnone].
  - eapply leaves_mono;
      [| apply (leaves_conj _ _ _ (product_params_valid models uid ev)
                  (product_params_name cfg ev members n models uid Hbody Hname))].
    intros [early | p] [Hvalid Hstrip]; [exact I |].
    split; [exists members, n; auto | exact Hvalid].
  - eapply leaves_mono; [| apply product_params_named].
    intros [early | p] Hnamed; [exact I | contradiction (Hnone Hnamed)].
Qed.

Lemma handler_validated t ev : calls_all (validated ev) (handler_of cfg t ev).
Proof.
  pose proof (validated_reads ev) as Hreads.
  destruct t; simpl;
    [ apply (calls_all_mono reads_only), (listing_reads_only cfg ListInventory); auto
    | apply (calls_all_mono reads_only), (listing_reads_only cfg ListTags); auto
    | unfold handle_create_tag, store_tag
    | unfold handle_create_product, store_product, read_product_tags
    | unfold handle_update_product, write_price, find_by_name, read_product_tags ];
    (apply calls_all_bind;
     [apply (calls_all_mono reads_only), authenticate_request_reads_only; exact Hreads |]);
    intros [early | [uid models]]; try (constructor; fail).
  - eapply calls_all_bind_leaves;
      [ apply (calls_all_mono reads_only), tag_params_reads_only; exact Hreads
      | apply tag_params_trimmed |].
    intros [early | [tag_name color]] Hvalid; [constructor |].
    repeat validated_step.
  - eapply calls_all_bind_leaves;
      [ apply (calls_all_mono reads_only), product_params_reads_only; exact Hreads
      | apply product_params_trimmed |].
    intros [early | p] Hvalid; [constructor |].
    repeat validated_step.
  - eapply calls_all_bind_leaves;
      [ apply (calls_all_mono reads_only), update_params_reads_only; exact Hreads
      | apply update_params_valid |].
    intros [early | p] Hvalid; [constructor |].
    repeat validated_step.
Qed.

(** X8: what a request creates or writes has passed the validation,
    whatever the event and the answers of the ERP: a tag is created under
    the trimmed [name] of the request body, which is not empty; a product
    under the trimmed [name] of the body, not empty, with a sale price and a
    cost price that are not negative, of type [product], to be sold and not
    purchased; a price is written on exactly one product, is not negative,
    and the cost price is written only as that same price. *)
Theorem changes_are_validated ev s :
  Forall (validated ev) (run srv (lambda_handler cfg ev) s).1.2.
Proof.
  apply calls_all_run, lambda_handler_calls. intros t _. apply handler_validated.
Qed.

(** *** From a handler to [lambda_handler] *)

Lemma run_handler_early t ev s s1 calls r :
  run srv (authenticate_request cfg ev) s = (s1, calls, inr (inl r)) →
  run srv (handler_of cfg t ev) s = (s1, calls, inr r).
Proof.
  intros Hauth.
  destruct t; simpl;
    [ unfold handle_list_inventory | unfold handle_list_tags | unfold handle_create_tag
    | unfold handle_create_product | unfold handle_update_product ];
    rewrite run_bind, Hauth; simpl; rewrite app_nil_r; reflexivity.
Qed.

Lemma run_dispatched t ev s s1 calls r :
  dispatch ev = Some t →
  run srv (handler_of cfg t ev) s = (s1, calls, inr r) →
  run srv (lambda_handler cfg ev) s = (s1, calls, inr r).
Proof.
  intros Ht Hrun. pose proof (lambda_handler_cases cfg ev) as Hcases.
  rewrite Ht in Hcases. destruct Hcases as (h & -> & [-> | ->]);
    repeat apply run_try_ok; exact Hrun.
Qed.

(** X9: when the ERP login of a request that passed the header check fails,
    by an exception, by the answer [False] or by the user id 0, the request
    is answered 500 with the reason after "Could not authenticate with
    Odoo: ", and the login is the only ERP call. *)
Theorem failed_login_is_500 ev t s s1 (r : res (option Z)) reason :
  dispatch ev = Some t →
  authorized cfg ev = true →
  srv (login_call cfg) s = (s1, r) →
  login_failure r = Some reason →
  run srv (lambda_handler cfg ev) s
  = (s1, [login_call cfg],
     inr (error_response 500 ("Could not authenticate with Odoo: " +:+ reason))).
Proof.
  intros Ht Hauth Hlogin Hreason.
  apply (run_dispatched t); [exact Ht |]. apply run_handler_early.
  unfold authenticate_request.
  unfold authorized in Hauth. apply negb_true_iff in Hauth. rewrite Hauth.
  run_call Hlogin.
  destruct r as [e | [[| uid | uid] |]]; simpl in Hreason; try discriminate;
    injection Hreason as <-; reflexivity.
Qed.

(** *** The credential headers *)

Lemma scan_headers_same hs hs' : same_headers hs hs' → scan_headers hs = scan_headers hs'.
Proof.
  unfold same_headers, scan_headers. intros Hsame.
  generalize (@None string, @None string).
  induction Hsame as [| [k v] [k' v'] hs hs' [Hk Hv] _ IH]; intros acc; [reflexivity |].
  simpl in *. subst v'. destruct acc as [received_client_id received_client_secret].
  rewrite Hk. apply IH.
Qed.

(** X10: the names of the request headers are compared in lower case: two
    events that differ only in the case of their header names get the same
    answer.  Headers with other names are not looked at, and of several
    headers with the name of a credential the last one counts. *)
Theorem header_names_ignore_case ev hs hs' :
  same_headers hs hs' →
  lambda_handler cfg (with_headers hs ev) = lambda_handler cfg (with_headers hs' ev)
  ∧ (∀ key value,
       PyStr.lower key ≠ "x-client-id" → PyStr.lower key ≠ "x-client-secret" →
       scan_headers (hs ++ (key, value) :: hs') = scan_headers (hs ++ hs'))
  ∧ (∀ key value,
       PyStr.lower key = "x-client-id" →
       (scan_headers (hs ++ [(key, value)])).1 = Some value).
Proof.
  intros Hsame. split; [| split].
  - assert (Hmatch : credentials_match cfg (with_headers hs ev)
                     = credentials_match cfg (with_headers hs' ev)).
    { unfold credentials_match. cbn [with_headers ev_headers].
      rewrite (scan_headers_same hs hs' Hsame). reflexivity. }
    assert (Hauth : authenticate_request cfg (with_headers hs ev)
                    = authenticate_request cfg (with_headers hs' ev)).
    { unfold authenticate_request. rewrite Hmatch. reflexivity. }
    unfold lambda_handler, route, route_tags_post, route_products_post,
      handle_list_inventory, handle_list_tags, handle_create_tag,
      handle_create_product, handle_update_product.
    rewrite Hauth. reflexivity.
  - intros key value Hid Hsecret. unfold scan_headers.
    rewrite !foldl_app. cbn [foldl].
    destruct (foldl _ _ hs) as [received_client_id received_client_secret].
    apply String.eqb_neq in Hid, Hsecret. rewrite Hid, Hsecret. reflexivity.
  - intros key value Hid. unfold scan_headers.
    rewrite foldl_app. cbn [foldl].
    destruct (foldl _ _ hs) as [received_client_id received_client_secret].
    rewrite Hid. reflexivity.
Qed.

(** *** The tags of a listed product *)

Lemma tag_dict_snoc tags t : tag_dict (tags ++ [t]) = <[t_id t := t]> (tag_dict tags).
Proof. unfold tag_dict. rewrite foldl_app. reflexivity. Qed.

Lemma tag_dict_lookup tags i :
  tag_dict tags !! i = last (filter (λ t, t_id t = i) tags).
Proof.
  induction tags as [| t tags IH] using rev_ind; [reflexivity |].
  rewrite tag_dict_snoc, filter_app.
  destruct (decide (t_id t = i)) as [Hi | Hi].
  - rewrite <- Hi, lookup_insert_eq.
    rewrite filter_cons_True by reflexivity. rewrite filter_nil, last_snoc. reflexivity.
  - rewrite lookup_insert_ne by exact Hi.
    rewrite filter_cons_False by exact Hi. rewrite filter_nil, app_nil_r. exact IH.
Qed.

End Flows.

(** ** One request, call by call *)

Section Requests.
Context `{PyRuntime}.
Variable cfg : config.
Context {S : Type} (srv : server S).

(** The run of a handler past the header check and the ERP login. *)
Lemma run_after_login {A} (f : response + Z * server_proxy → prog A) ev s s1 s2 uid calls out :
  authorized cfg ev = true →
  srv (login_call cfg) s = (s1, inr (Some uid)) →
  uid ≠ 0 →
  run srv (f (inr (uid, models_proxy cfg))) s1 = (s2, calls, out) →
  run srv (bind (authenticate_request cfg ev) f) s = (s2, login_call cfg :: calls, out).
Proof.
  intros Hauth Hlogin Huid Hrest.
  change (login_call cfg :: calls) with ([login_call cfg] ++ calls).
  eapply run_bind_ok; [apply run_authenticate_ok; eassumption | exact Hrest].
Qed.

(** The run of [read_product_tags]: no call for a product without tags. *)
Lemma run_read_product_tags uid (q : product) (product_tags : list tag) s s1 :
  match p_product_tag_ids q with
  | [] => product_tags = [] ∧ s1 = s
  | tag_ids => srv (kw_call cfg uid (ReadTag tag_ids ["id"; "name"; "color"])) s
               = (s1, inr product_tags)
  end →
  run srv (read_product_tags cfg (models_proxy cfg) uid q) s
  = (s1,
     match p_product_tag_ids q with
     | [] => []
     | tag_ids => [kw_call cfg uid (ReadTag tag_ids ["id"; "name"; "color"])]
     end,
     inr product_tags).
Proof.
  unfold read_product_tags. destruct (p_product_tag_ids q) as [| i tag_ids].
  - intros [-> ->]. reflexivity.
  - intros Hread. exact (run_rpc srv _ _ _ _ Hread).
Qed.

(** The run of [find_by_name]: the [ilike] search is made only when the
    exact search found nothing. *)
Lemma run_find_by_name uid name (found product_ids : list Z) s s1 s2 :
  srv (kw_call cfg uid
         (Search product_product [Cond "name" "=" (JString name)] None)) s
  = (s1, inr found) →
  match found with
  | [] => srv (kw_call cfg uid
                 (Search product_product [Cond "name" "ilike" (JString name)] None)) s1
          = (s2, inr product_ids)
  | _ => product_ids = found ∧ s2 = s1
  end →
  run srv (find_by_name cfg (models_proxy cfg) uid name) s
  = (s2,
     kw_call cfg uid (Search product_product [Cond "name" "=" (JString name)] None)
     :: match found with
        | [] => [kw_call cfg uid
                   (Search product_product [Cond "name" "ilike" (JString name)] None)]
        | _ => []
        end,
     inr product_ids).
Proof.
  intros Hexact Hlike. unfold find_by_name, name_is.
  run_call Hexact. destruct found as [| i found].
  - run_call Hlike. reflexivity.
  - destruct Hlike as [-> ->]. reflexivity.
Qed.

Lemma omap_ext_same {A B} (f g : A → option B) (l : list A) :
  (∀ a, f a = g a) → omap f l = omap g l.
Proof.
  intros Hfg. induction l as [| a l IH]; [reflexivity |].
  csimpl. rewrite Hfg, IH. reflexivity.
Qed.

(** X11: the 200 answer of an inventory listing whose id search finds
    products, written out.  [data] has one object per product the ERP read
    returned, in that order, with id, name, price, cost price and currency;
    its [tags] are the product's tag ids in their order, each looked up
    among the tags the one tag read returned: the last returned tag of that
    id, and nothing for an id no returned tag has.  [found] and the message
    go by the number of products, [has_more] says whether offset plus limit
    is below the count. *)
Theorem listed_tags_by_id ev s s1 s2 s3 s4 s5 uid p d ids products total_count tags :
  dispatch ev = Some ListInventory →
  authorized cfg ev = true →
  srv (login_call cfg) s = (s1, inr (Some uid)) →
  uid ≠ 0 →
  inventory_params_of ev (default "GET" (ev_method ev)) = Ret (inr p) →
  inventory_domain (ip_search_term p) (ip_category_id p) = inr d →
  srv (kw_call cfg uid (Search product_product d
                          (name_order (ip_limit p) (ip_offset p)))) s1
  = (s2, inr ids) →
  ids ≠ [] →
  srv (kw_call cfg uid (ReadProduct ids product_fields)) s2 = (s3, inr products) →
  srv (kw_call cfg uid (SearchCount product_product d)) s3 = (s4, inr total_count) →
  match unique (mjoin (p_product_tag_ids <$> products)) with
  | [] => tags = [] ∧ s5 = s4
  | unique_tag_ids =>
      srv (kw_call cfg uid (ReadTag unique_tag_ids ["id"; "name"; "color"])) s4
      = (s5, inr tags)
  end →
  let shown (tag_id : Z) : option json :=
    (λ t, JObject [("id", JInt (t_id t)); ("name", JString (t_name t));
                   ("color", t_color t)])
    <$> last (filter (λ t, t_id t = tag_id) tags) in
  let listed (q : product) : json :=
    JObject [
      ("id", JInt (p_id q));
      ("name", JString (p_name q));
      ("price", JFloat (p_list_price q));
      ("cost_price", JFloat (p_standard_price q));
      ("currency", JObject [
         ("id", match p_currency_id q with Some c => JInt c.1 | None => JNull end);
         ("name", JString match p_currency_id q with Some c => c.2 | None => "" end)]);
      ("tags", JArray (omap shown (p_product_tag_ids q)))] in
  let n := Z.of_nat (List.length products) in
  (run srv (lambda_handler cfg ev) s).1.1 = s5
  ∧ (run srv (lambda_handler cfg ev) s).2
    = inr {| statusCode := 200;
             r_headers := Some [("Access-Control-Allow-Origin", "*");
                                ("Content-Type", "application/json")];
             r_body := Some (JObject [
               ("success", JBool true);
               ("found", JBool (0 <? n));
               ("data", JArray (listed <$> products));
               ("pagination", JObject [
                  ("total_count", JInt total_count);
                  ("limit", JInt (ip_limit p));
                  ("offset", JInt (ip_offset p));
                  ("has_more", JBool (ip_offset p + ip_limit p <? total_count))]);
               ("filters_applied", JObject [
                  ("search_term", ip_search_term p);
                  ("category_id", ip_category_id p);
                  ("search_method", JString (default "GET" (ev_method ev)))]);
               ("message",
                JString (if 0 <? n
                         then "Found " +:+ pretty n +:+ " product(s)"
                         else if truthy (ip_search_term p)
                              then "No products found matching: "
                                   +:+ py_str (ip_search_term p)
                              else "No products found"))]) |}.
Proof.
  intros Ht Hauth Hlogin Huid Hparams Hd Hsearch Hids Hread Hcount Htags shown listed n.
  assert (Hlisted : format_product (tag_dict tags) <$> products = listed <$> products).
  { apply list_fmap_ext. intros _ q _. unfold format_product, listed, product_tags_of.
    rewrite (omap_ext_same _ shown); [reflexivity |].
    intros tag_id. unfold shown. rewrite tag_dict_lookup. reflexivity. }
  assert (Hrun : ∃ calls,
            run srv (lambda_handler cfg ev) s
            = (s5, calls,
               inr (json_response 200 (JObject [
                 ("success", JBool true);
                 ("found", JBool (0 <? n));
                 ("data", JArray (format_product (tag_dict tags) <$> products));
                 ("pagination", JObject [
                    ("total_count", JInt total_count);
                    ("limit", JInt (ip_limit p));
                    ("offset", JInt (ip_offset p));
                    ("has_more", JBool (ip_offset p + ip_limit p <? total_count))]);
                 ("filters_applied", JObject [
                    ("search_term", ip_search_term p);
                    ("category_id", ip_category_id p);
                    ("search_method", JString (default "GET" (ev_method ev)))]);
                 ("message",
                  JString (if 0 <? n
                           then "Found " +:+ pretty n +:+ " product(s)"
                           else not_found_message (ip_search_term p)))])))).
  { destruct (unique (mjoin (p_product_tag_ids <$> (products : list product))))
      as [| t ts] eqn:Hunique;
      eexists;
      (apply (run_dispatched cfg srv ListInventory); [exact Ht |]);
      simpl; unfold handle_list_inventory;
      (eapply run_after_login; [exact Hauth | exact Hlogin | exact Huid |]);
      cbn beta iota; rewrite Hparams; cbn [bind];
      unfold retrieve_inventory; rewrite Hd;
      run_call Hsearch; (destruct ids as [| i ids]; [contradiction |]);
      run_call Hread; run_call Hcount;
      subst n; unfold kw_call, tag_fields in *; rewrite Hunique.
    - destruct Htags as [-> ->]. run_step. rewrite length_fmap. reflexivity.
    - run_call Htags. rewrite length_fmap. reflexivity. }
  destruct Hrun as [calls Hrun].
  rewrite Hrun. split; [reflexivity |]. cbn [snd]. rewrite Hlisted. reflexivity.
Qed.

(** X12: a price update whose body gives a name that is not blank and a
    price that is a number and not negative, and whose name search (exact
    or, when that finds nothing, [ilike]) finds one product, reads the
    product, writes the new sale price on it, with the cost price exactly
    when the body's [update_cost_price] is truthy, and reads it again with
    its tags.  What the [write] returns is not looked at; the answer is 200
    and reports the price read before the write and the prices read after
    it.  When the [write] raises, the answer is 500 and nothing more is
    called. *)
Theorem price_update_call_by_call ev s s1 s2 s3 s4 s5 s6 s7 uid members n v x found
    product_id current (written : res bool) updated product_tags :
  dispatch ev = Some UpdateProduct →
  authorized cfg ev = true →
  srv (login_call cfg) s = (s1, inr (Some uid)) →
  uid ≠ 0 →
  ev_body ev = Parsed (JObject members) →
  assoc "product_name" members = Some (JString n) →
  PyStr.strip n ≠ "" →
  assoc "price" members = Some v →
  py_float v = inr x →
  float_neg x = false →
  let update_cost_price := default (JBool false) (assoc "update_cost_price" members) in
  let exact :=
    kw_call cfg uid
      (Search product_product [Cond "name" "=" (JString (PyStr.strip n))] None) in
  let like :=
    kw_call cfg uid
      (Search product_product [Cond "name" "ilike" (JString (PyStr.strip n))] None) in
  let read_current :=
    kw_call cfg uid
      (ReadProduct [product_id] ["id"; "name"; "list_price"; "standard_price"]) in
  let write :=
    kw_call cfg uid
      (WriteProduct [product_id]
         {| ud_list_price := x;
            ud_standard_price := if truthy update_cost_price then Some x else None |}) in
  let read_updated :=
    kw_call cfg uid
      (ReadProduct [product_id]
         ["id"; "name"; "list_price"; "standard_price"; "product_tag_ids"]) in
  srv exact s1 = (s2, inr found) →
  match found with
  | [] => srv like s2 = (s3, inr [product_id])
  | _ => [product_id] = found ∧ s3 = s2
  end →
  srv read_current s3 = (s4, inr [current]) →
  srv write s4 = (s5, written) →
  srv read_updated s5 = (s6, inr [updated]) →
  match p_product_tag_ids updated with
  | [] => product_tags = [] ∧ s7 = s6
  | tag_ids => srv (kw_call cfg uid (ReadTag tag_ids ["id"; "name"; "color"])) s6
               = (s7, inr product_tags)
  end →
  let before_write :=
    login_call cfg :: exact :: match found with [] => [like] | _ => [] end
    ++ [read_current; write] in
  run srv (lambda_handler cfg ev) s
  = match written with
    | inl e =>
        (s5, before_write,
         inr {| statusCode := 500;
                r_headers := None;
                r_body := Some (JObject [
                  ("error", JString ("Could not update product: " +:+ exn_str e))]) |})
    | inr _ =>
        (s7,
         before_write ++ read_updated
         :: match p_product_tag_ids updated with
            | [] => []
            | tag_ids => [kw_call cfg uid (ReadTag tag_ids ["id"; "name"; "color"])]
            end,
         inr {| statusCode := 200;
                r_headers := Some [("Access-Control-Allow-Origin", "*");
                                   ("Content-Type", "application/json")];
                r_body := Some (JObject [
                  ("success", JBool true);
                  ("message", JString "Product price updated successfully");
                  ("data", JObject [
                     ("id", JInt (p_id updated));
                     ("name", JString (p_name updated));
                     ("previous_price", JFloat (p_list_price current));
                     ("new_price", JFloat (p_list_price updated));
                     ("cost_price", JFloat (p_standard_price updated));
                     ("cost_price_updated", update_cost_price);
                     ("tags",
                      JArray ((λ t, JObject [("id", JInt (t_id t));
                                             ("name", JString (t_name t));
                                             ("color", t_color t)])
                                <$> product_tags))])]) |})
    end.
Proof.
  intros Ht Hauth Hlogin Huid Hbody Hname Hn Hprice Hfloat Hneg
    update_cost_price exact like read_current write read_updated
    Hexact Hlike Hread Hwrite Hread' Htags before_write.
  pose proof (update_params_from_body ev members n v x Hbody Hname Hn Hprice Hfloat Hneg)
    as Hparams.
  pose proof (run_find_by_name uid (PyStr.strip n) found [product_id] s1 s2 s3 Hexact Hlike)
    as Hfind.
  pose proof (run_read_product_tags uid updated product_tags s6 s7 Htags) as Hrtags.
  subst before_write update_cost_price exact like read_current write read_updated.
  unfold kw_call in *.
  destruct written as [e | ok];
    apply (run_dispatched cfg srv UpdateProduct); try exact Ht;
    simpl; unfold handle_update_product;
    (eapply run_after_login; [exact Hauth | exact Hlogin | exact Huid |]);
    cbn beta iota; rewrite Hparams; cbn [bind];
    rewrite run_try; unfold write_price; cbn [up_product_name up_new_price
                                               up_update_cost_price];
    rewrite run_bind, Hfind; cbn beta iota;
    run_call Hread; cbn [item0 of_option head lift bind run];
    run_call Hwrite.
  - rewrite app_nil_r. reflexivity.
  - run_call Hread'. cbn [item0 of_option head lift bind run].
    rewrite run_bind, Hrtags. cbn beta iota. cbn [run].
    rewrite app_nil_r. cbn [app]. rewrite <- !app_assoc. reflexivity.
Qed.

(** X13: a price update whose body gives a name that is not blank and a
    price that is a number and not negative, and for whose trimmed name the
    exact search and the [ilike] search both find nothing, is answered 404
    with the trimmed name and a suggestion; the calls are the login and the
    two searches, nothing is read and nothing is written. *)
Theorem price_update_without_match ev s s1 s2 s3 uid members n v x :
  dispatch ev = Some UpdateProduct →
  authorized cfg ev = true →
  srv (login_call cfg) s = (s1, inr (Some uid)) →
  uid ≠ 0 →
  ev_body ev = Parsed (JObject members) →
  assoc "product_name" members = Some (JString n) →
  PyStr.strip n ≠ "" →
  assoc "price" members = Some v →
  py_float v = inr x →
  float_neg x = false →
  srv (kw_call cfg uid
         (Search product_product [Cond "name" "=" (JString (PyStr.strip n))] None)) s1
  = (s2, inr []) →
  srv (kw_call cfg uid
         (Search product_product [Cond "name" "ilike" (JString (PyStr.strip n))] None)) s2
  = (s3, inr []) →
  run srv (lambda_handler cfg ev) s
  = (s3,
     [login_call cfg;
      kw_call cfg uid
        (Search product_product [Cond "name" "=" (JString (PyStr.strip n))] None);
      kw_call cfg uid
        (Search product_product [Cond "name" "ilike" (JString (PyStr.strip n))] None)],
     inr {| statusCode := 404; r_headers := None;
            r_body := Some (JObject [
              ("error", JString ("Product not found: " +:+ PyStr.strip n));
              ("suggestion",
               JString "Try using the search API to find the exact product name")]) |}).
Proof.
  intros Ht Hauth Hlogin Huid Hbody Hname Hn Hprice Hfloat Hneg Hexact Hlike.
  pose proof (update_params_from_body ev members n v x Hbody Hname Hn Hprice Hfloat Hneg)
    as Hparams.
  apply (run_dispatched cfg srv UpdateProduct); [exact Ht |].
  simpl. unfold handle_update_product.
  eapply run_after_login; [exact Hauth | exact Hlogin | exact Huid |].
  cbn beta iota. rewrite Hparams. cbn [bind].
  unfold write_price, find_by_name, name_is. cbn [up_product_name].
  run_call Hexact. run_call Hlike. reflexivity.
Qed.

(** X14: a create-tag request whose body gives a name that is not blank,
    and for whose trimmed name the search finds nothing, issues one
    [create] with the trimmed name and the colour of the body as it is (0
    when the body has none).  The answer is 201 with the id the ERP
    returned, or 500 with the text of the exception when the [create]
    raises; in both cases the calls are the login, the search and the
    [create]. *)
Theorem new_tag_call_by_call ev s s1 s2 s3 uid members n (created : res Z) :
  dispatch ev = Some NewTag →
  authorized cfg ev = true →
  srv (login_call cfg) s = (s1, inr (Some uid)) →
  uid ≠ 0 →
  ev_body ev = Parsed (JObject members) →
  assoc "name" members = Some (JString n) →
  PyStr.strip n ≠ "" →
  let color := default (JInt 0) (assoc "color" members) in
  let search :=
    kw_call cfg uid
      (Search product_tag [Cond "name" "=" (JString (PyStr.strip n))] None) in
  let create :=
    kw_call cfg uid (CreateTag {| td_name := PyStr.strip n; td_color := color |}) in
  srv search s1 = (s2, inr []) →
  srv create s2 = (s3, created) →
  run srv (lambda_handler cfg ev) s
  = (s3,
     [login_call cfg; search; create],
     inr match created with
         | inr tag_id =>
             {| statusCode := 201;
                r_headers := Some [("Access-Control-Allow-Origin", "*");
                                   ("Content-Type", "application/json")];
                r_body := Some (JObject [
                  ("success", JBool true);
                  ("message", JString "Tag created successfully");
                  ("data", JObject [
                     ("id", JInt tag_id);
                     ("name", JString (PyStr.strip n));
                     ("color", color)])]) |}
         | inl e =>
             {| statusCode := 500;
                r_headers := None;
                r_body := Some (JObject [
                  ("error", JString ("Could not create tag: " +:+ exn_str e))]) |}
         end).
Proof.
  intros Ht Hauth Hlogin Huid Hbody Hname Hn color search create Hsearch Hcreate.
  apply (run_dispatched cfg srv NewTag); [exact Ht |].
  simpl.
  rewrite (run_new_tag cfg srv ev s s1 s2 s3 uid members n created
             Hauth Hlogin Huid Hbody Hname Hn Hsearch Hcreate).
  destruct created; reflexivity.
Qed.

(** X15: a create-product request whose body passes the checks on name and
    prices, whose [tag_ids] is absent, falsy or a list of which the ERP finds
    as many tags as it has entries, and for whose trimmed name the search
    finds nothing, issues one [create]: a product under the trimmed name,
    with the prices of the body, of type [product], to be sold and not
    purchased, with the tag ids as one replace-all command when there are
    any.  It then reads the new product and its tags, and the 201 answer
    reports the name, the prices and the tags read back, not those of the
    request. *)
Theorem new_product_call_by_call ev s s1 s2 s3 s4 s5 s6 uid members n x cost_price
    items product_id created product_tags :
  dispatch ev = Some NewProduct →
  authorized cfg ev = true →
  srv (login_call cfg) s = (s1, inr (Some uid)) →
  uid ≠ 0 →
  ev_body ev = Parsed (JObject members) →
  valid_basics members n x cost_price →
  let tag_ids := default (JArray []) (assoc "tag_ids" members) in
  let check := kw_call cfg uid (Search product_tag [Cond "id" "in" tag_ids] None) in
  match items with
  | [] => truthy tag_ids = false ∧ s2 = s1
  | _ => tag_ids = JArray items
         ∧ ∃ existing, srv check s1 = (s2, inr existing)
                       ∧ List.length existing = List.length items
  end →
  let search :=
    kw_call cfg uid
      (Search product_product [Cond "name" "=" (JString (PyStr.strip n))] None) in
  let create :=
    kw_call cfg uid
      (CreateProduct {|
         pd_name := PyStr.strip n;
         pd_list_price := x;
         pd_type := "product";
         pd_sale_ok := true;
         pd_purchase_ok := false;
         pd_product_tag_ids := match items with [] => [] | _ => [(6, 0, items)] end;
         pd_standard_price := cost_price |}) in
  let read_created :=
    kw_call cfg uid
      (ReadProduct [product_id]
         ["id"; "name"; "standard_price"; "list_price"; "product_tag_ids"]) in
  srv search s2 = (s3, inr []) →
  srv create s3 = (s4, inr product_id) →
  srv read_created s4 = (s5, inr [created]) →
  match p_product_tag_ids created with
  | [] => product_tags = [] ∧ s6 = s5
  | tag_ids => srv (kw_call cfg uid (ReadTag tag_ids ["id"; "name"; "color"])) s5
               = (s6, inr product_tags)
  end →
  run srv (lambda_handler cfg ev) s
  = (s6,
     login_call cfg :: match items with [] => [] | _ => [check] end
     ++ [search; create; read_created]
     ++ match p_product_tag_ids created with
        | [] => []
        | tag_ids => [kw_call cfg uid (ReadTag tag_ids ["id"; "name"; "color"])]
        end,
     inr {| statusCode := 201;
            r_headers := Some [("Access-Control-Allow-Origin", "*");
                               ("Content-Type", "application/json")];
            r_body := Some (JObject [
              ("success", JBool true);
              ("message", JString "Product created successfully");
              ("data", JObject [
                 ("id", JInt product_id);
                 ("name", JString (p_name created));
                 ("cost_price", JFloat (p_standard_price created));
                 ("sale_price", JFloat (p_list_price created));
                 ("tags",
                  JArray ((λ t, JObject [("id", JInt (t_id t));
                                         ("name", JString (t_name t));
                                         ("color", t_color t)])
                            <$> product_tags));
                 ("can_be_sold", JBool true);
                 ("can_be_purchased", JBool false)])]) |}).
Proof.
  intros Ht Hauth Hlogin Huid Hbody Hbasics tag_ids check Hcheck
    search create read_created Hsearch Hcreate Hread Htags.
  pose proof (run_read_product_tags uid created product_tags s5 s6 Htags) as Hrtags.
  assert (Hcommands :
            (if truthy tag_ids then [(6, 0, items_of tag_ids)] else [])
            = match items with [] => [] | _ => [(6, 0, items)] end).
  { destruct items as [| item items].
    - destruct Hcheck as [-> _]. reflexivity.
    - destruct Hcheck as [-> _]. reflexivity. }
  assert (Hparams :
            run srv (product_params_of cfg (models_proxy cfg) uid ev) s1
            = (s2, match items with [] => [] | _ => [check] end,
               inr (inr {| pp_product_name := PyStr.strip n; pp_sales_price := x;
                           pp_cost_price := cost_price; pp_tag_ids := tag_ids |}))).
  { destruct items as [| item items].
    - destruct Hcheck as [Hfalsy ->].
      erewrite product_params_no_tags by eassumption. reflexivity.
    - destruct Hcheck as (Hitems & existing & Hexisting & Hlen).
      assert (Htag_ids : assoc "tag_ids" members = Some (JArray (item :: items))).
      { subst tag_ids. destruct (assoc "tag_ids" members); simpl in Hitems;
          [congruence | discriminate]. }
      subst check. rewrite Hitems in Hexisting |- *.
      erewrite run_product_params_checked by (try eassumption; discriminate).
      rewrite Hlen, Nat.eqb_refl. reflexivity. }
  subst search create read_created. unfold kw_call in *.
  apply (run_dispatched cfg srv NewProduct); [exact Ht |].
  simpl. unfold handle_create_product.
  eapply run_after_login; [exact Hauth | exact Hlogin | exact Huid |].
  cbn beta iota. rewrite run_bind, Hparams. cbn beta iota.
  rewrite run_try. unfold store_product, name_is, created_fields.
  cbn [pp_product_name pp_sales_price pp_cost_price pp_tag_ids].
  rewrite Hcommands.
  run_call Hsearch. run_call Hcreate. run_answer Hread.
  cbn [item0 of_option head lift bind run].
  rewrite run_bind, Hrtags. cbn beta iota. cbn [run].
  rewrite app_nil_r. reflexivity.
Qed.

(** X16: a tag listing whose search finds tags reads them, then counts the
    tags matching the same domain.  The 200 answer, written out, lists the
    tags as the ERP returned them, each with id, name and colour, and its
    [has_more] says whether offset plus limit is below that count. *)
Theorem tag_page_call_by_call ev s s1 s2 s3 s4 uid p tag_ids tags total_count :
  dispatch ev = Some ListTags →
  authorized cfg ev = true →
  srv (login_call cfg) s = (s1, inr (Some uid)) →
  uid ≠ 0 →
  tags_params_of ev (default "GET" (ev_method ev)) = Ret (inr p) →
  let tag_domain :=
    if truthy (tp_search_term p) then [Cond "name" "ilike" (tp_search_term p)] else [] in
  let search :=
    kw_call cfg uid
      (Search product_tag tag_domain
         (Some {| kw_limit := tp_limit p; kw_offset := tp_offset p;
                  kw_order := "name" |})) in
  let read := kw_call cfg uid (ReadTag tag_ids ["id"; "name"; "color"]) in
  let count := kw_call cfg uid (SearchCount product_tag tag_domain) in
  srv search s1 = (s2, inr tag_ids) →
  tag_ids ≠ [] →
  srv read s2 = (s3, inr tags) →
  srv count s3 = (s4, inr total_count) →
  run srv (lambda_handler cfg ev) s
  = (s4,
     [login_call cfg; search; read; count],
     inr {| statusCode := 200;
            r_headers := Some [("Access-Control-Allow-Origin", "*");
                               ("Content-Type", "application/json")];
            r_body := Some (JObject [
              ("success", JBool true);
              ("data",
               JArray ((λ t, JObject [("id", JInt (t_id t));
                                      ("name", JString (t_name t));
                                      ("color", t_color t)])
                         <$> tags));
              ("pagination", JObject [
                 ("total_count", JInt total_count);
                 ("limit", JInt (tp_limit p));
                 ("offset", JInt (tp_offset p));
                 ("has_more", JBool (tp_offset p + tp_limit p <? total_count))]);
              ("filters_applied", JObject [
                 ("search_term", tp_search_term p);
                 ("search_method", JString (default "GET" (ev_method ev)))])]) |}).
Proof.
  intros Ht Hauth Hlogin Huid Hparams tag_domain search read count
    Hsearch Hids Hread Hcount.
  subst tag_domain search read count.
  apply (run_dispatched cfg srv ListTags); [exact Ht |].
  simpl. unfold handle_list_tags.
  eapply run_after_login; [exact Hauth | exact Hlogin | exact Huid |].
  cbn beta iota. rewrite Hparams. cbn [bind].
  unfold retrieve_tags, tags_domain, name_order, tag_fields.
  run_answer Hsearch. destruct tag_ids as [| i tag_ids]; [contradiction |].
  run_answer Hread. run_answer Hcount. reflexivity.
Qed.

(** X17: when the id search of a listing raises, the answer is 500.  The
    inventory listing names the fault string of an XML-RPC fault and hides
    any other exception behind a fixed message; the tag listing gives the
    text of the exception. *)
Theorem listing_errors ev s s1 uid e :
  authorized cfg ev = true →
  srv (login_call cfg) s = (s1, inr (Some uid)) →
  uid ≠ 0 →
  (∀ p d s2,
     dispatch ev = Some ListInventory →
     inventory_params_of ev (default "GET" (ev_method ev)) = Ret (inr p) →
     inventory_domain (ip_search_term p) (ip_category_id p) = inr d →
     srv (kw_call cfg uid (Search product_product d
                             (name_order (ip_limit p) (ip_offset p)))) s1
     = (s2, inl e) →
     run srv (lambda_handler cfg ev) s
     = (s2,
        [login_call cfg;
         kw_call cfg uid (Search product_product d
                            (name_order (ip_limit p) (ip_offset p)))],
        inr (error_response 500
               (if is_Fault e then "Odoo API error: " +:+ faultString e
                else "An unexpected server error occurred."))))
  ∧ (∀ p s2,
     dispatch ev = Some ListTags →
     tags_params_of ev (default "GET" (ev_method ev)) = Ret (inr p) →
     srv (kw_call cfg uid (Search product_tag (tags_domain (tp_search_term p))
                             (name_order (tp_limit p) (tp_offset p)))) s1
     = (s2, inl e) →
     run srv (lambda_handler cfg ev) s
     = (s2,
        [login_call cfg;
         kw_call cfg uid (Search product_tag (tags_domain (tp_search_term p))
                            (name_order (tp_limit p) (tp_offset p)))],
        inr (error_response 500 ("Could not retrieve tags: " +:+ exn_str e)))).
Proof.
  intros Hauth Hlogin Huid. split.
  - intros p d s2 Ht Hparams Hd Hsearch.
    apply (run_dispatched cfg srv ListInventory); [exact Ht |].
    simpl. unfold handle_list_inventory.
    eapply run_after_login; [exact Hauth | exact Hlogin | exact Huid |].
    cbn beta iota. rewrite Hparams. cbn [bind].
    unfold retrieve_inventory. rewrite Hd.
    run_call Hsearch. destruct (is_Fault e); reflexivity.
  - intros p s2 Ht Hparams Hsearch.
    apply (run_dispatched cfg srv ListTags); [exact Ht |].
    simpl. unfold handle_list_tags.
    eapply run_after_login; [exact Hauth | exact Hlogin | exact Huid |].
    cbn beta iota. rewrite Hparams. cbn [bind].
    unfold retrieve_tags.
    run_call Hsearch. reflexivity.
Qed.

End Requests.

(** ** The same request twice *)

Section Repeats.
Context `{PyRuntime}.
Variable cfg : config.

Lemma run_rpc_state {S A} (srv : server S) c (k : res (reply c) → prog A) s :
  (run srv (Rpc c k) s).1.1 = (run srv (k (srv c s).2) (srv c s).1).1.1.
Proof.
  simpl. destruct (srv c s) as [s1 r]. simpl.
  destruct (run srv (k r) s1) as [[s2 calls] out]. reflexivity.
Qed.

Lemma run_try_state {S A} (srv : server S) (p : prog A) (h : exn → prog A) s :
  (∀ e s', (run srv (h e) s').1.1 = s') →
  (run srv (try_except p h) s).1.1 = (run srv p s).1.1.
Proof.
  intros Hh. rewrite run_try.
  destruct (run srv p s) as [[s1 calls1] [e | a]]; [| reflexivity].
  specialize (Hh e s1). destruct (run srv (h e) s1) as [[s2 calls2] out2]. exact Hh.
Qed.

Lemma run_bind_state {S A B} (srv : server S) (p : prog A) (f : A → prog B) s :
  (run srv (bind p f) s).1.1
  = match (run srv p s).2 with
    | inl _ => (run srv p s).1.1
    | inr a => (run srv (f a) (run srv p s).1.1).1.1
    end.
Proof.
  rewrite run_bind. destruct (run srv p s) as [[s1 calls1] [e | a]]; [reflexivity |].
  simpl. destruct (run srv (f a) s1) as [[s2 calls2] out2]. reflexivity.
Qed.

(** The clauses of [lambda_handler] around a handler make no call. *)
Lemma run_dispatched_state {S} (srv : server S) t ev s :
  dispatch ev = Some t →
  (run srv (lambda_handler cfg ev) s).1.1 = (run srv (handler_of cfg t ev) s).1.1.
Proof.
  intros Ht. pose proof (lambda_handler_cases cfg ev) as Hcases. rewrite Ht in Hcases.
  destruct Hcases as (h & -> & [-> | ->]);
    repeat (rewrite run_try_state;
            [| intros e s'; unfold except; destruct (_ e); reflexivity]);
    reflexivity.
Qed.

(** *** What a [create] leaves in the reference ERP *)

Lemma erp_create_tag_effect st models db uid password vals :
  (erp (ExecuteKw models db uid password (CreateTag vals)) st).1 = st
  ∨ ∃ t, t ∈ st_tags (erp (ExecuteKw models db uid password (CreateTag vals)) st).1
         ∧ t_name t = td_name vals.
Proof.
  simpl. destruct (unsendable_call db uid password _); [left; reflexivity |].
  destruct (session_ok st db uid password); simpl; [left; reflexivity | right].
  eexists. split; [apply elem_of_app; right; apply list_elem_of_singleton; reflexivity |].
  reflexivity.
Qed.

Lemma erp_create_product_effect st models db uid password vals :
  (erp (ExecuteKw models db uid password (CreateProduct vals)) st).1 = st
  ∨ ∃ q, q ∈ st_products (erp (ExecuteKw models db uid password (CreateProduct vals)) st).1
         ∧ p_name q = pd_name vals.
Proof.
  simpl. destruct (unsendable_call db uid password _); [left; reflexivity |].
  destruct (session_ok st db uid password); simpl; [left; reflexivity |].
  unfold add_product.
  destruct (tag_ids_of _); [| left; reflexivity].
  destruct (from_option _ _ _); [| left; reflexivity].
  right. eexists.
  split; [apply elem_of_app; right; apply list_elem_of_singleton; reflexivity |].
  reflexivity.
Qed.

Lemma store_tag_effect st models uid name color :
  (run erp (store_tag cfg models uid name color) st).1.1 = st
  ∨ ∃ t, t ∈ st_tags (run erp (store_tag cfg models uid name color) st).1.1
         ∧ t_name t = name.
Proof.
  unfold store_tag. cbn [bind execute_kw rpc].
  rewrite run_rpc_state, erp_reads_only by reflexivity.
  destruct (erp _ st).2 as [e | [| i existing]]; cbn [lift bind];
    [left; reflexivity | | left; reflexivity].
  rewrite run_rpc_state.
  pose proof (erp_create_tag_effect st models (ODOO_DB cfg) uid (ODOO_PASSWORD cfg)
                {| td_name := name; td_color := color |}) as Heffect.
  destruct (erp _ st) as [st1 [e | tag_id]]; exact Heffect.
Qed.

Lemma store_product_effect st models uid p :
  (run erp (store_product cfg models uid p) st).1.1 = st
  ∨ ∃ q, q ∈ st_products (run erp (store_product cfg models uid p) st).1.1
         ∧ p_name q = pp_product_name p.
Proof.
  unfold store_product. cbn [bind execute_kw rpc]. cbv zeta.
  rewrite run_rpc_state, erp_reads_only by reflexivity.
  destruct (erp _ st).2 as [e | [| i existing]]; cbn [lift bind];
    [left; reflexivity | | left; reflexivity].
  rewrite run_rpc_state.
  match goal with
  | |- context [erp (ExecuteKw ?models ?db ?uid ?password (CreateProduct ?vals)) st] =>
      pose proof (erp_create_product_effect st models db uid password vals) as Heffect
  end.
  destruct (erp _ st) as [st1 created]. cbn [fst snd] in *.
  rewrite run_reads_only; [exact Heffect |].
  unfold read_product_tags. repeat issue_step.
Qed.

Lemma create_tag_effect ev st :
  (run erp (handle_create_tag cfg ev) st).1.1 = st
  ∨ ∃ members n,
      ev_body ev = Parsed (JObject members)
      ∧ assoc "name" members = Some (JString n)
      ∧ ∃ t, t ∈ st_tags (run erp (handle_create_tag cfg ev) st).1.1
             ∧ t_name t = PyStr.strip n.
Proof.
  unfold handle_create_tag.
  rewrite run_bind_state,
    (run_reads_only _ st (authenticate_request_reads_only cfg ev)).
  destruct (run erp (authenticate_request cfg ev) st).2 as [e | [early | [uid models]]];
    [left; reflexivity.. |].
  rewrite run_bind_state, (run_reads_only _ st (tag_params_reads_only ev)).
  destruct (run erp (tag_params_of ev) st).2 as [e | [early | [tag_name color]]] eqn:Hout;
    [left; reflexivity.. |].
  destruct (leaves_run _ _ _ erp st _ (tag_params_named ev) Hout)
    as (data & Hbody & members & n & -> & Hname).
  pose proof (leaves_run _ _ _ erp st _ (tag_params_name ev members n Hbody Hname) Hout)
    as Hstrip.
  simpl in Hstrip. subst tag_name.
  rewrite run_try_state by (intros e s'; unfold except; destruct (_ e); reflexivity).
  destruct (store_tag_effect st models uid (PyStr.strip n) color) as [Hsame | Hnew];
    [left; exact Hsame | right].
  exists members, n. auto.
Qed.

Lemma create_product_effect ev st :
  (run erp (handle_create_product cfg ev) st).1.1 = st
  ∨ ∃ members n,
      ev_body ev = Parsed (JObject members)
      ∧ assoc "name" members = Some (JString n)
      ∧ ∃ q, q ∈ st_products (run erp (handle_create_product cfg ev) st).1.1
             ∧ p_name q = PyStr.strip n.
Proof.
  unfold handle_create_product.
  rewrite run_bind_state,
    (run_reads_only _ st (authenticate_request_reads_only cfg ev)).
  destruct (run erp (authenticate_request cfg ev) st).2 as [e | [early | [uid models]]];
    [left; reflexivity.. |].
  rewrite run_bind_state,
    (run_reads_only _ st (product_params_reads_only cfg models uid ev)).
  destruct (run erp (product_params_of cfg models uid ev) st).2 as [e | [early | p]] eqn:Hout;
    [left; reflexivity.. |].
  destruct (leaves_run _ _ _ erp st _ (product_params_named cfg models uid ev) Hout)
    as (data & Hbody & members & n & -> & Hname).
  pose proof (leaves_run _ _ _ erp st _
                (product_params_name cfg ev members n models uid Hbody Hname) Hout)
    as Hstrip.
  simpl in Hstrip.
  rewrite run_try_state by (intros e s'; unfold except; destruct (_ e); reflexivity).
  destruct (store_product_effect st models uid p) as [Hsame | Hnew];
    [left; exact Hsame | right].
  rewrite Hstrip in Hnew. exists members, n. auto.
Qed.

(** X18: on the reference ERP a create request sent a second time creates
    nothing more: whatever the first request did to the store, the store
    after the second one is the store after the first. *)
Theorem repeated_create_adds_nothing ev t st :
  dispatch ev = Some t →
  t = NewTag ∨ t = NewProduct →
  (run erp (lambda_handler cfg ev) (run erp (lambda_handler cfg ev) st).1.1).1.1
  = (run erp (lambda_handler cfg ev) st).1.1.
Proof.
  intros Ht Hcreate.
  rewrite !(run_dispatched_state erp t ev) by exact Ht.
  destruct Hcreate as [-> | ->]; simpl.
  - destruct (create_tag_effect ev st) as [Hsame | (members & n & Hbody & Hname & Hexists)].
    + rewrite Hsame. exact Hsame.
    + apply (create_tag_quiet cfg ev _ members n Hbody Hname Hexists).
  - destruct (create_product_effect ev st)
      as [Hsame | (members & n & Hbody & Hname & Hexists)].
    + rewrite Hsame. exact Hsame.
    + apply (create_product_quiet cfg ev _ members n Hbody Hname Hexists).
Qed.

End Repeats.

(** ** The domain of a listing *)

Section Domains.
Context `{PyRuntime}.
Variable cfg : config.
Context {S : Type} (srv : server S).

Lemma inventory_domain_head search_term category_id d :
  inventory_domain search_term category_id = inr d →
  head d = Some (Cond "type" "=" (JString "product")).
Proof.
  unfold inventory_domain.
  destruct (truthy search_term), (truthy category_id); simpl;
    try destruct (py_int category_id); simpl; intros [= <-]; reflexivity.
Qed.

Lemma list_inventory_typed ev : calls_all product_typed (handle_list_inventory cfg ev).
Proof.
  unfold handle_list_inventory.
  apply calls_all_bind; [unfold authenticate_request; repeat validated_step |].
  intros [early | [uid models]]; [constructor |].
  apply calls_all_bind; [unfold inventory_params_of; repeat validated_step |].
  intros [early | p]; [constructor |].
  unfold retrieve_inventory. cbv zeta.
  destruct (inventory_domain _ _) as [e | d] eqn:Hd; [repeat validated_step |].
  pose proof (inventory_domain_head _ _ _ Hd) as Hhead.
  repeat validated_step.
Qed.

(** X19: every product search and every product count of an inventory
    listing is restricted to records of type [product], whatever search term
    and category the request gives. *)
Theorem listing_is_of_products ev s :
  dispatch ev = Some ListInventory →
  Forall product_typed (run srv (lambda_handler cfg ev) s).1.2.
Proof.
  intros Ht. apply calls_all_run, lambda_handler_calls. intros t Ht'.
  rewrite Ht in Ht'. injection Ht' as <-. apply list_inventory_typed.
Qed.

End Domains.

(** * The properties on the sample data *)

#[local] Existing Instance Sample.whole_numbers.

(** C1 as stated fails: with a client id and secret configured, a CORS
    preflight that carries no credentials is answered 204, not 401. *)
Lemma preflight_is_not_401 :
  str_truthy (CLIENT_ID Sample.cfg) = true
  ∧ str_truthy (CLIENT_SECRET Sample.cfg) = true
  ∧ credentials_match Sample.cfg Sample.preflight = false
  ∧ Sample.serve Sample.cfg Sample.preflight Sample.db
    = (Sample.db, [], inr options_response)
  ∧ statusCode options_response ≠ 401.
Proof. repeat split; try reflexivity. discriminate. Qed.

Lemma unauthorized_when_dispatched_witness :
  dispatch Sample.intruder = Some ListInventory
  ∧ run erp (lambda_handler Sample.cfg Sample.intruder) Sample.db
    = (Sample.db, [], inr (error_response 401 "Unauthorized")).
Proof.
  split; [reflexivity |].
  apply (unauthorized_when_dispatched Sample.cfg Sample.intruder ListInventory);
    reflexivity.
Defined.

(** C2 as stated fails: with no VERIFY_SSL in the environment the login
    goes over a proxy whose context checks neither host name nor
    certificate. *)
Lemma verification_is_off_by_default :
  Sample.environ !! "VERIFY_SSL" = None
  ∧ (run erp (authenticate_request (load_config Sample.environ) Sample.first_page)
         Sample.db).1.2
    = [Authenticate
         {| uri := "https://erp.example.com/xmlrpc/2/common";
            context := {| check_hostname := false; verify_mode := CERT_NONE |} |}
         (Some "prod") (Some "api") (Some "pw")].
Proof. split; reflexivity. Qed.

Lemma tls_verification_is_opt_in_witness :
  authorized (load_config Sample.environ) Sample.first_page = true
  ∧ make_ssl_context (load_config Sample.environ)
    = {| check_hostname := false; verify_mode := CERT_NONE |}.
Proof.
  split; [reflexivity |].
  apply (tls_verification_is_opt_in Sample.environ Sample.first_page store erp Sample.db);
    reflexivity.
Defined.

Lemma ambiguous_update_changes_nothing_witness :
  PyStr.strip ("Widget" +:+ Sample.nbsp) = "Widget"
  ∧ candidates "Widget" Sample.db
    = [Sample.mk_product 10 "Widget" 10 4 [1]; Sample.mk_product 11 "Widget" 12 5 [1; 2]]
  ∧ ∃ calls,
      run erp (handle_update_product Sample.cfg Sample.reprice_widget) Sample.db
      = (Sample.db, calls,
         inr {| statusCode := 400;
                r_headers := None;
                r_body := Some (JObject [
                  ("error", JString ("Multiple products found matching " +:+ PyStr.dq
                                     +:+ "Widget" +:+ PyStr.dq));
                  ("matches", JArray [
                     JObject [("id", JInt 10); ("name", JString "Widget")];
                     JObject [("id", JInt 11); ("name", JString "Widget")]]);
                  ("suggestion", JString "Please use the exact product name")]) |})
      ∧ Forall reads_only calls.
Proof.
  split; [reflexivity |]. split; [reflexivity |].
  edestruct (ambiguous_update_changes_nothing (H := Sample.whole_numbers)
               Sample.cfg Sample.reprice_widget Sample.db 2
               [("product_name", JString ("Widget" +:+ Sample.nbsp)); ("price", JInt 15)]
               ("Widget" +:+ Sample.nbsp) (JInt 15) (15 : @float Sample.whole_numbers))
    as (calls & Hrun & _ & Hreads).
  - reflexivity.
  - reflexivity.
  - lia.
  - unfold serial_ids. apply (bool_decide_unpack _). vm_compute. exact I.
  - reflexivity.
  - reflexivity.
  - vm_compute. discriminate.
  - reflexivity.
  - reflexivity.
  - reflexivity.
  - vm_compute. lia.
  - exists calls. split; [exact Hrun | exact Hreads].
Defined.

(** C4 as stated fails: a request to create a product under the name of the
    existing Gadget, with the right credentials and a negative price, is
    answered 400, not 409: the prices are checked before the name is looked
    up. *)
Lemma negative_price_before_conflict :
  ev_body Sample.gadget_below_zero
  = Parsed (JObject [("name", JString "Gadget"); ("price", JInt (-1))])
  ∧ Sample.mk_product 12 "Gadget" 7 3 [] ∈ st_products Sample.db
  ∧ authorized Sample.cfg Sample.gadget_below_zero = true
  ∧ Sample.serve Sample.cfg Sample.gadget_below_zero Sample.db
    = (Sample.db, [login_call Sample.cfg],
       inr {| statusCode := 400; r_headers := None;
              r_body := Some (JObject [
                ("error", JString "Price must be a positive number")]) |}).
Proof.
  split; [reflexivity |]. split; [| split; reflexivity].
  apply list_elem_of_In. simpl. auto.
Qed.

Lemma duplicate_name_is_conflict_witness :
  quiet Sample.db (handle_create_tag Sample.cfg Sample.premium_again)
  ∧ run erp (handle_create_tag Sample.cfg Sample.premium_again) Sample.db
    = (Sample.db,
       [login_call Sample.cfg;
        kw_call Sample.cfg 2
          (Search product_tag [Cond "name" "=" (JString "Premium")] None)],
       inr {| statusCode := 409; r_headers := None;
              r_body := Some (JObject [
                ("error", JString ("Tag " +:+ PyStr.dq +:+ "Premium" +:+ PyStr.dq
                                   +:+ " already exists"))]) |})
  ∧ quiet Sample.db (handle_create_product Sample.cfg Sample.gadget_again)
  ∧ run erp (handle_create_product Sample.cfg Sample.gadget_again) Sample.db
    = (Sample.db,
       [login_call Sample.cfg;
        kw_call Sample.cfg 2
          (Search product_product [Cond "name" "=" (JString "Gadget")] None)],
       inr {| statusCode := 409; r_headers := None;
              r_body := Some (JObject [
                ("error", JString ("Product " +:+ PyStr.dq +:+ "Gadget" +:+ PyStr.dq
                                   +:+ " already exists"))]) |})
  ∧ quiet Sample.db (handle_create_product Sample.cfg Sample.gadget_below_zero).
Proof.
  destruct (duplicate_name_is_conflict Sample.cfg Sample.premium_again Sample.db
              [("name", JString " Premium "); ("color", JInt 4)] " Premium "
              eq_refl eq_refl) as [Htag _].
  destruct (duplicate_name_is_conflict Sample.cfg Sample.gadget_again Sample.db
              [("name", JString "Gadget"); ("price", JInt 9)] "Gadget"
              eq_refl eq_refl) as [_ Hproduct].
  destruct (duplicate_name_is_conflict Sample.cfg Sample.gadget_below_zero Sample.db
              [("name", JString "Gadget"); ("price", JInt (-1))] "Gadget"
              eq_refl eq_refl) as [_ Hbelow].
  assert (Hpremium : ∃ t, t ∈ st_tags Sample.db ∧ t_name t = PyStr.strip " Premium ").
  { exists (Sample.mk_tag 1 "Premium" 5). split; [| reflexivity].
    apply list_elem_of_In. simpl. auto. }
  assert (Hgadget : ∃ q, q ∈ st_products Sample.db ∧ p_name q = PyStr.strip "Gadget").
  { exists (Sample.mk_product 12 "Gadget" 7 3 []). split; [| reflexivity].
    apply list_elem_of_In. simpl. auto. }
  destruct (Htag Hpremium) as [Hquiet Hconflict].
  destruct (Hproduct Hgadget) as [Hquiet' Hconflict'].
  destruct (Hbelow Hgadget) as [Hquiet'' _].
  split; [exact Hquiet |]. split.
  { apply (Hconflict 2); [reflexivity | reflexivity | lia | reflexivity |].
    vm_compute. discriminate. }
  split; [exact Hquiet' |]. split; [| exact Hquiet''].
  apply (Hconflict' 2 (9 : @float Sample.whole_numbers) None);
    [reflexivity | reflexivity | lia | reflexivity | | ].
  - unfold valid_basics, cost_price_is. repeat split; try reflexivity.
    vm_compute. discriminate.
  - intros Htruthy. discriminate Htruthy.
Defined.

(** C5 as stated fails: GET /?limit=abc, with the right credentials, is
    answered 500 "Internal server error", not 400. *)
Lemma bad_limit_is_500 :
  authorized Sample.cfg Sample.bad_limit = true
  ∧ assoc "limit" (default [] (ev_queryStringParameters Sample.bad_limit)) = Some "abc"
  ∧ int_of_str "abc" = None
  ∧ Sample.serve Sample.cfg Sample.bad_limit Sample.db
    = (Sample.db, [login_call Sample.cfg],
       inr {| statusCode := 500; r_headers := None;
              r_body := Some (JObject [("error", JString "Internal server error")]) |}).
Proof. repeat split; reflexivity. Qed.

Lemma numeric_parameters_witness :
  run erp (lambda_handler Sample.cfg Sample.bad_limit) Sample.db
  = (Sample.db, [login_call Sample.cfg],
     inr {| statusCode := 500; r_headers := None;
            r_body := Some (JObject [("error", JString "Internal server error")]) |})
  ∧ run erp (handle_create_product Sample.cfg Sample.bad_price) Sample.db
    = (Sample.db, [login_call Sample.cfg],
       inr {| statusCode := 400; r_headers := None;
              r_body := Some (JObject [
                ("error", JString "Price must be a valid number")]) |})
  ∧ (run erp (handle_create_tag Sample.cfg Sample.new_tag) Sample.db).1.2
    = [login_call Sample.cfg;
       kw_call Sample.cfg 2
         (Search product_tag [Cond "name" "=" (JString "Clearance")] None);
       kw_call Sample.cfg 2 (CreateTag {| td_name := "Clearance"; td_color := JInt 7 |})].
Proof.
  split; [| split].
  - destruct (numeric_parameters Sample.cfg erp Sample.bad_limit Sample.db Sample.db 2)
      as (_ & _ & _ & Hget & _); [reflexivity | reflexivity | lia |].
    apply (Hget (py_error ValueError "invalid literal for int()") []);
      [reflexivity | left; reflexivity | left; reflexivity].
  - destruct (numeric_parameters Sample.cfg erp Sample.bad_price Sample.db Sample.db 2)
      as (Hprice & _); [reflexivity | reflexivity | lia |].
    apply (Hprice [("name", JString "Gizmo"); ("price", JString "cheap")] "Gizmo"
             (py_error ValueError "could not convert string to float"));
      try reflexivity. vm_compute. discriminate.
  - destruct (numeric_parameters Sample.cfg erp Sample.new_tag Sample.db Sample.db 2)
      as (_ & _ & _ & _ & _ & Hcolor & _); [reflexivity | reflexivity | lia |].
    destruct (Hcolor [("name", JString " Clearance "); ("color", JInt 7)] " Clearance ")
      as [_ Hcalls]; [reflexivity | reflexivity | vm_compute; discriminate |].
    apply (Hcalls Sample.db). reflexivity.
Defined.

(** C6 as stated fails: GET /?search=Gadget succeeds with the count as the
    third and last [execute_kw] of the request, after the id search and the
    bulk read. *)
Lemma count_comes_after_search_and_read :
  let domain := [Cond "type" "=" (JString "product"); Or_marker;
                 Cond "name" "ilike" (JString "Gadget");
                 Cond "default_code" "ilike" (JString "Gadget")] in
  (Sample.serve Sample.cfg Sample.find_gadget Sample.db).1.2
  = [login_call Sample.cfg;
     kw_call Sample.cfg 2
       (Search product_product domain
          (Some {| kw_limit := 100; kw_offset := 0; kw_order := "name" |}));
     kw_call Sample.cfg 2 (ReadProduct [12] product_fields);
     kw_call Sample.cfg 2 (SearchCount product_product domain)]
  ∧ ∃ r, (Sample.serve Sample.cfg Sample.find_gadget Sample.db).2 = inr r
         ∧ statusCode r = 200.
Proof. split; [reflexivity |]. eexists. split; reflexivity. Qed.

Lemma inventory_calls_in_order_witness :
  (run erp (handle_list_inventory Sample.cfg Sample.first_page) Sample.db).1.2
  = [login_call Sample.cfg;
     kw_call Sample.cfg 2
       (Search product_product [Cond "type" "=" (JString "product")]
          (Some {| kw_limit := 5; kw_offset := 0; kw_order := "name" |}));
     kw_call Sample.cfg 2
       (ReadProduct [12; 10; 11] ["id"; "name"; "list_price"; "standard_price";
                                  "currency_id"; "product_tag_ids"]);
     kw_call Sample.cfg 2
       (SearchCount product_product [Cond "type" "=" (JString "product")])]
    ++ page_tag_read Sample.cfg 2 Sample.by_name.
Proof.
  eapply (inventory_calls_in_order Sample.cfg erp Sample.first_page
            Sample.db Sample.db Sample.db Sample.db Sample.db 2
            {| ip_search_term := JString ""; ip_limit := 5; ip_offset := 0;
               ip_category_id := JString "" |});
    try reflexivity; discriminate.
Defined.

Lemma page_tags_read_once_witness :
  ∃ unique_tag_ids : list Z,
    tag_reads_in (run erp (handle_list_inventory Sample.cfg Sample.first_page) Sample.db).1.2
    = match unique_tag_ids with [] => [] | _ => [unique_tag_ids] end
    ∧ NoDup unique_tag_ids
    ∧ ∀ tag_id : Z,
        tag_id ∈ unique_tag_ids
        ↔ ∃ q : product, q ∈ Sample.by_name ∧ tag_id ∈ p_product_tag_ids q.
Proof.
  eapply (page_tags_read_once Sample.cfg erp Sample.first_page
            Sample.db Sample.db Sample.db Sample.db Sample.db 2
            {| ip_search_term := JString ""; ip_limit := 5; ip_offset := 0;
               ip_category_id := JString "" |} _ [12; 10; 11] Sample.by_name 3);
    try reflexivity; discriminate.
Defined.

(** C7 as stated fails: a [tag_ids] that is present and is the number 0, not
    an array, is not rejected; the product is created without tags. *)
Lemma zero_tag_ids_is_accepted :
  ev_body Sample.zero_tag_ids
  = Parsed (JObject [("name", JString "Gizmo"); ("price", JInt 9); ("tag_ids", JInt 0)])
  ∧ is_list (JInt 0) = false
  ∧ ∃ st calls r,
      Sample.serve Sample.cfg Sample.zero_tag_ids Sample.db = (st, calls, inr r)
      ∧ statusCode r = 201
      ∧ "Gizmo" ∈ p_name <$> st_products st.
Proof.
  split; [reflexivity |]. split; [reflexivity |].
  do 3 eexists. split; [reflexivity |].
  split; [reflexivity |]. apply (bool_decide_unpack _). vm_compute. exact I.
Qed.

(** The count comparison also rejects a list that names an existing tag
    twice, with the message that an id does not exist. *)
Example repeated_tag_id_is_rejected :
  tag_exists Sample.db 1
  ∧ Sample.serve Sample.cfg Sample.twice_tagged Sample.db
    = (Sample.db,
       [login_call Sample.cfg;
        kw_call Sample.cfg 2
          (Search product_tag [Cond "id" "in" (JArray [JInt 1; JInt 1])] None)],
       inr {| statusCode := 400; r_headers := None;
              r_body := Some (JObject [
                ("error", JString "One or more tag IDs do not exist")]) |}).
Proof.
  split; [| reflexivity].
  unfold tag_exists. apply (bool_decide_unpack _). vm_compute. exact I.
Qed.

Lemma tag_ids_are_checked_by_count_witness :
  run erp (handle_create_product Sample.cfg Sample.ghost_tagged) Sample.db
  = (Sample.db,
     [login_call Sample.cfg;
      kw_call Sample.cfg 2
        (Search product_tag [Cond "id" "in" (JArray [JInt 1; JInt 9])] None)],
     inr {| statusCode := 400; r_headers := None;
            r_body := Some (JObject [
              ("error", JString "One or more tag IDs do not exist")]) |})
  ∧ ∃ rest,
      (run erp (handle_create_product Sample.cfg Sample.tagged_gizmo) Sample.db).1.2
      = [login_call Sample.cfg;
         kw_call Sample.cfg 2
           (Search product_tag [Cond "id" "in" (JArray [JInt 2; JInt 1])] None);
         kw_call Sample.cfg 2
           (Search product_product [Cond "name" "=" (JString "Gizmo")] None);
         kw_call Sample.cfg 2
           (CreateProduct {| pd_name := "Gizmo";
                             pd_list_price := 9;
                             pd_type := "product";
                             pd_sale_ok := true;
                             pd_purchase_ok := false;
                             pd_product_tag_ids := [(6, 0, [JInt 2; JInt 1])];
                             pd_standard_price := None |})]
        ++ rest.
Proof.
  assert (Hserial : serial_ids Sample.db).
  { unfold serial_ids. apply (bool_decide_unpack _). vm_compute. exact I. }
  split.
  - destruct (tag_ids_are_checked_by_count (H := Sample.whole_numbers)
                Sample.cfg Sample.ghost_tagged
                [("name", JString "Gizmo"); ("price", JInt 9);
                 ("tag_ids", JArray [JInt 1; JInt 9])]
                "Gizmo" (9 : @float Sample.whole_numbers) None)
      as [_ Hcheck].
    + reflexivity.
    + reflexivity.
    + unfold valid_basics, cost_price_is. repeat split; try reflexivity.
      vm_compute. discriminate.
    + destruct (Hcheck Sample.db 2 [1; 9]) as [Hmissing _].
      * reflexivity.
      * lia.
      * exact Hserial.
      * reflexivity.
      * discriminate.
      * apply (bool_decide_unpack _). vm_compute. exact I.
      * apply (bool_decide_unpack _). vm_compute. exact I.
      * apply Hmissing. exists 9. unfold tag_exists.
        split; apply (bool_decide_unpack _); vm_compute; exact I.
  - destruct (tag_ids_are_checked_by_count (H := Sample.whole_numbers)
                Sample.cfg Sample.tagged_gizmo
                [("name", JString "Gizmo"); ("price", JInt 9);
                 ("tag_ids", JArray [JInt 2; JInt 1])]
                "Gizmo" (9 : @float Sample.whole_numbers) None)
      as [_ Hcheck].
    + reflexivity.
    + reflexivity.
    + unfold valid_basics, cost_price_is. repeat split; try reflexivity.
      vm_compute. discriminate.
    + destruct (Hcheck Sample.db 2 [2; 1]) as [_ Hfound].
      * reflexivity.
      * lia.
      * exact Hserial.
      * reflexivity.
      * discriminate.
      * apply (bool_decide_unpack _). vm_compute. exact I.
      * apply (bool_decide_unpack _). vm_compute. exact I.
      * destruct Hfound as (rest & Hcalls & Hcreate).
        { intros i Hi. unfold tag_exists.
          apply elem_of_cons in Hi as [-> | Hi];
            [| apply elem_of_cons in Hi as [-> | Hi]; [| inversion Hi]];
            apply (bool_decide_unpack _); vm_compute; exact I. }
        destruct Hcreate as [rest' Hrest]; [reflexivity |].
        exists rest'. rewrite Hcalls, Hrest. reflexivity.
Defined.

Lemma header_check_needs_both_witness :
  CLIENT_ID Sample.cfg_no_secret = Some "shop"
  ∧ CLIENT_SECRET Sample.cfg_no_secret = None
  ∧ ∃ r, (run erp (lambda_handler Sample.cfg_no_secret Sample.intruder) Sample.db).2 = inr r
         ∧ statusCode r ≠ 401.
Proof.
  split; [reflexivity |]. split; [reflexivity |].
  apply (header_check_needs_both Sample.cfg_no_secret Sample.intruder store erp Sample.db).
  right. reflexivity.
Defined.

Lemma empty_page_short_circuits_witness :
  run erp (handle_list_inventory Sample.cfg Sample.no_match) Sample.db
  = (Sample.db,
     [login_call Sample.cfg;
      kw_call Sample.cfg 2
        (Search product_product
           [Cond "type" "=" (JString "product"); Or_marker;
            Cond "name" "ilike" (JString "nothing-like-this");
            Cond "default_code" "ilike" (JString "nothing-like-this")]
           (Some {| kw_limit := 100; kw_offset := 0; kw_order := "name" |}))],
     inr {| statusCode := 200;
            r_headers := Some [("Access-Control-Allow-Origin", "*");
                               ("Content-Type", "application/json")];
            r_body := Some (JObject [
              ("success", JBool true);
              ("found", JBool false);
              ("data", JArray []);
              ("total_count", JInt 0);
              ("limit", JInt 100);
              ("offset", JInt 0);
              ("message", JString "No products found matching: nothing-like-this")]) |})
  ∧ run erp (handle_list_tags Sample.cfg Sample.no_match) Sample.db
    = (Sample.db,
       [login_call Sample.cfg;
        kw_call Sample.cfg 2
          (Search product_tag [Cond "name" "ilike" (JString "nothing-like-this")]
             (Some {| kw_limit := 100; kw_offset := 0; kw_order := "name" |}))],
       inr {| statusCode := 200;
              r_headers := Some [("Access-Control-Allow-Origin", "*");
                                 ("Content-Type", "application/json")];
              r_body := Some (JObject [
                ("success", JBool true);
                ("data", JArray []);
                ("total_count", JInt 0);
                ("limit", JInt 100);
                ("offset", JInt 0)]) |}).
Proof.
  destruct (empty_page_short_circuits Sample.cfg erp Sample.no_match
              Sample.db Sample.db Sample.db Sample.db 2)
    as [Hproducts Htags]; [reflexivity | reflexivity | discriminate |].
  split.
  - apply (Hproducts {| ip_search_term := JString "nothing-like-this"; ip_limit := 100;
                        ip_offset := 0; ip_category_id := JString "" |}
             [Cond "type" "=" (JString "product"); Or_marker;
              Cond "name" "ilike" (JString "nothing-like-this");
              Cond "default_code" "ilike" (JString "nothing-like-this")]);
      reflexivity.
  - apply (Htags {| tp_search_term := JString "nothing-like-this"; tp_limit := 100;
                    tp_offset := 0 |});
      reflexivity.
Defined.

(** ** Further requests *)

Lemma refused_without_erp_witness :
  dispatch Sample.preflight = None
  ∧ ∃ r, run erp (lambda_handler Sample.cfg Sample.preflight) Sample.db
         = (Sample.db, [], inr r)
         ∧ statusCode r ∈ [204; 400; 404; 405; 500]
         ∧ (statusCode r = 204 ↔ ev_method Sample.preflight = Some "OPTIONS").
Proof.
  split; [reflexivity |].
  apply (refused_without_erp Sample.cfg erp Sample.preflight Sample.db). reflexivity.
Defined.

Lemma delete_is_never_served_witness :
  ev_method Sample.delete_gadget = Some "DELETE"
  ∧ ∃ r, run erp (lambda_handler Sample.cfg Sample.delete_gadget) Sample.db
         = (Sample.db, [], inr r)
         ∧ statusCode r = 405.
Proof.
  split; [reflexivity |].
  destruct (delete_is_never_served Sample.cfg erp Sample.delete_gadget Sample.db eq_refl)
    as (r & Hrun & Hstatus).
  exists r. split; [exact Hrun |]. rewrite Hstatus. reflexivity.
Defined.

Lemma path_is_its_first_segment_witness :
  head (path_parts_of "/tags/7/") = head (path_parts_of "//tags")
  ∧ lambda_handler Sample.cfg (with_path (Some "/tags/7/") Sample.all_tags)
    = lambda_handler Sample.cfg (with_path (Some "//tags") Sample.all_tags).
Proof.
  split; [reflexivity |].
  apply (path_is_its_first_segment Sample.cfg Sample.all_tags "/tags/7/" "//tags").
  reflexivity.
Defined.

Lemma listings_only_read_witness :
  dispatch Sample.search_or_create = Some ListTags
  ∧ Forall reads_only
      (run erp (lambda_handler Sample.cfg Sample.search_or_create) Sample.db).1.2
  ∧ (run erp (lambda_handler Sample.cfg Sample.search_or_create) Sample.db).1.1
    = Sample.db.
Proof.
  split; [reflexivity |].
  apply (listings_only_read Sample.cfg erp Sample.search_or_create ListTags
           Sample.db Sample.db); [reflexivity | right; reflexivity].
Defined.

Lemma one_change_of_its_kind_witness :
  dispatch Sample.tagged_gizmo = Some NewProduct
  ∧ Forall (λ c, may_issue NewProduct c = true)
      (run erp (lambda_handler Sample.cfg Sample.tagged_gizmo) Sample.db).1.2
  ∧ (mutations (run erp (lambda_handler Sample.cfg Sample.tagged_gizmo) Sample.db).1.2
     ≤ 1)%nat.
Proof.
  split; [reflexivity |].
  apply (one_change_of_its_kind Sample.cfg erp Sample.tagged_gizmo NewProduct Sample.db).
  reflexivity.
Defined.

Lemma failed_login_is_500_witness :
  run erp (lambda_handler Sample.stale_cfg Sample.first_page) Sample.db
  = (Sample.db, [login_call Sample.stale_cfg],
     inr (error_response 500
            "Could not authenticate with Odoo: Authentication failed. Please check credentials.")).
Proof.
  apply (failed_login_is_500 Sample.stale_cfg erp Sample.first_page ListInventory
           Sample.db Sample.db (inr None));
    reflexivity.
Defined.

Lemma header_names_ignore_case_witness :
  same_headers Sample.good_headers Sample.shouted_headers
  ∧ lambda_handler Sample.cfg (with_headers Sample.good_headers Sample.first_page)
    = lambda_handler Sample.cfg (with_headers Sample.shouted_headers Sample.first_page).
Proof.
  assert (Hsame : same_headers Sample.good_headers Sample.shouted_headers)
    by (repeat constructor).
  split; [exact Hsame |].
  apply (header_names_ignore_case Sample.cfg Sample.first_page
           Sample.good_headers Sample.shouted_headers Hsame).
Defined.

Lemma listed_tags_by_id_witness :
  (run erp (lambda_handler Sample.cfg Sample.first_page) Sample.db).2
  = inr {| statusCode := 200;
           r_headers := Some [("Access-Control-Allow-Origin", "*");
                              ("Content-Type", "application/json")];
           r_body := Some (JObject [
             ("success", JBool true);
             ("found", JBool true);
             ("data", JArray [
                JObject [
                  ("id", JInt 12); ("name", JString "Gadget");
                  ("price", JFloat 7); ("cost_price", JFloat 3);
                  ("currency", JObject [("id", JInt 1); ("name", JString "USD")]);
                  ("tags", JArray [])];
                JObject [
                  ("id", JInt 10); ("name", JString "Widget");
                  ("price", JFloat 10); ("cost_price", JFloat 4);
                  ("currency", JObject [("id", JInt 1); ("name", JString "USD")]);
                  ("tags", JArray [
                     JObject [("id", JInt 1); ("name", JString "Premium");
                              ("color", JInt 5)]])];
                JObject [
                  ("id", JInt 11); ("name", JString "Widget");
                  ("price", JFloat 12); ("cost_price", JFloat 5);
                  ("currency", JObject [("id", JInt 1); ("name", JString "USD")]);
                  ("tags", JArray [
                     JObject [("id", JInt 1); ("name", JString "Premium");
                              ("color", JInt 5)];
                     JObject [("id", JInt 2); ("name", JString "Sale");
                              ("color", JInt 3)]])]]);
             ("pagination", JObject [
                ("total_count", JInt 3);
                ("limit", JInt 5);
                ("offset", JInt 0);
                ("has_more", JBool false)]);
             ("filters_applied", JObject [
                ("search_term", JString "");
                ("category_id", JString "");
                ("search_method", JString "GET")]);
             ("message", JString "Found 3 product(s)")]) |}.
Proof.
  edestruct (listed_tags_by_id Sample.cfg erp Sample.first_page
               Sample.db Sample.db Sample.db Sample.db Sample.db Sample.db 2
               {| ip_search_term := JString ""; ip_limit := 5; ip_offset := 0;
                  ip_category_id := JString "" |}
               [Cond "type" "=" (JString "product")] [12; 10; 11] Sample.by_name 3
               [Sample.mk_tag 2 "Sale" 3; Sample.mk_tag 1 "Premium" 5])
    as [_ Hbody].
  - reflexivity.
  - reflexivity.
  - reflexivity.
  - lia.
  - reflexivity.
  - reflexivity.
  - reflexivity.
  - discriminate.
  - reflexivity.
  - reflexivity.
  - reflexivity.
  - exact Hbody.
Defined.

Lemma price_update_call_by_call_witness :
  run erp (lambda_handler Sample.cfg Sample.reprice_gadget) Sample.db
  = (Sample.db_repriced,
     [login_call Sample.cfg;
      kw_call Sample.cfg 2
        (Search product_product [Cond "name" "=" (JString "Gadget")] None);
      kw_call Sample.cfg 2
        (ReadProduct [12] ["id"; "name"; "list_price"; "standard_price"]);
      kw_call Sample.cfg 2
        (WriteProduct [12] {| ud_list_price := 8; ud_standard_price := Some 8 |});
      kw_call Sample.cfg 2
        (ReadProduct [12]
           ["id"; "name"; "list_price"; "standard_price"; "product_tag_ids"])],
     inr {| statusCode := 200;
            r_headers := Some [("Access-Control-Allow-Origin", "*");
                               ("Content-Type", "application/json")];
            r_body := Some (JObject [
              ("success", JBool true);
              ("message", JString "Product price updated successfully");
              ("data", JObject [
                 ("id", JInt 12);
                 ("name", JString "Gadget");
                 ("previous_price", JFloat 7);
                 ("new_price", JFloat 8);
                 ("cost_price", JFloat 8);
                 ("cost_price_updated", JBool true);
                 ("tags", JArray [])])]) |}).
Proof.
  apply (price_update_call_by_call (H := Sample.whole_numbers)
           Sample.cfg erp Sample.reprice_gadget
           Sample.db Sample.db Sample.db Sample.db Sample.db
           Sample.db_repriced Sample.db_repriced Sample.db_repriced 2
           [("product_name", JString "Gadget"); ("price", JInt 8);
            ("update_cost_price", JBool true)]
           "Gadget" (JInt 8) (8 : @float Sample.whole_numbers) [12]
           12 (Sample.mk_product 12 "Gadget" 7 3 []) (inr true)
           (Sample.mk_product 12 "Gadget" 8 8 []) []).
  - reflexivity.
  - reflexivity.
  - reflexivity.
  - lia.
  - reflexivity.
  - reflexivity.
  - discriminate.
  - reflexivity.
  - reflexivity.
  - reflexivity.
  - reflexivity.
  - split; reflexivity.
  - reflexivity.
  - reflexivity.
  - reflexivity.
  - split; reflexivity.
Defined.

Lemma price_update_without_match_witness :
  run erp (lambda_handler Sample.cfg Sample.reprice_gizmo) Sample.db
  = (Sample.db,
     [login_call Sample.cfg;
      kw_call Sample.cfg 2
        (Search product_product [Cond "name" "=" (JString "Gizmo")] None);
      kw_call Sample.cfg 2
        (Search product_product [Cond "name" "ilike" (JString "Gizmo")] None)],
     inr {| statusCode := 404; r_headers := None;
            r_body := Some (JObject [
              ("error", JString "Product not found: Gizmo");
              ("suggestion",
               JString "Try using the search API to find the exact product name")]) |}).
Proof.
  apply (price_update_without_match (H := Sample.whole_numbers)
           Sample.cfg erp Sample.reprice_gizmo
           Sample.db Sample.db Sample.db Sample.db 2
           [("product_name", JString "Gizmo"); ("price", JInt 8)]
           "Gizmo" (JInt 8) (8 : @float Sample.whole_numbers)).
  - reflexivity.
  - reflexivity.
  - reflexivity.
  - lia.
  - reflexivity.
  - reflexivity.
  - discriminate.
  - reflexivity.
  - reflexivity.
  - reflexivity.
  - reflexivity.
  - reflexivity.
Defined.

Lemma new_tag_call_by_call_witness :
  ∃ st,
    run erp (lambda_handler Sample.cfg Sample.new_tag) Sample.db
    = (st,
       [login_call Sample.cfg;
        kw_call Sample.cfg 2
          (Search product_tag [Cond "name" "=" (JString "Clearance")] None);
        kw_call Sample.cfg 2 (CreateTag {| td_name := "Clearance"; td_color := JInt 7 |})],
       inr {| statusCode := 201;
              r_headers := Some [("Access-Control-Allow-Origin", "*");
                                 ("Content-Type", "application/json")];
              r_body := Some (JObject [
                ("success", JBool true);
                ("message", JString "Tag created successfully");
                ("data", JObject [
                   ("id", JInt 13);
                   ("name", JString "Clearance");
                   ("color", JInt 7)])]) |})
    ∧ st_tags st = st_tags Sample.db ++ [Sample.mk_tag 13 "Clearance" 7].
Proof.
  eexists. split.
  - apply (new_tag_call_by_call Sample.cfg erp Sample.new_tag
             Sample.db Sample.db Sample.db _ 2
             [("name", JString " Clearance "); ("color", JInt 7)] " Clearance "
             (inr 13)).
    + reflexivity.
    + reflexivity.
    + reflexivity.
    + lia.
    + reflexivity.
    + reflexivity.
    + vm_compute. discriminate.
    + reflexivity.
    + reflexivity.
  - reflexivity.
Defined.

Lemma new_product_call_by_call_witness :
  ∃ st,
    run erp (lambda_handler Sample.cfg Sample.tagged_gizmo) Sample.db
    = (st,
       [login_call Sample.cfg;
        kw_call Sample.cfg 2
          (Search product_tag [Cond "id" "in" (JArray [JInt 2; JInt 1])] None);
        kw_call Sample.cfg 2
          (Search product_product [Cond "name" "=" (JString "Gizmo")] None);
        kw_call Sample.cfg 2
          (CreateProduct {| pd_name := "Gizmo";
                            pd_list_price := 9;
                            pd_type := "product";
                            pd_sale_ok := true;
                            pd_purchase_ok := false;
                            pd_product_tag_ids := [(6, 0, [JInt 2; JInt 1])];
                            pd_standard_price := None |});
        kw_call Sample.cfg 2
          (ReadProduct [13]
             ["id"; "name"; "standard_price"; "list_price"; "product_tag_ids"]);
        kw_call Sample.cfg 2 (ReadTag [2; 1] ["id"; "name"; "color"])],
       inr {| statusCode := 201;
              r_headers := Some [("Access-Control-Allow-Origin", "*");
                                 ("Content-Type", "application/json")];
              r_body := Some (JObject [
                ("success", JBool true);
                ("message", JString "Product created successfully");
                ("data", JObject [
                   ("id", JInt 13);
                   ("name", JString "Gizmo");
                   ("cost_price", JFloat 0);
                   ("sale_price", JFloat 9);
                   ("tags", JArray [
                      JObject [("id", JInt 2); ("name", JString "Sale");
                               ("color", JInt 3)];
                      JObject [("id", JInt 1); ("name", JString "Premium");
                               ("color", JInt 5)]]);
                   ("can_be_sold", JBool true);
                   ("can_be_purchased", JBool false)])]) |})
    ∧ p_product_tag_ids <$> last (st_products st) = Some [2; 1].
Proof.
  eexists. split.
  - eapply (new_product_call_by_call (H := Sample.whole_numbers)
              Sample.cfg erp Sample.tagged_gizmo
              Sample.db Sample.db Sample.db Sample.db _ _ _ 2
              [("name", JString "Gizmo"); ("price", JInt 9);
               ("tag_ids", JArray [JInt 2; JInt 1])]
              "Gizmo" (9 : @float Sample.whole_numbers) None [JInt 2; JInt 1] 13
              {| p_id := 13; p_name := "Gizmo";
                 p_list_price := (9 : @float Sample.whole_numbers);
                 p_standard_price := (0 : @float Sample.whole_numbers);
                 p_currency_id := None;
                 p_product_tag_ids := [2; 1]; p_default_code := "";
                 p_type := "product"; p_categ_id := 1;
                 p_sale_ok := true; p_purchase_ok := false |}
              [Sample.mk_tag 2 "Sale" 3; Sample.mk_tag 1 "Premium" 5]).
    + reflexivity.
    + reflexivity.
    + reflexivity.
    + lia.
    + reflexivity.
    + unfold valid_basics, cost_price_is. repeat split; try reflexivity.
      vm_compute. discriminate.
    + split; [reflexivity |]. eexists. split; reflexivity.
    + reflexivity.
    + reflexivity.
    + reflexivity.
    + reflexivity.
  - reflexivity.
Defined.

Lemma tag_page_call_by_call_witness :
  run erp (lambda_handler Sample.cfg Sample.all_tags) Sample.db
  = (Sample.db,
     [login_call Sample.cfg;
      kw_call Sample.cfg 2
        (Search product_tag []
           (Some {| kw_limit := 100; kw_offset := 0; kw_order := "name" |}));
      kw_call Sample.cfg 2 (ReadTag [1; 2] ["id"; "name"; "color"]);
      kw_call Sample.cfg 2 (SearchCount product_tag [])],
     inr {| statusCode := 200;
            r_headers := Some [("Access-Control-Allow-Origin", "*");
                               ("Content-Type", "application/json")];
            r_body := Some (JObject [
              ("success", JBool true);
              ("data", JArray [
                 JObject [("id", JInt 1); ("name", JString "Premium"); ("color", JInt 5)];
                 JObject [("id", JInt 2); ("name", JString "Sale"); ("color", JInt 3)]]);
              ("pagination", JObject [
                 ("total_count", JInt 2);
                 ("limit", JInt 100);
                 ("offset", JInt 0);
                 ("has_more", JBool false)]);
              ("filters_applied", JObject [
                 ("search_term", JString "");
                 ("search_method", JString "GET")])]) |}).
Proof.
  apply (tag_page_call_by_call Sample.cfg erp Sample.all_tags
           Sample.db Sample.db Sample.db Sample.db Sample.db 2
           {| tp_search_term := JString ""; tp_limit := 100; tp_offset := 0 |}
           [1; 2] [Sample.mk_tag 1 "Premium" 5; Sample.mk_tag 2 "Sale" 3] 2).
  - reflexivity.
  - reflexivity.
  - reflexivity.
  - lia.
  - reflexivity.
  - reflexivity.
  - discriminate.
  - reflexivity.
  - reflexivity.
Defined.

Lemma listing_errors_witness :
  run erp (lambda_handler Sample.cfg Sample.negative_limit) Sample.db
  = (Sample.db,
     [login_call Sample.cfg;
      kw_call Sample.cfg 2
        (Search product_product [Cond "type" "=" (JString "product")] (name_order (-1) 0))],
     inr (error_response 500
            "Odoo API error: LIMIT and OFFSET must not be negative")).
Proof.
  destruct (listing_errors Sample.cfg erp Sample.negative_limit Sample.db Sample.db 2
              (fault "LIMIT and OFFSET must not be negative"))
    as [Hinventory _]; [reflexivity | reflexivity | discriminate |].
  apply (Hinventory {| ip_search_term := JString ""; ip_limit := -1; ip_offset := 0;
                       ip_category_id := JString "" |}
           [Cond "type" "=" (JString "product")] Sample.db);
    reflexivity.
Defined.

Lemma repeated_create_adds_nothing_witness :
  dispatch Sample.new_tag = Some NewTag
  ∧ (run erp (lambda_handler Sample.cfg Sample.new_tag)
       (run erp (lambda_handler Sample.cfg Sample.new_tag) Sample.db).1.1).1.1
    = (run erp (lambda_handler Sample.cfg Sample.new_tag) Sample.db).1.1.
Proof.
  split; [reflexivity |].
  apply (repeated_create_adds_nothing Sample.cfg Sample.new_tag NewTag Sample.db);
    [reflexivity | left; reflexivity].
Defined.

Lemma listing_is_of_products_witness :
  dispatch Sample.find_gadget = Some ListInventory
  ∧ Forall product_typed
      (run erp (lambda_handler Sample.cfg Sample.find_gadget) Sample.db).1.2.
Proof.
  split; [reflexivity |].
  apply (listing_is_of_products Sample.cfg erp Sample.find_gadget Sample.db).
  reflexivity.
Defined.
